(** * Interaction-evolution helpers (data_funcs.py): a shallow embedding

    The Python module parses date strings, buckets the rows of a pandas
    table by day, turns a status column into 0/1 indicators, averages them
    per day and smooths the daily series with a moving average.

    Modelling choices, fixed here once:
    - a Python [str] is a [string] whose characters are read as code points
      below 256; on them the regular-expression classes [\d] and [\s] of
      CPython are the ones written in [is_digit] and [is_space];
    - exceptions are values of [exn]; a call returns [Ok v] or [Raise e];
    - a finite float64 number is modelled by the rational it denotes, and
      every float64 operation by the exact operation followed by [fl], the
      rounding to the nearest float64 number, ties to even; sums are
      accumulated from left to right.  Infinities, NaN and the sign of zero
      are not modelled: a result beyond the range of float64 stays the
      rounded rational;
    - a DataFrame lives in a store and is designated by a location, so that
      in-place updates and aliasing are visible; its columns are found by
      name, and their order in the table is not modelled;
    - of [plot_percentage_by_date] the model keeps the lines that it hands
      to matplotlib, as a list of [plot_call]; the legend and the window
      that shows the figure are not modelled. *)

From Stdlib Require Import Ascii String QArith Qcanon Qround Qabs Qpower Lqa.
From stdpp Require Import gmap strings list sorting numbers.

Close Scope Q_scope.
Close Scope Qc_scope.
Local Open Scope string_scope.
Local Open Scope Z_scope.

(** ** Exceptions and results *)

(** The exceptions of Python that the module can raise.  [Unmodelled]
    marks the few situations on which this development says nothing. *)
Inductive exn := ValueError | KeyError | AttributeError | Unmodelled.

Inductive result (A : Type) :=
| Ok (a : A)
| Raise (e : exn).
Arguments Ok {A} a.
Arguments Raise {A} e.

(** Sequencing: an exception ends the computation. *)
#[global] Instance result_bind : MBind result := λ A B k m,
  match m with
  | Ok a => k a
  | Raise e => Raise e
  end.

(** ** Characters *)

Definition ord (c : ascii) : Z := Z.of_nat (nat_of_ascii c).

(** [\d] on code points below 256. *)
Definition is_digit (c : ascii) : bool := (48 <=? ord c) && (ord c <=? 57).

(** [\s] on code points below 256 (CPython's [Py_UNICODE_ISSPACE]):
    TAB..CR, FS..US, space, NEL and the no-break space. *)
Definition is_space (c : ascii) : bool :=
  ((9 <=? ord c) && (ord c <=? 13)) || ((28 <=? ord c) && (ord c <=? 32))
  || (ord c =? 133) || (ord c =? 160).

Definition in_range (lo hi c : ascii) : bool :=
  (ord lo <=? ord c) && (ord c <=? ord hi).

(** ** The regular expressions of [_strptime.TimeRE] *)

Inductive regex :=
| Eps
| Lit (c : ascii)                  (* one literal character *)
| Cls (lo hi : ascii)              (* [lo-hi] *)
| Dig                              (* \d *)
| Spaces                           (* \s+ , greedy *)
| Cat (r1 r2 : regex)
| Alt (r1 r2 : regex)              (* r1|r2, r1 tried first *)
| Grp (name : ascii) (r : regex).  (* (?P<name>r) *)

(** Named groups found so far, most recent first. *)
Definition groups := list (ascii * string).

(** One way of matching: the text consumed, the text left, the groups. *)
Definition match_state : Type := string * string * groups.

(** All the ways [\s*] can consume a prefix, longest first. *)
Fixpoint spaces_star (s : string) : list (string * string) :=
  match s with
  | String a s' =>
      if is_space a
      then map (fun '(c, r) => (String a c, r)) (spaces_star s') ++ [("", s)]
      else [("", s)]
  | "" => [("", "")]
  end.

(** The backtracking matcher of [re]: every way of matching [r] at the
    start of [s], in the order in which the engine tries them. *)
Fixpoint matches (r : regex) (s : string) (g : groups) : list match_state :=
  match r with
  | Eps => [("", s, g)]
  | Lit c =>
      match s with
      | String a s' => if Ascii.eqb a c then [(String a "", s', g)] else []
      | "" => []
      end
  | Cls lo hi =>
      match s with
      | String a s' => if in_range lo hi a then [(String a "", s', g)] else []
      | "" => []
      end
  | Dig =>
      match s with
      | String a s' => if is_digit a then [(String a "", s', g)] else []
      | "" => []
      end
  | Spaces =>
      match s with
      | String a s' =>
          if is_space a
          then map (fun '(c, r) => (String a c, r, g)) (spaces_star s')
          else []
      | "" => []
      end
  | Cat r1 r2 =>
      flat_map (fun '(c1, s1, g1) =>
                  map (fun '(c2, s2, g2) => (c1 +:+ c2, s2, g2))
                      (matches r2 s1 g1))
               (matches r1 s g)
  | Alt r1 r2 => matches r1 s g ++ matches r2 s g
  | Grp n r1 => map (fun '(c, s', g') => (c, s', (n, c) :: g')) (matches r1 s g)
  end.

(** [re.match]: the first way, if any. *)
Definition re_match (r : regex) (s : string) : option match_state :=
  head (matches r s []).

(** The regular expressions of the directives ([TimeRE.__init__]). *)
Definition re_Y : regex := Grp "Y" (Cat Dig (Cat Dig (Cat Dig Dig))).

Definition re_m : regex :=
  Grp "m" (Alt (Cat (Lit "1") (Cls "0" "2"))
          (Alt (Cat (Lit "0") (Cls "1" "9"))
               (Cls "1" "9"))).

(** The last alternative, a space and a digit, is there for [%c]. *)
Definition re_d : regex :=
  Grp "d" (Alt (Cat (Lit "3") (Cls "0" "1"))
          (Alt (Cat (Cls "1" "2") Dig)
          (Alt (Cat (Lit "0") (Cls "1" "9"))
          (Alt (Cls "1" "9")
               (Cat (Lit " ") (Cls "1" "9")))))).

Definition re_H : regex :=
  Grp "H" (Alt (Cat (Lit "2") (Cls "0" "3"))
          (Alt (Cat (Cls "0" "1") Dig)
               Dig)).

Definition re_M : regex := Grp "M" (Alt (Cat (Cls "0" "5") Dig) Dig).

Definition re_S : regex :=
  Grp "S" (Alt (Cat (Lit "6") (Cls "0" "1"))
          (Alt (Cat (Cls "0" "5") Dig)
               Dig)).

(** The directives that occur in the formats of this module; any other
    character is taken for a bad directive. *)
Definition directive (d : ascii) : option regex :=
  match d with
  | "Y"%char => Some re_Y
  | "m"%char => Some re_m
  | "d"%char => Some re_d
  | "H"%char => Some re_H
  | "M"%char => Some re_M
  | "S"%char => Some re_S
  | _ => None
  end.

(** [TimeRE.pattern]: a run of whitespace in the format becomes [\s+], a
    directive becomes its regular expression, any other character stands
    for itself.  [in_ws] tells that the previous character was whitespace.
    The pattern is compiled with IGNORECASE, which changes nothing for the
    literals of the two formats used below (hyphen and colon). *)
Fixpoint pattern_from (in_ws : bool) (fmt : string) : option regex :=
  match fmt with
  | "" => Some Eps
  | String c rest =>
      if is_space c then
        if in_ws then pattern_from true rest
        else option_map (Cat Spaces) (pattern_from true rest)
      else if Ascii.eqb c "%" then
        match rest with
        | String d rest' =>
            match directive d, pattern_from false rest' with
            | Some r, Some p => Some (Cat r p)
            | _, _ => None
            end
        | "" => None
        end
      else option_map (Cat (Lit c)) (pattern_from false rest)
  end.

Definition pattern (fmt : string) : option regex := pattern_from false fmt.

(** ** datetime *)

Record datetime := mkdatetime {
  year : Z; month : Z; day : Z;
  hour : Z; minute : Z; second : Z
}.

Definition is_leap (y : Z) : bool :=
  (y mod 4 =? 0) && (negb (y mod 100 =? 0) || (y mod 400 =? 0)).

Definition days_in_month (y m : Z) : Z :=
  match m with
  | 2 => if is_leap y then 29 else 28
  | 4 | 6 | 9 | 11 => 30
  | _ => 31
  end.

(** [_check_date_fields] and [_check_time_fields] of [datetime]. *)
Definition valid_date (y m d : Z) : bool :=
  (1 <=? y) && (y <=? 9999) && (1 <=? m) && (m <=? 12)
  && (1 <=? d) && (d <=? days_in_month y m).

Definition valid_time (h mi s : Z) : bool :=
  (0 <=? h) && (h <=? 23) && (0 <=? mi) && (mi <=? 59)
  && (0 <=? s) && (s <=? 59).

(** [int(text)] on the text of a group: optional leading whitespace, then
    decimal digits. *)
Definition digit_val (c : ascii) : Z := ord c - 48.

Fixpoint int_digits (acc : Z) (s : string) : Z :=
  match s with
  | "" => acc
  | String c s' => int_digits (10 * acc + digit_val c) s'
  end.

Fixpoint lstrip (s : string) : string :=
  match s with
  | String c s' => if is_space c then lstrip s' else s
  | "" => ""
  end.

Definition py_int (s : string) : Z := int_digits 0 (lstrip s).

Fixpoint group (n : ascii) (g : groups) : option string :=
  match g with
  | [] => None
  | (k, v) :: g' => if Ascii.eqb k n then Some v else group n g'
  end.

Definition field (n : ascii) (dflt : Z) (g : groups) : Z :=
  match group n g with
  | Some t => py_int t
  | None => dflt
  end.

(** [datetime.datetime.strptime(data, fmt)].  Every failure is a
    ValueError: a bad directive, no match, unconverted data after the
    match, or fields that are not a date and a time. *)
Definition strptime (data fmt : string) : result datetime :=
  match pattern fmt with
  | None => Raise ValueError
  | Some r =>
      match re_match r data with
      | None => Raise ValueError
      | Some (_, rest, g) =>
          if negb (String.eqb rest "") then Raise ValueError
          else
            let y := field "Y" 1900 g in
            let m := field "m" 1 g in
            let d := field "d" 1 g in
            let h := field "H" 0 g in
            let mi := field "M" 0 g in
            let s := field "S" 0 g in
            if valid_date y m d && valid_time h mi s
            then Ok (mkdatetime y m d h mi s)
            else Raise ValueError
      end
  end.

(** [date[:-4]] *)
Definition drop_last4 (date : string) : string :=
  String.substring 0 (String.length date - 4)%nat date.

(** [date_to_datetime], lines 13-33. *)
Definition date_to_datetime (date : string) : result datetime :=
  match strptime (drop_last4 date) "%Y-%m-%d %H:%M:%S" with
  | Ok dt => Ok dt
  | Raise ValueError => strptime date "%Y-%m-%d"
  | Raise e => Raise e
  end.

(** ** float64 *)

(** A finite float64 number is modelled by the rational it denotes.
    [two_to e] is [2^e]. *)
Definition two_to (e : Z) : Q := (2 ^ e)%Q.

(** The integer [k] with [2^k <= a < 2^(k+1)], for [a > 0]. *)
Definition ilog2 (a : Q) : Z :=
  let k := Z.log2 (Qnum a) - Z.log2 (Zpos (Qden a)) in
  if Qle_bool (two_to k) a then k else k - 1.

(** The nearest integer, the even one of two that are as near. *)
Definition round_half_even (y : Q) : Z :=
  let f := Qfloor y in
  match (y - inject_Z f ?= 1 # 2)%Q with
  | Lt => f
  | Gt => f + 1
  | Eq => if Z.even f then f else f + 1
  end.

(** Rounding to float64: 53 bits of mantissa, exponents from -1074 on. *)
Definition flQ (q : Q) : Q :=
  if Qeq_bool q 0 then 0%Q
  else
    let e := Z.max (ilog2 (Qabs q) - 52) (-1074) in
    (inject_Z (Z.sgn (Qnum q) * round_half_even (Qabs q / two_to e))
     * two_to e)%Q.

Definition fl (q : Qc) : Qc := Q2Qc (flQ q).

(** The operations of float64: the exact result, rounded. *)
Definition fadd (a b : Qc) : Qc := fl (a + b)%Qc.
Definition fmul (a b : Qc) : Qc := fl (a * b)%Qc.
Definition fdiv (a b : Qc) : Qc := fl (a / b)%Qc.

(** ** numpy: [binarise] and [moving_average] *)

(** The cells of a table: strings and integers, compared by Python's [==]
    (a string never equals an integer). *)
Inductive value :=
| VStr (s : string)
| VInt (n : Z).

#[global] Instance value_eq_dec : EqDecision value.
Proof. solve_decision. Defined.

Definition py_eq (x y : value) : bool := bool_decide (x = y).

(** [int(b)] *)
Definition int_of_bool (b : bool) : Z := if b then 1 else 0.

(** [binarise], lines 49-63: [[int(x==value) for x in data_array]]. *)
Definition binarise (data_array : list value) (v : value) : list Z :=
  map (fun x => int_of_bool (py_eq x v)) data_array.

(** The inner product of the first [n] entries of two float64 arrays:
    [sum = 0; sum += x * y], entry after entry. *)
Definition dot (xs ys : list Qc) (n : nat) : Qc :=
  foldl (fun sum p => fadd sum (fmul (fst p) (snd p))) 0%Qc
        (zip (take n xs) (take n ys)).

(** [multiarray.correlate(a, w, mode='same')] for [length w <= length a]:
    the three loops of [_pyarray_correlate], with [n_left = n2 / 2] partial
    products on the left and [n2 - n_left - 1] on the right. *)
Definition correlate_same (a w : list Qc) : list Qc :=
  let n1 := length a in
  let n2 := length w in
  let n_left := (n2 / 2)%nat in
  let n_right := (n2 - n_left - 1)%nat in
  map (fun i => dot a (drop (n_left - i) w) (n2 - n_left + i)) (seq 0 n_left)
  ++ map (fun i => dot (drop i a) w n2) (seq 0 (n1 - n2 + 1))
  ++ map (fun i => dot (drop (n1 - n2 + 1 + i) a) w (n2 - 1 - i))
         (seq 0 n_right).

(** [np.convolve(a, v, mode='same')]: the longer array comes first, an empty
    array is refused, and the kernel is reversed before correlating. *)
Definition convolve_same (a v : list Qc) : result (list Qc) :=
  let '(a, v) := if (length a <? length v)%nat then (v, a) else (a, v) in
  match a, v with
  | [], _ => Raise ValueError
  | _, [] => Raise ValueError
  | _, _ => Ok (correlate_same a (rev v))
  end.

(** [np.ones((window,))/window]: the float64 quotient of 1.0 by the
    window; a negative dimension is refused. *)
Definition ones_over (window : Z) : result (list Qc) :=
  if window <? 0 then Raise ValueError
  else Ok (replicate (Z.to_nat window) (fdiv 1%Qc (fl (Qc_of_Z window)))).

(** [moving_average], lines 35-47.  The data are numbers of Python, given
    by their values; [np.convolve] makes a float64 array of them. *)
Definition moving_average (data_array : list Qc) (window : Z)
  : result (list Qc) :=
  kernel ← ones_over window;
  convolve_same (map fl data_array) kernel.

(** ** pandas: tables in a store *)

(** A column holds strings (object dtype) or integers (int64). *)
Inductive column :=
| StrCol (l : list string)
| IntCol (l : list Z).

Definition col_length (c : column) : nat :=
  match c with
  | StrCol l => length l
  | IntCol l => length l
  end.

Definition col_values (c : column) : list value :=
  match c with
  | StrCol l => map VStr l
  | IntCol l => map VInt l
  end.

Record DataFrame := mkDataFrame {
  nrows : nat;
  cols : gmap string column
}.

(** Every column has one cell per row. *)
Definition wf_frame (df : DataFrame) : Prop :=
  map_Forall (λ _ col, col_length col = nrows df) (cols df).

Abbreviation loc := positive.
Abbreviation store := (gmap loc DataFrame).

(** A location always designates a live table in Python; the model is
    silent ([Unmodelled]) on a dangling one. *)
Definition load (h : store) (l : loc) : result DataFrame :=
  match h !! l with
  | Some df => Ok df
  | None => Raise Unmodelled
  end.

(** [dataframe[c]] *)
Definition getitem (df : DataFrame) (c : string) : result column :=
  match cols df !! c with
  | Some col => Ok col
  | None => Raise KeyError
  end.

(** [dataframe[c] = col]: the column is added, or replaces the one of that
    name; its length must be the number of rows. *)
Definition setitem (df : DataFrame) (c : string) (col : column)
  : result DataFrame :=
  if decide (col_length col = nrows df)
  then Ok (mkDataFrame (nrows df) (<[c := col]> (cols df)))
  else Raise ValueError.

(** [binarise_df], lines 65-85: the table at [l] is updated in place and
    [l] itself is returned. *)
Definition binarise_df (h : store) (l : loc) (value column : string)
  : result (store * loc) :=
  df ← load h l;
  src ← getitem df column;
  df' ← setitem df value (IntCol (binarise (col_values src) (VStr value)));
  Ok (<[l := df']> h, l).

(** [add_day], lines 87-98: [.str] is refused on an integer column. *)
Definition add_day (h : store) (l : loc) : result (store * loc) :=
  df ← load h l;
  date ← getitem df "date";
  match date with
  | IntCol _ => Raise AttributeError
  | StrCol ds =>
      df' ← setitem df "day" (StrCol (map (String.substring 0 10) ds));
      Ok (<[l := df']> h, l)
  end.

(** The row numbers in ascending order of their key.  Rows of equal key
    stay in their order here; pandas' default quicksort leaves that order
    open. *)
Definition argsort {A} (R : relation A) `{!∀ x y, Decision (R x y)}
    (keys : list A) : list nat :=
  map snd (merge_sort (fun p q => R (fst p) (fst q))
                      (zip keys (seq 0 (length keys)))).

Definition take_rows {A} (idx : list nat) (l : list A) : list A :=
  omap (fun i => l !! i) idx.

Definition col_take_rows (idx : list nat) (c : column) : column :=
  match c with
  | StrCol l => StrCol (take_rows idx l)
  | IntCol l => IntCol (take_rows idx l)
  end.

(** [data.sort_values(by=...)]: a new table, the rows in key order. *)
Definition sort_values (h : store) (l : loc) (by_ : string)
  : result (store * loc) :=
  df ← load h l;
  key ← getitem df by_;
  let idx := match key with
             | StrCol ks => argsort String.le ks
             | IntCol ks => argsort Z.le ks
             end in
  let l' := fresh (dom h) in
  Ok (<[l' := mkDataFrame (nrows df) (col_take_rows idx <$> cols df)]> h, l').

Definition Z_sum (l : list Z) : Z := foldr Z.add 0 l.

(** The mean of a non-empty integer column (groups are never empty): the
    float64 quotient of the sum by the count, both exact in float64 for the
    columns of 0 and 1 that the module averages. *)
Definition mean (l : list Z) : Qc :=
  fl (Qc_of_Z (Z_sum l) / Qc_of_Z (Z.of_nat (length l)))%Qc.

(** The cells of [vals] on the rows whose key is [k]. *)
Definition group_rows (k : string) (keys : list string) (vals : list Z)
  : list Z :=
  map snd (filter (fun p => fst p = k) (zip keys vals)).

(** The keys of the groups: the distinct keys, which groupby sorts. *)
Definition group_keys (keys : list string) : list string :=
  merge_sort String.le (remove_dups keys).

(** [groupby(keys, as_index=False)[vals].mean()]: one row per group, with
    its key and the mean of its cells. *)
Definition groupby_mean (keys : list string) (vals : list Z)
  : list (string * Qc) :=
  map (fun k => (k, mean (group_rows k keys vals))) (group_keys keys).

(** The groupby-mean step on a table: [by_] must be a string column and
    [c] an integer column distinct from it. *)
Definition frame_groupby_mean (df : DataFrame) (by_ c : string)
  : result (list (string * Qc)) :=
  k ← getitem df by_;
  v ← getitem df c;
  match k, v with
  | StrCol ks, IntCol vs => Ok (groupby_mean ks vs)
  | _, _ => Raise Unmodelled
  end.

(** Lines 149-151 up to [.mean()[interaction_type]]: the daily series that
    [get_interactions] hands to [moving_average]. *)
Definition daily_series (h : store) (l : loc) (interaction_type : string)
  : result (store * list Qc) :=
  '(h1, data) ← add_day h l;
  '(h2, data) ← sort_values h1 data "day";
  '(h3, data) ← binarise_df h2 data interaction_type "status";
  df ← load h3 data;
  agg ← frame_groupby_mean df "day" interaction_type;
  Ok (h3, map snd agg).

(** [get_interactions], lines 133-151. *)
Definition get_interactions (h : store) (l : loc) (interaction_type : string)
    (window : Z) : result (store * list Qc) :=
  '(h', series) ← daily_series h l interaction_type;
  out ← moving_average series window;
  Ok (h', out).

(** ** matplotlib: [date2num] *)

Definition days_before_year (y : Z) : Z :=
  let y' := y - 1 in y' * 365 + y' / 4 - y' / 100 + y' / 400.

Definition days_before_month (y m : Z) : Z :=
  Z_sum (map (days_in_month y) (map Z.of_nat (seq 1 (Z.to_nat (m - 1))))).

(** [datetime.toordinal] *)
Definition toordinal (dt : datetime) : Z :=
  days_before_year (year dt) + days_before_month (year dt) (month dt) + day dt.

(** Days since the epoch 1970-01-01 (ordinal 719163), the default of
    matplotlib, with the time of day as a fraction: the float64 quotient of
    the seconds since the epoch by 86400. *)
Definition date2num (dt : datetime) : Qc :=
  fl (Qc_of_Z (toordinal dt - 719163)
      + Qc_of_Z (hour dt * 3600 + minute dt * 60 + second dt) / Qc_of_Z 86400)%Qc.

Fixpoint traverse {A B} (f : A → result B) (l : list A) : result (list B) :=
  match l with
  | [] => Ok []
  | x :: l' =>
      y ← f x;
      ys ← traverse f l';
      Ok (y :: ys)
  end.

(** [get_times], lines 153-166.  [set(data['day'])] is a [gset]; its
    iteration order does not matter since the numbers are sorted. *)
Definition get_times (h : store) (l : loc) : result (store * list Qc) :=
  '(h1, data) ← add_day h l;
  '(h2, data) ← sort_values h1 data "day";
  df ← load h2 data;
  day ← getitem df "day";
  match day with
  | IntCol _ => Raise Unmodelled
  | StrCol ds =>
      dts ← traverse date_to_datetime (elements (list_to_set ds : gset string));
      Ok (h2, merge_sort Qcle (map date2num dts))
  end.


(** ** matplotlib: what [plot_percentage_by_date] draws *)

(** A line of the figure: its abscissas, its ordinates, its label. *)
Record plot_call := mkplot {
  plot_x : list Qc;
  plot_y : list Qc;
  plot_label : string
}.

(** [plt.plot_date(x, y, label=label, fmt='-')]: one more line on the
    figure; abscissas and ordinates of different lengths are refused. *)
Definition plot_date (fig : list plot_call) (x y : list Qc) (label : string)
  : result (list plot_call) :=
  if decide (length x = length y) then Ok (fig ++ [mkplot x y label])%list
  else Raise ValueError.

(** One of lines 118-121:
    [moving_average(binarise_df(data, t, "status").groupby("day",
    as_index=False)[t].mean()[t], window)]. *)
Definition smoothed_rate (h : store) (data : loc) (t : string) (window : Z)
  : result (store * list Qc) :=
  '(h', data') ← binarise_df h data t "status";
  df ← load h' data';
  agg ← frame_groupby_mean df "day" t;
  out ← moving_average (map snd agg) window;
  Ok (h', out).

(** [plot_percentage_by_date], lines 100-131, on the figure [fig].  The
    legend and [plt.show()] draw the figure and change nothing here. *)
Definition plot_percentage_by_date (h : store) (fig : list plot_call)
    (l : loc) (window : Z) : result (store * list plot_call) :=
  '(h, data) ← add_day h l;
  '(h, data) ← sort_values h data "day";
  '(h, opens) ← smoothed_rate h data "Opened" window;
  '(h, errors) ← smoothed_rate h data "Error" window;
  '(h, clicks) ← smoothed_rate h data "Clicked" window;
  '(h, unsubs) ← smoothed_rate h data "Unsubscribed" window;
  df ← load h data;
  day ← getitem df "day";
  match day with
  | IntCol _ => Raise Unmodelled
  | StrCol ds =>
      dts ← traverse date_to_datetime (elements (list_to_set ds : gset string));
      let time := merge_sort Qcle (map date2num dts) in
      fig ← plot_date fig time opens "Opens";
      fig ← plot_date fig time errors "Errors";
      fig ← plot_date fig time clicks "Clicks";
      fig ← plot_date fig time unsubs "Unsubs";
      Ok (h, fig)
  end.

(** * Vocabulary of the statements *)

(** ** Writing dates: the strings of the two accepted forms *)

Definition digit_char (k : Z) : ascii := ascii_of_nat (Z.to_nat (48 + k)).

Definition pad2 (n : Z) : string :=
  String (digit_char (n / 10)) (String (digit_char (n mod 10)) "").

Definition pad3 (n : Z) : string :=
  String (digit_char (n / 100)) (pad2 (n mod 100)).

Definition pad4 (n : Z) : string :=
  String (digit_char (n / 1000)) (pad3 (n mod 1000)).

(** [YYYY-MM-DD] *)
Definition iso_date (y m d : Z) : string :=
  pad4 y +:+ "-" +:+ pad2 m +:+ "-" +:+ pad2 d.

(** [HH:MM:SS] *)
Definition iso_time (h mi s : Z) : string :=
  pad2 h +:+ ":" +:+ pad2 mi +:+ ":" +:+ pad2 s.

(** [YYYY-MM-DD HH:MM:SS] *)
Definition iso_seconds (y m d h mi s : Z) : string :=
  iso_date y m d +:+ " " +:+ iso_time h mi s.

(** [YYYY-MM-DD HH:MM:SS.mmm] *)
Definition iso_millis (y m d h mi s ms : Z) : string :=
  iso_seconds y m d h mi s +:+ "." +:+ pad3 ms.

(** ** The matcher and the two formats *)

(** [leads r s g rest g']: the first way of matching [r] on [s] leaves
    [rest] and the groups [g']. *)
Definition leads (r : regex) (s : string) (g : groups)
    (rest : string) (g' : groups) : Prop :=
  ∃ c, head (matches r s g) = Some (c, rest, g').

(** The pattern of ["%Y-%m-%d"]. *)
Definition re_date : regex :=
  Cat re_Y (Cat (Lit "-") (Cat re_m (Cat (Lit "-") (Cat re_d Eps)))).

(** The pattern of ["%Y-%m-%d %H:%M:%S"]. *)
Definition re_seconds : regex :=
  Cat re_Y (Cat (Lit "-") (Cat re_m (Cat (Lit "-") (Cat re_d
    (Cat Spaces (Cat re_H (Cat (Lit ":") (Cat re_M (Cat (Lit ":")
    (Cat re_S Eps)))))))))).

(** The groups found on a date, and on a date with a time of day. *)
Definition date_groups (y m d : Z) : groups :=
  [("d"%char, pad2 d); ("m"%char, pad2 m); ("Y"%char, pad4 y)].

(** The texts that an expression can consume. *)
Fixpoint all_space (s : string) : bool :=
  match s with
  | "" => true
  | String a s' => is_space a && all_space s'
  end.

Fixpoint lang (r : regex) (c : string) : Prop :=
  match r with
  | Eps => c = ""
  | Lit a => c = String a ""
  | Cls lo hi => ∃ a, c = String a "" ∧ in_range lo hi a = true
  | Dig => ∃ a, c = String a "" ∧ is_digit a = true
  | Spaces => c ≠ "" ∧ all_space c = true
  | Cat r1 r2 => ∃ c1 c2, c = c1 +:+ c2 ∧ lang r1 c1 ∧ lang r2 c2
  | Alt r1 r2 => lang r1 c ∨ lang r2 c
  | Grp _ r1 => lang r1 c
  end.

(** Counting colons separates the two formats. *)
Fixpoint colons (s : string) : nat :=
  match s with
  | "" => 0
  | String a s' => ((if Ascii.eqb a ":" then 1 else 0) + colons s')%nat
  end.

(** The fewest colons in a text of the language of [r]. *)
Fixpoint min_colons (r : regex) : nat :=
  match r with
  | Lit a => if Ascii.eqb a ":" then 1 else 0
  | Cat r1 r2 => min_colons r1 + min_colons r2
  | Alt r1 r2 => min_colons r1 `min` min_colons r2
  | Grp _ r1 => min_colons r1
  | _ => 0
  end%nat.

Definition seconds_groups (y m d h mi s : Z) : groups :=
  ("S"%char, pad2 s) :: ("M"%char, pad2 mi) :: ("H"%char, pad2 h)
  :: date_groups y m d.

(** [re.fullmatch]: some way of matching consumes the whole text. *)
Definition fullmatch (r : regex) (s : string) : bool :=
  existsb (fun st : match_state => String.eqb (snd (fst st)) "")
          (matches r s []).

(** The two forms of the documentation, character by character: in a
    shape, [0] stands for any decimal digit and every other character for
    itself. *)
Fixpoint has_shape (shape s : string) : bool :=
  match shape, s with
  | "", "" => true
  | String p shape', String a s' =>
      (if Ascii.eqb p "0" then is_digit a else Ascii.eqb a p)
      && has_shape shape' s'
  | _, _ => false
  end.

Definition date_form (s : string) : bool := has_shape "0000-00-00" s.

Definition millis_form (s : string) : bool :=
  has_shape "0000-00-00 00:00:00.000" s.

(** ** The table of the end-to-end scenario *)

Definition example_table : DataFrame :=
  mkDataFrame 4
    (<["date" := StrCol ["2021-01-01"; "2021-01-01"; "2021-01-01"; "2021-01-01"]]>
       (<["status" := StrCol ["Opened"; "Opened"; "Error"; "Clicked"]]> ∅)).

Definition example_store : store := <[1%positive := example_table]> ∅.

(** A table of two days, already with its day and indicator columns. *)
Definition example_days : DataFrame :=
  mkDataFrame 3
    (<["day" := StrCol ["2021-01-02"; "2021-01-01"; "2021-01-02"]]>
       (<["Opened" := IntCol [1; 0; 0]]> ∅)).

(** ** Further vocabulary: unpadded numbers, windows, rates, figures *)

(** A number below 100 written without a leading zero. *)
Definition dec (n : Z) : string :=
  if n <? 10 then String (digit_char n) "" else pad2 n.

(** The names of the groups of an expression. *)
Fixpoint group_names (r : regex) : list ascii :=
  match r with
  | Cat r1 r2 | Alt r1 r2 => group_names r1 ++ group_names r2
  | Grp n r1 => n :: group_names r1
  | _ => []
  end%list.

(** The entries of [xs] under a window of [w] entries centred on entry [i]:
    from [i - w/2] on, [w] entries, less those that fall off either end. *)
Definition window_at (xs : list Qc) (w i : nat) : list Qc :=
  take (i + (w - w / 2) - (i - w / 2)) (drop (i - w / 2) xs).

(** The numbers of float64, and the same with exponents unbounded above. *)
Definition is_float64 (x : Qc) : Prop :=
  ∃ m e : Z, Z.abs m < 2 ^ 53 ∧ -1074 ≤ e ≤ 971
             ∧ (x == inject_Z m * two_to e)%Q.

Definition dyadic53 (x : Q) : Prop :=
  ∃ m e : Z, Z.abs m < 2 ^ 53 ∧ -1074 ≤ e ∧ (x == inject_Z m * two_to e)%Q.

(** A rate: a number between 0 and 1. *)
Definition in01 (q : Qc) : Prop := (0 ≤ q)%Qc ∧ (q ≤ 1)%Qc.

(** A table with a date that is not in an accepted format. *)
Definition example_bad_table : DataFrame :=
  mkDataFrame 2
    (<["date" := StrCol ["2021-01-01 08:00:00.000"; "01/02/2021"]]>
       (<["status" := StrCol ["Opened"; "Error"]]> ∅)).

(** The daily rates of a target, in the order of the days. *)
Definition daily_rates (ds : list string) (ss : column) (t : string)
  : list Qc :=
  (groupby_mean (String.substring 0 10 <$> ds)
                (binarise (col_values ss) (VStr t))).*2.

(** The four lines that [plot_percentage_by_date] asks for. *)
Definition four_lines (fig : list plot_call) (time opens errors clicks unsubs : list Qc)
  : result (list plot_call) :=
  fig ← plot_date fig time opens "Opens";
  fig ← plot_date fig time errors "Errors";
  fig ← plot_date fig time clicks "Clicks";
  plot_date fig time unsubs "Unsubs".

(** What a call returns, the store left aside. *)
Definition returned {S A} (r : result (S * A)) : result A :=
  match r with
  | Ok (_, a) => Ok a
  | Raise e => Raise e
  end.

(** The rows of [example_table] in another order. *)
Definition example_shuffled : DataFrame :=
  mkDataFrame 4
    (<["date" := StrCol ["2021-01-01"; "2021-01-01"; "2021-01-01"; "2021-01-01"]]>
       (<["status" := StrCol ["Error"; "Opened"; "Opened"; "Clicked"]]> ∅)).

(** * Properties *)

(** ** Results *)

Lemma bind_Ok {A B} (k : A → result B) (a : A) : (Ok a ≫= k) = k a.
Proof. reflexivity. Qed.

(** ** Rounding to float64 *)

Section rounding.
Local Open Scope Q_scope.

Lemma two_to_pos e : 0 < two_to e.
Proof. apply Qpower_0_lt. reflexivity. Qed.

Lemma two_to_plus a b : two_to (a + b) == two_to a * two_to b.
Proof. apply Qpower_plus. discriminate. Qed.

Lemma two_to_le a b : (a ≤ b)%Z → two_to a <= two_to b.
Proof. intros H. apply Qpower_le_compat_l; [done|discriminate]. Qed.

Lemma two_to_lt_inv a b : two_to a < two_to b → (a < b)%Z.
Proof. intros H. by apply (Qpower_lt_compat_l_inv 2). Qed.

Lemma two_to_Z k : (0 ≤ k)%Z → two_to k == inject_Z (2 ^ k).
Proof. intros H. symmetry. by apply (Zpower_Qpower 2). Qed.

Lemma two_to_minus a b : two_to (a - b) == two_to a / two_to b.
Proof.
  unfold Z.sub. rewrite two_to_plus. unfold two_to at 2.
  by rewrite Qpower_opp.
Qed.

(** [ilog2] is the exponent of the binade. *)
Lemma ilog2_spec a :
  0 < a → two_to (ilog2 a) <= a ∧ a < two_to (ilog2 a + 1).
Proof.
  intros Ha. destruct a as [n d]. unfold ilog2. cbn [Qnum Qden].
  assert (0 < n)%Z as Hn by (unfold Qlt in Ha; cbn in Ha; lia).
  set (ln := Z.log2 n). set (ld := Z.log2 (Z.pos d)).
  assert (0 ≤ ln)%Z by apply Z.log2_nonneg.
  assert (0 ≤ ld)%Z by apply Z.log2_nonneg.
  destruct (Z.log2_spec n Hn) as [Hn1 Hn2]. fold ln in Hn1, Hn2.
  destruct (Z.log2_spec (Z.pos d) ltac:(done)) as [Hd1 Hd2].
  fold ld in Hd1, Hd2.
  assert (n # d == inject_Z n / inject_Z (Z.pos d)) as Hq
    by (rewrite Qmake_Qdiv; reflexivity).
  assert (0 < inject_Z (Z.pos d)) as Hdp by (change 0 with (inject_Z 0); rewrite <- Zlt_Qlt; lia).
  assert (two_to ln <= inject_Z n) as Q1
    by (rewrite two_to_Z by done; by rewrite <- Zle_Qle).
  assert (inject_Z n < two_to (ln + 1)) as Q2
    by (rewrite two_to_Z by lia; rewrite <- Z.add_1_r in Hn2; by rewrite <- Zlt_Qlt).
  assert (two_to ld <= inject_Z (Z.pos d)) as Q3
    by (rewrite two_to_Z by done; by rewrite <- Zle_Qle).
  assert (inject_Z (Z.pos d) < two_to (ld + 1)) as Q4
    by (rewrite two_to_Z by lia; rewrite <- Z.add_1_r in Hd2; by rewrite <- Zlt_Qlt).
  pose proof (two_to_pos ld) as P1. pose proof (two_to_pos (ld + 1)) as P2.
  assert (two_to (ln - ld - 1) < n # d) as L.
  { rewrite Hq. apply Qlt_shift_div_l; [done|].
    replace (ln - ld - 1)%Z with (ln - (ld + 1))%Z by lia.
    rewrite two_to_minus.
    apply Qlt_le_trans with (two_to ln / two_to (ld + 1) * two_to (ld + 1)).
    - apply Qmult_lt_l; [|done]. apply Qlt_shift_div_l; [done|].
      rewrite Qmult_0_l. apply two_to_pos.
    - rewrite Qmult_comm, Qmult_div_r; [done|]. intros E. rewrite E in P2.
      by apply Qlt_irrefl in P2. }
  assert (n # d < two_to (ln - ld + 1)) as U.
  { rewrite Hq. apply Qlt_shift_div_r; [done|].
    replace (ln - ld + 1)%Z with (ln + 1 - ld)%Z by lia.
    rewrite two_to_minus.
    apply Qlt_le_trans with (two_to (ln + 1)); [done|].
    apply Qle_trans with (two_to (ln + 1) / two_to ld * two_to ld).
    - rewrite Qmult_comm, Qmult_div_r; [apply Qle_refl|]. intros E.
      rewrite E in P1. by apply Qlt_irrefl in P1.
    - apply Qmult_le_l; [|done]. apply Qlt_shift_div_l; [done|].
      rewrite Qmult_0_l. apply two_to_pos. }
  destruct (Qle_bool (two_to (ln - ld)) (n # d)) eqn:E.
  - apply Qle_bool_iff in E. done.
  - split; [by apply Qlt_le_weak|].
    replace (ln - ld - 1 + 1)%Z with (ln - ld)%Z by lia.
    apply Qnot_le_lt. intros E'. apply Qle_bool_iff in E'. congruence.
Qed.


#[local] Instance round_half_even_proper : Proper (Qeq ==> eq) round_half_even.
Proof.
  intros y y' E. unfold round_half_even. rewrite (Qfloor_comp _ _ E).
  assert (y - inject_Z (Qfloor y') == y' - inject_Z (Qfloor y')) as E'
    by (rewrite E; reflexivity).
  by rewrite (Qcompare_comp _ _ E' (1 # 2) (1 # 2) (Qeq_refl _)).
Qed.

Lemma round_half_even_Z z : round_half_even (inject_Z z) = z.
Proof.
  unfold round_half_even. rewrite Qfloor_Z.
  replace (inject_Z z - inject_Z z ?= 1 # 2) with Lt; [done|].
  symmetry. apply (proj1 (Qlt_alt _ _)). lra.
Qed.

Lemma round_half_even_floor y :
  (Qfloor y ≤ round_half_even y ≤ Qfloor y + 1)%Z.
Proof.
  unfold round_half_even.
  destruct (y - inject_Z (Qfloor y) ?= 1 # 2); [destruct (Z.even _)|..]; lia.
Qed.

Lemma round_half_even_nonneg y : 0 <= y → (0 ≤ round_half_even y)%Z.
Proof.
  intros Hy. pose proof (round_half_even_floor y).
  pose proof (Qfloor_resp_le _ _ Hy) as H0. change (Qfloor 0) with 0%Z in H0. lia.
Qed.

Lemma round_half_even_le y z : y <= inject_Z z → (round_half_even y ≤ z)%Z.
Proof.
  intros Hy. pose proof (Qfloor_resp_le _ _ Hy) as Hf. rewrite Qfloor_Z in Hf.
  destruct (decide (Qfloor y = z)) as [E|E].
  - unfold round_half_even. rewrite E.
    replace (y - inject_Z z ?= 1 # 2) with Lt; [done|].
    symmetry. apply (proj1 (Qlt_alt _ _)). lra.
  - pose proof (round_half_even_floor y). lia.
Qed.

Lemma flQ_dyadic q : dyadic53 (flQ q).
Proof.
  unfold flQ. destruct (Qeq_bool q 0) eqn:E0.
  { exists 0%Z, 0%Z. split; [done|]. split; [done|]. reflexivity. }
  apply Qeq_bool_neq in E0.
  assert (0 < Qabs q) as Ha.
  { pose proof (Qabs_nonneg q). apply Qle_lteq in H as [H|H]; [done|].
    exfalso. apply E0. symmetry in H.
    destruct (Qabs_Qle_condition q 0) as [Hc _].
    destruct Hc as [H1 H2]; [rewrite H; apply Qle_refl|]. lra. }
  destruct (ilog2_spec _ Ha) as [_ Hu].
  set (k := ilog2 (Qabs q)) in *. set (e := (Z.max (k - 52) (-1074))).
  set (M := round_half_even (Qabs q / two_to e)).
  pose proof (two_to_pos e) as Pe.
  assert (0 ≤ M)%Z as HM0.
  { apply round_half_even_nonneg. apply Qle_shift_div_l; [done|]. lra. }
  assert (M ≤ 2 ^ 53)%Z as HM1.
  { apply round_half_even_le. apply Qle_shift_div_r; [done|].
    rewrite <- two_to_Z by done. rewrite <- two_to_plus.
    apply Qlt_le_weak. apply Qlt_le_trans with (two_to (k + 1)); [done|].
    apply two_to_le. lia. }
  assert (Z.abs (Z.sgn (Qnum q)) ≤ 1)%Z as Hs by lia.
  destruct (decide (M = 2 ^ 53)%Z) as [EM|EM].
  - exists (Z.sgn (Qnum q) * 2 ^ 52)%Z, (e + 1)%Z.
    split; [rewrite Z.abs_mul; nia|]. split; [lia|].
    rewrite EM, two_to_plus, !inject_Z_mult.
    change (two_to 1) with 2. change (inject_Z (2 ^ 53)) with (inject_Z (2 ^ 52) * 2).
    ring.
  - exists (Z.sgn (Qnum q) * M)%Z, e.
    split; [rewrite Z.abs_mul; nia|]. split; [lia|]. reflexivity.
Qed.

Lemma flQ_id x : dyadic53 x → flQ x == x.
Proof.
  intros (m & e & Hm & He & Hx). unfold flQ.
  destruct (Qeq_bool x 0) eqn:E0; [apply Qeq_bool_iff in E0; by rewrite E0|].
  apply Qeq_bool_neq in E0.
  pose proof (two_to_pos e) as Pe.
  assert (m ≠ 0)%Z as Hm0.
  { intros ->. apply E0. rewrite Hx. ring. }
  assert (Qabs x == inject_Z (Z.abs m) * two_to e) as Ha.
  { rewrite Hx, Qabs_Qmult, (Qabs_pos (two_to e)) by lra.
    apply Qmult_comp; [|reflexivity]. unfold Qabs, inject_Z. reflexivity. }
  assert (0 < inject_Z (Z.abs m)) as Pm
    by (change 0 with (inject_Z 0); rewrite <- Zlt_Qlt; lia).
  assert (0 < Qabs x) as Pa.
  { rewrite Ha. apply Qmult_lt_0_compat; done. }
  destruct (ilog2_spec _ Pa) as [Hl _].
  set (k := ilog2 (Qabs x)) in *.
  assert (k < 53 + e)%Z as Hk.
  { apply two_to_lt_inv. apply Qle_lt_trans with (Qabs x); [done|].
    rewrite Ha, two_to_plus. apply Qmult_lt_r; [done|].
    rewrite two_to_Z by done. by rewrite <- Zlt_Qlt. }
  set (e' := Z.max (k - 52) (-1074)).
  assert (e' ≤ e)%Z as He' by lia.
  pose proof (two_to_pos e') as Pe'.
  assert (Qabs x / two_to e' == inject_Z (Z.abs m * 2 ^ (e - e'))) as Hy.
  { rewrite Ha, inject_Z_mult, <- two_to_Z by lia.
    rewrite two_to_minus. field. lra. }
  rewrite Hy, round_half_even_Z.
  assert (Z.sgn (Qnum x) = Z.sgn m) as Hs.
  { destruct (Z.lt_total m 0) as [Hneg|[?|Hpos]]; [|done|].
    - assert (x < 0) as Hx0.
      { assert (inject_Z m * two_to e < 0 * two_to e) as Hlt.
        { apply Qmult_lt_r; [done|].
          change 0 with (inject_Z 0); rewrite <- Zlt_Qlt; lia. }
        rewrite Qmult_0_l in Hlt. by rewrite Hx. }
      unfold Qlt in Hx0. cbn in Hx0. lia.
    - assert (0 < x) as Hx0.
      { rewrite Hx. apply Qmult_lt_0_compat; [|done].
        change 0 with (inject_Z 0); rewrite <- Zlt_Qlt; lia. }
      unfold Qlt in Hx0. cbn in Hx0. lia. }
  rewrite Hs, Hx.
  replace (Z.sgn m * (Z.abs m * 2 ^ (e - e')))%Z with (m * 2 ^ (e - e'))%Z
    by (rewrite Z.mul_assoc, (Z.mul_comm (Z.sgn m)), Z.abs_sgn; done).
  rewrite inject_Z_mult, <- two_to_Z by lia. rewrite two_to_minus.
  field. lra.
Qed.

Lemma flQ_nonneg q : 0 <= q → 0 <= flQ q.
Proof.
  intros Hq. unfold flQ. destruct (Qeq_bool q 0); [apply Qle_refl|].
  pose proof (two_to_pos (Z.max (ilog2 (Qabs q) - 52) (-1074))) as Pe.
  apply Qmult_le_0_compat; [|lra].
  change 0 with (inject_Z 0). rewrite <- Zle_Qle.
  apply Z.mul_nonneg_nonneg.
  - unfold Qle in Hq. cbn in Hq. lia.
  - apply round_half_even_nonneg. apply Qle_shift_div_l; [done|].
    pose proof (Qabs_nonneg q). lra.
Qed.


Lemma flQ_le_1 q : 0 <= q → q <= 1 → flQ q <= 1.
Proof.
  intros H0 H1. unfold flQ. destruct (Qeq_bool q 0) eqn:E0; [done|].
  apply Qeq_bool_neq in E0.
  assert (0 < q) as Hq.
  { apply Qle_lteq in H0 as [H|H]; [done|]. exfalso. apply E0. by symmetry. }
  assert (Qabs q = q) as ->.
  { destruct q as [n d]. unfold Qabs. f_equal. apply Z.abs_eq.
    unfold Qle in H0. cbn in H0. lia. }
  destruct (ilog2_spec _ Hq) as [Hl _].
  set (k := ilog2 q) in *.
  assert (k < 1)%Z as Hk.
  { apply two_to_lt_inv. apply Qle_lt_trans with q; [done|].
    change (two_to 1) with 2. lra. }
  set (e := Z.max (k - 52) (-1074)). pose proof (two_to_pos e) as Pe.
  assert (e ≤ 0)%Z as He by lia.
  assert (Z.sgn (Qnum q) = 1)%Z as ->.
  { unfold Qlt in Hq. cbn in Hq. lia. }
  rewrite Z.mul_1_l.
  assert (round_half_even (q / two_to e) ≤ 2 ^ (- e))%Z as HM.
  { apply round_half_even_le. rewrite <- two_to_Z by lia.
    apply Qle_shift_div_r; [done|]. rewrite <- two_to_plus.
    replace (- e + e)%Z with 0%Z by lia. done. }
  rewrite Zle_Qle in HM. rewrite <- two_to_Z in HM by lia.
  apply Qle_trans with (two_to (- e) * two_to e).
  - apply Qmult_le_r; done.
  - rewrite <- two_to_plus. replace (- e + e)%Z with 0%Z by lia. done.
Qed.

End rounding.

Lemma Q2Qc_eq (y : Q) (x : Qc) : (y == x)%Q → Q2Qc y = x.
Proof.
  intros E. apply Qc_is_canon. cbn [this Q2Qc]. by rewrite Qred_correct.
Qed.

Lemma this_fl (q : Qc) : (this (fl q) == flQ q)%Q.
Proof. unfold fl. cbn [this Q2Qc]. apply Qred_correct. Qed.

(** A number of float64 is its own rounding. *)
Lemma fl_id (x : Qc) : is_float64 x → fl x = x.
Proof.
  intros (m & e & Hm & He & Hx). apply Q2Qc_eq, flQ_id.
  exists m, e. split; [done|]. split; [lia|done].
Qed.

Lemma fl_idem (q : Qc) : fl (fl q) = fl q.
Proof.
  apply Q2Qc_eq, flQ_id. destruct (flQ_dyadic q) as (m & e & Hm & He & Hx).
  exists m, e. split; [done|]. split; [done|]. by rewrite this_fl.
Qed.

Lemma fl_nonneg (q : Qc) : (0 ≤ q)%Qc → (0 ≤ fl q)%Qc.
Proof.
  intros H. unfold Qcle. rewrite this_fl. by apply flQ_nonneg.
Qed.

Lemma fl_le_1 (q : Qc) : (0 ≤ q)%Qc → (q ≤ 1)%Qc → (fl q ≤ 1)%Qc.
Proof.
  intros H0 H1. unfold Qcle. rewrite this_fl. by apply flQ_le_1.
Qed.

Lemma fl_0 : fl 0%Qc = 0%Qc.
Proof. by apply Qc_is_canon. Qed.

Lemma fl_1 : fl 1%Qc = 1%Qc.
Proof. by apply Qc_is_canon. Qed.

(** ** Digits *)

Lemma digit_cases (k : Z) :
  0 ≤ k < 10 →
  k = 0 ∨ k = 1 ∨ k = 2 ∨ k = 3 ∨ k = 4 ∨ k = 5 ∨ k = 6 ∨ k = 7 ∨ k = 8 ∨ k = 9.
Proof. lia. Qed.

Ltac by_digit k H :=
  destruct (digit_cases k H) as [->|[->|[->|[->|[->|[->|[->|[->|[->| ->]]]]]]]]];
  reflexivity.

Lemma is_digit_digit_char k : 0 ≤ k < 10 → is_digit (digit_char k) = true.
Proof. intros H. by_digit k H. Qed.

Lemma is_space_digit_char k : 0 ≤ k < 10 → is_space (digit_char k) = false.
Proof. intros H. by_digit k H. Qed.

Lemma digit_val_digit_char k : 0 ≤ k < 10 → digit_val (digit_char k) = k.
Proof. intros H. by_digit k H. Qed.

Lemma colon_digit_char k : 0 ≤ k < 10 → Ascii.eqb (digit_char k) ":" = false.
Proof. intros H. by_digit k H. Qed.

Ltac dlia := Z.div_mod_to_equations; lia.

(** ** The matcher on the fields of a date *)

Lemma matches_Y a b c d rest g :
  is_digit a = true → is_digit b = true → is_digit c = true →
  is_digit d = true →
  matches re_Y (String a (String b (String c (String d rest)))) g
  = [(String a (String b (String c (String d ""))), rest,
      ("Y"%char, String a (String b (String c (String d "")))) :: g)].
Proof.
  intros Ha Hb Hc Hd. unfold re_Y.
  cbn [matches flat_map map app]. rewrite Ha. cbn [flat_map map app].
  rewrite Hb. cbn [flat_map map app]. rewrite Hc. cbn [flat_map map app].
  rewrite Hd. reflexivity.
Qed.

Lemma matches_pad4 y rest g :
  0 ≤ y < 10000 →
  matches re_Y (pad4 y +:+ rest) g = [(pad4 y, rest, ("Y"%char, pad4 y) :: g)].
Proof.
  intros H. unfold pad4, pad3, pad2. cbn [String.append].
  apply matches_Y; apply is_digit_digit_char; dlia.
Qed.

Lemma py_int_pad4 y : 0 ≤ y < 10000 → py_int (pad4 y) = y.
Proof.
  intros H. unfold py_int, pad4, pad3, pad2. cbn [lstrip].
  rewrite is_space_digit_char by dlia. cbn [int_digits].
  rewrite !digit_val_digit_char by dlia. dlia.
Qed.

(** ** Strings *)

Lemma append_cons (x : ascii) (a b : string) :
  String x a +:+ b = String x (a +:+ b).
Proof. reflexivity. Qed.

Lemma append_nil_l (b : string) : "" +:+ b = b.
Proof. reflexivity. Qed.

Lemma append_assoc (a b c : string) : (a +:+ b) +:+ c = a +:+ (b +:+ c).
Proof.
  induction a as [|x a IH]; [done|]. by rewrite !append_cons, IH.
Qed.

Ltac norm_append :=
  repeat (rewrite append_assoc || rewrite append_cons || rewrite append_nil_l).

Lemma append_nil_r (a : string) : a +:+ "" = a.
Proof. induction a as [|x a IH]; [done|]. by rewrite append_cons, IH. Qed.

Lemma length_append (a b : string) :
  String.length (a +:+ b) = (String.length a + String.length b)%nat.
Proof.
  induction a as [|x a IH]; [done|]. rewrite append_cons. simpl. by rewrite IH.
Qed.

Lemma substring_append (a b : string) :
  String.substring 0 (String.length a) (a +:+ b) = a.
Proof.
  induction a as [|x a IH]; [by destruct b|].
  rewrite append_cons. simpl. by rewrite IH.
Qed.

(** Dropping a tail of four characters. *)
Lemma drop_last4_append (a t : string) :
  String.length t = 4%nat → drop_last4 (a +:+ t) = a.
Proof.
  intros H. unfold drop_last4. rewrite length_append, H.
  replace (String.length a + 4 - 4)%nat with (String.length a) by lia.
  apply substring_append.
Qed.


Lemma leads_cat r1 r2 s g s1 g1 s2 g2 :
  leads r1 s g s1 g1 → leads r2 s1 g1 s2 g2 → leads (Cat r1 r2) s g s2 g2.
Proof.
  intros [c1 H1] [c2 H2]. exists (c1 +:+ c2). cbn [matches].
  destruct (matches r1 s g) as [|x l1]; simplify_eq/=.
  destruct (matches r2 s1 g1) as [|x l2]; simplify_eq/=. done.
Qed.

Lemma leads_eps s g : leads Eps s g s g.
Proof. by exists "". Qed.

Lemma leads_lit c rest g : leads (Lit c) (String c rest) g rest g.
Proof. exists (String c ""). cbn. by rewrite Ascii.eqb_refl. Qed.

Lemma leads_pad4 y rest g :
  0 ≤ y < 10000 → leads re_Y (pad4 y +:+ rest) g rest (("Y"%char, pad4 y) :: g).
Proof. intros H. exists (pad4 y). by rewrite matches_pad4. Qed.

(** Case analysis on an integer known to lie in a short interval. *)
Ltac by_range m lo n tac :=
  lazymatch n with
  | O => lia
  | S ?n' =>
      destruct (decide (m = lo)) as [->|?];
      [tac | let lo' := eval cbv in (lo + 1) in by_range m lo' n' tac]
  end.

Ltac leads_by_range m lo n :=
  by_range m lo n ltac:(eexists; reflexivity).

Lemma leads_pad2_m m rest g :
  1 ≤ m ≤ 12 → leads re_m (pad2 m +:+ rest) g rest (("m"%char, pad2 m) :: g).
Proof. intros H. leads_by_range m 1 12%nat. Qed.

Lemma leads_pad2_d d rest g :
  1 ≤ d ≤ 31 → leads re_d (pad2 d +:+ rest) g rest (("d"%char, pad2 d) :: g).
Proof. intros H. leads_by_range d 1 31%nat. Qed.

Lemma leads_pad2_H h rest g :
  0 ≤ h ≤ 23 → leads re_H (pad2 h +:+ rest) g rest (("H"%char, pad2 h) :: g).
Proof. intros H. leads_by_range h 0 24%nat. Qed.

Lemma leads_space a rest g :
  is_space a = false →
  leads Spaces (" " +:+ String a rest) g (String a rest) g.
Proof.
  intros Ha. exists " ". rewrite append_cons. cbn [matches].
  change (is_space " ") with true. cbn iota. rewrite append_nil_l.
  cbn [spaces_star]. by rewrite Ha.
Qed.

Lemma leads_pad2_M mi rest g :
  0 ≤ mi ≤ 59 → leads re_M (pad2 mi +:+ rest) g rest (("M"%char, pad2 mi) :: g).
Proof. intros H. leads_by_range mi 0 60%nat. Qed.

Lemma leads_pad2_S s rest g :
  0 ≤ s ≤ 59 → leads re_S (pad2 s +:+ rest) g rest (("S"%char, pad2 s) :: g).
Proof. intros H. leads_by_range s 0 60%nat. Qed.

Lemma py_int_pad2 n : 0 ≤ n < 100 → py_int (pad2 n) = n.
Proof.
  intros H. unfold py_int, pad2. cbn [lstrip].
  rewrite is_space_digit_char by dlia. cbn [int_digits].
  rewrite !digit_val_digit_char by dlia. dlia.
Qed.

(** ** The two formats *)

Lemma pattern_date : pattern "%Y-%m-%d" = Some re_date.
Proof. reflexivity. Qed.

Lemma pattern_seconds : pattern "%Y-%m-%d %H:%M:%S" = Some re_seconds.
Proof. reflexivity. Qed.

Lemma leads_iso_date r y m d rest g' :
  0 ≤ y < 10000 → 1 ≤ m ≤ 12 → 1 ≤ d ≤ 31 →
  leads r rest (date_groups y m d) "" g' →
  leads (Cat re_Y (Cat (Lit "-") (Cat re_m (Cat (Lit "-") (Cat re_d r)))))
        (iso_date y m d +:+ rest) [] "" g'.
Proof.
  intros Hy Hm Hd Hr. unfold iso_date. rewrite !append_assoc.
  eapply leads_cat; [by apply leads_pad4|].
  eapply leads_cat; [apply leads_lit|].
  eapply leads_cat; [by apply leads_pad2_m|].
  eapply leads_cat; [apply leads_lit|].
  eapply leads_cat; [by apply leads_pad2_d|]. exact Hr.
Qed.

(** ** What the matcher consumes: the language of an expression *)

Lemma spaces_star_sound s c rest :
  In (c, rest) (spaces_star s) → s = c +:+ rest ∧ all_space c = true.
Proof.
  revert c rest. induction s as [|a s IH]; intros c rest; cbn [spaces_star].
  - intros [[= <- <-]|[]]. done.
  - destruct (is_space a) eqn:Ha.
    + rewrite in_app_iff, in_map_iff.
      intros [([c' r'] & [= <- <-] & Hin)|[[= <- <-]|[]]]; [|done].
      apply IH in Hin as [-> Hc]. cbn [all_space]. by rewrite Ha, Hc.
    + intros [[= <- <-]|[]]. done.
Qed.

(** Each way of matching splits the text, and the part consumed belongs to
    the language of the expression. *)
Lemma matches_sound r s g c rest g' :
  In (c, rest, g') (matches r s g) → s = c +:+ rest ∧ lang r c.
Proof.
  revert s g c rest g'.
  induction r as [|a|lo hi| | |r1 IH1 r2 IH2|r1 IH1 r2 IH2|n r1 IH1];
    intros s g c rest g'; cbn [matches lang].
  - intros [[= <- <- <-]|[]]. done.
  - destruct s as [|x s]; [intros []|].
    destruct (Ascii.eqb x a) eqn:E; [|intros []].
    apply Ascii.eqb_eq in E as ->. intros [[= <- <- <-]|[]]. done.
  - destruct s as [|x s]; [intros []|].
    destruct (in_range lo hi x) eqn:E; [|intros []].
    intros [[= <- <- <-]|[]]. eauto.
  - destruct s as [|x s]; [intros []|].
    destruct (is_digit x) eqn:E; [|intros []].
    intros [[= <- <- <-]|[]]. eauto.
  - destruct s as [|x s]; [intros []|].
    destruct (is_space x) eqn:E; [|intros []].
    rewrite in_map_iff. intros ([c' r'] & [= <- <- <-] & Hin).
    apply spaces_star_sound in Hin as [-> Hc].
    split; [done|]. split; [done|]. cbn [all_space]. by rewrite E, Hc.
  - rewrite in_flat_map. intros ([[c1 s1] g1] & H1 & H2).
    apply in_map_iff in H2 as ([[c2 s2] g2] & [= <- <- <-] & H2).
    apply IH1 in H1 as [-> L1]. apply IH2 in H2 as [-> L2].
    split; [by rewrite append_assoc | eauto].
  - rewrite in_app_iff. intros [H|H]; [apply IH1 in H|apply IH2 in H]; tauto.
  - rewrite in_map_iff. intros ([[c1 s1] g1] & [= <- <- <-] & H).
    by apply IH1 in H.
Qed.

Lemma strptime_raises data fmt e : strptime data fmt = Raise e → e = ValueError.
Proof.
  unfold strptime. repeat case_match; congruence.
Qed.

(** A successful parse consumed the whole text. *)
Lemma strptime_lang data fmt dt :
  strptime data fmt = Ok dt → ∃ r, pattern fmt = Some r ∧ lang r data.
Proof.
  unfold strptime, re_match. destruct (pattern fmt) as [r|]; [|done].
  destruct (matches r data []) as [|[[c rest] g] tl] eqn:E; [done|].
  cbn [head]. destruct (String.eqb rest "") eqn:Hrest; [|done].
  apply String.eqb_eq in Hrest as ->. intros _. exists r. split; [done|].
  destruct (matches_sound r data [] c "" g) as [-> L]; [rewrite E; by left|].
  by rewrite append_nil_r.
Qed.

Lemma colons_append a b : colons (a +:+ b) = (colons a + colons b)%nat.
Proof.
  induction a as [|x a IH]; [done|].
  rewrite append_cons. cbn [colons]. rewrite IH. lia.
Qed.

Lemma lang_colons r c : lang r c → (min_colons r ≤ colons c)%nat.
Proof.
  revert c. induction r as [|a|lo hi| | |r1 IH1 r2 IH2|r1 IH1 r2 IH2|n r1 IH1];
    intros c; cbn [lang min_colons]; try lia.
  - intros ->. cbn. lia.
  - intros (c1 & c2 & -> & L1 & L2). rewrite colons_append.
    apply IH1 in L1. apply IH2 in L2. lia.
  - intros [L|L]; [apply IH1 in L|apply IH2 in L]; lia.
  - apply IH1.
Qed.

Lemma colons_substring n s : (colons (String.substring 0 n s) ≤ colons s)%nat.
Proof.
  revert n. induction s as [|a s IH]; intros [|n]; cbn; try lia.
  specialize (IH n). lia.
Qed.

(** The format with a time of day needs two colons. *)
Lemma strptime_seconds_colons data :
  (colons data < 2)%nat → strptime data "%Y-%m-%d %H:%M:%S" = Raise ValueError.
Proof.
  intros H. destruct (strptime data "%Y-%m-%d %H:%M:%S") as [dt|e] eqn:E.
  - apply strptime_lang in E as (r & Hr & L). rewrite pattern_seconds in Hr.
    simplify_eq. apply lang_colons in L. cbn in L. lia.
  - by apply strptime_raises in E as ->.
Qed.

Lemma colons_pad2 n : 0 ≤ n < 100 → colons (pad2 n) = 0%nat.
Proof.
  intros H. unfold pad2. cbn [colons]. rewrite !colon_digit_char by dlia. done.
Qed.

Lemma colons_pad4 n : 0 ≤ n < 10000 → colons (pad4 n) = 0%nat.
Proof.
  intros H. unfold pad4, pad3, pad2. cbn [colons].
  rewrite !colon_digit_char by dlia. done.
Qed.

Lemma colons_iso_date y m d :
  0 ≤ y < 10000 → 0 ≤ m < 100 → 0 ≤ d < 100 → colons (iso_date y m d) = 0%nat.
Proof.
  intros. unfold iso_date.
  rewrite !colons_append, colons_pad4, !colons_pad2 by done. done.
Qed.

(** ** Parsing the two accepted forms *)

Lemma days_in_month_le y m : days_in_month y m ≤ 31.
Proof. unfold days_in_month. repeat case_match; lia. Qed.

Lemma valid_date_range y m d :
  valid_date y m d = true → 1 ≤ y ≤ 9999 ∧ 1 ≤ m ≤ 12 ∧ 1 ≤ d ≤ 31.
Proof.
  unfold valid_date. rewrite !andb_true_iff, !Z.leb_le.
  pose proof (days_in_month_le y m). lia.
Qed.

Lemma valid_time_range h mi s :
  valid_time h mi s = true → 0 ≤ h ≤ 23 ∧ 0 ≤ mi ≤ 59 ∧ 0 ≤ s ≤ 59.
Proof. unfold valid_time. rewrite !andb_true_iff, !Z.leb_le. lia. Qed.

Lemma re_match_leads r s rest g :
  leads r s [] rest g → ∃ c, re_match r s = Some (c, rest, g).
Proof. done. Qed.

Lemma strptime_iso_date y m d :
  valid_date y m d = true →
  strptime (iso_date y m d) "%Y-%m-%d" = Ok (mkdatetime y m d 0 0 0).
Proof.
  intros Hv. destruct (valid_date_range _ _ _ Hv) as (Hy & Hm & Hd).
  unfold strptime. rewrite pattern_date.
  destruct (re_match_leads re_date (iso_date y m d) "" (date_groups y m d))
    as [c ->].
  { rewrite <- (append_nil_r (iso_date y m d)).
    apply leads_iso_date; [lia..|apply leads_eps]. }
  cbn [String.eqb negb]. unfold field, date_groups. cbn [group Ascii.eqb Bool.eqb].
  rewrite py_int_pad4, !py_int_pad2 by lia. by rewrite Hv.
Qed.

(** Text after the day is unconverted data. *)
Lemma strptime_date_trailing y m d a rest :
  0 ≤ y < 10000 → 1 ≤ m ≤ 12 → 1 ≤ d ≤ 31 →
  strptime (iso_date y m d +:+ String a rest) "%Y-%m-%d" = Raise ValueError.
Proof.
  intros Hy Hm Hd. unfold strptime. rewrite pattern_date.
  destruct (re_match_leads re_date (iso_date y m d +:+ String a rest)
              (String a rest) (date_groups y m d)) as [c ->]; [|done].
  unfold re_date, iso_date. rewrite !append_assoc.
  eapply leads_cat; [by apply leads_pad4|].
  eapply leads_cat; [apply leads_lit|].
  eapply leads_cat; [by apply leads_pad2_m|].
  eapply leads_cat; [apply leads_lit|].
  eapply leads_cat; [by apply leads_pad2_d|]. apply leads_eps.
Qed.

Lemma strptime_iso_seconds y m d h mi s :
  valid_date y m d = true → valid_time h mi s = true →
  strptime (iso_seconds y m d h mi s) "%Y-%m-%d %H:%M:%S"
  = Ok (mkdatetime y m d h mi s).
Proof.
  intros Hv Ht. destruct (valid_date_range _ _ _ Hv) as (Hy & Hm & Hd).
  destruct (valid_time_range _ _ _ Ht) as (Hh & Hmi & Hs).
  unfold strptime. rewrite pattern_seconds.
  destruct (re_match_leads re_seconds (iso_seconds y m d h mi s) ""
              (seconds_groups y m d h mi s)) as [c ->].
  { unfold iso_seconds. apply leads_iso_date; [lia..|].
    unfold iso_time. unfold pad2 at 1. rewrite !append_cons.
    eapply leads_cat; [apply leads_space, is_space_digit_char; dlia|].
    eapply leads_cat; [by apply (leads_pad2_H h)|].
    eapply leads_cat; [apply leads_lit|].
    eapply leads_cat; [by apply leads_pad2_M|].
    eapply leads_cat; [apply leads_lit|].
    rewrite <- (append_nil_r (pad2 s)).
    eapply leads_cat; [by apply leads_pad2_S|]. apply leads_eps. }
  cbn [String.eqb negb]. unfold field, seconds_groups, date_groups.
  cbn [group Ascii.eqb Bool.eqb].
  rewrite py_int_pad4, !py_int_pad2 by lia. by rewrite Hv, Ht.
Qed.

Lemma length_pad2 n : String.length (pad2 n) = 2%nat.
Proof. reflexivity. Qed.

Lemma length_pad3 n : String.length (pad3 n) = 3%nat.
Proof. reflexivity. Qed.

(** The first attempt on a date alone: [date[:-4]] has no colon. *)
Lemma first_attempt_date y m d :
  valid_date y m d = true →
  strptime (drop_last4 (iso_date y m d)) "%Y-%m-%d %H:%M:%S" = Raise ValueError.
Proof.
  intros Hv. destruct (valid_date_range _ _ _ Hv) as (Hy & Hm & Hd).
  apply strptime_seconds_colons. unfold drop_last4.
  pose proof (colons_substring (String.length (iso_date y m d) - 4)
                (iso_date y m d)) as Hc.
  rewrite colons_iso_date in Hc by lia. lia.
Qed.

(** C3: a string YYYY-MM-DD that denotes a valid calendar date is parsed to
    that year, month and day at 00:00:00; the first attempt, on the string
    without its last four characters, fails and the fallback succeeds. *)
Theorem date_to_datetime_date y m d :
  valid_date y m d = true →
  strptime (drop_last4 (iso_date y m d)) "%Y-%m-%d %H:%M:%S" = Raise ValueError
  ∧ date_to_datetime (iso_date y m d) = Ok (mkdatetime y m d 0 0 0).
Proof.
  intros Hv. pose proof (first_attempt_date y m d Hv) as H1.
  split; [done|]. unfold date_to_datetime. rewrite H1.
  by apply strptime_iso_date.
Qed.

Lemma date_to_datetime_date_witness :
  valid_date 2021 3 4 = true
  ∧ date_to_datetime "2021-03-04" = Ok (mkdatetime 2021 3 4 0 0 0).
Proof.
  split; [reflexivity|]. apply (date_to_datetime_date 2021 3 4). reflexivity.
Defined.

(** C4: a string YYYY-MM-DD HH:MM:SS.mmm that denotes a valid date and time
    is parsed to that date and time, the milliseconds being dropped; so
    "2021-03-04 10:15:30.123" gives 2021-03-04 10:15:30. *)
Theorem date_to_datetime_millis :
  (∀ y m d h mi s ms,
     valid_date y m d = true → valid_time h mi s = true → 0 ≤ ms < 1000 →
     date_to_datetime (iso_millis y m d h mi s ms)
     = Ok (mkdatetime y m d h mi s))
  ∧ date_to_datetime "2021-03-04 10:15:30.123"
    = Ok (mkdatetime 2021 3 4 10 15 30).
Proof.
  split; [|reflexivity]. intros y m d h mi s ms Hv Ht _.
  unfold date_to_datetime, iso_millis.
  rewrite drop_last4_append by reflexivity.
  by rewrite strptime_iso_seconds.
Qed.

Lemma date_to_datetime_millis_witness :
  valid_date 2020 2 29 = true ∧ valid_time 23 59 59 = true ∧ 0 ≤ 7 < 1000
  ∧ date_to_datetime "2020-02-29 23:59:59.007"
    = Ok (mkdatetime 2020 2 29 23 59 59).
Proof.
  split; [reflexivity|]. split; [reflexivity|]. split; [lia|].
  apply (proj1 date_to_datetime_millis 2020 2 29 23 59 59 7);
    [reflexivity | reflexivity | lia].
Defined.

(** C10: a string YYYY-MM-DD HH:MM:SS without milliseconds is refused:
    without its last four characters it has a single colon, so the first
    attempt fails, and for the date-only format the time is unconverted
    data. *)
Theorem date_to_datetime_seconds_fails y m d h mi s :
  valid_date y m d = true → valid_time h mi s = true →
  strptime (drop_last4 (iso_seconds y m d h mi s)) "%Y-%m-%d %H:%M:%S"
  = Raise ValueError
  ∧ strptime (iso_seconds y m d h mi s) "%Y-%m-%d" = Raise ValueError
  ∧ date_to_datetime (iso_seconds y m d h mi s) = Raise ValueError.
Proof.
  intros Hv Ht. destruct (valid_date_range _ _ _ Hv) as (Hy & Hm & Hd).
  destruct (valid_time_range _ _ _ Ht) as (Hh & Hmi & Hs).
  assert (strptime (drop_last4 (iso_seconds y m d h mi s)) "%Y-%m-%d %H:%M:%S"
          = Raise ValueError) as H1.
  { apply strptime_seconds_colons.
    assert (iso_seconds y m d h mi s
            = (iso_date y m d +:+ " " +:+ pad2 h +:+ ":"
               +:+ String (digit_char (mi / 10)) "")
              +:+ (String (digit_char (mi mod 10)) (":" +:+ pad2 s))) as ->.
    { unfold iso_seconds, iso_time. unfold pad2 at 4.
      by rewrite !append_assoc, !append_cons. }
    rewrite drop_last4_append by reflexivity.
    rewrite !colons_append, colons_iso_date, colons_pad2 by lia.
    cbn [colons]. rewrite colon_digit_char by dlia. cbn. lia. }
  assert (strptime (iso_seconds y m d h mi s) "%Y-%m-%d" = Raise ValueError)
    as H2.
  { unfold iso_seconds. rewrite append_cons.
    apply strptime_date_trailing; lia. }
  split; [done|]. split; [done|]. unfold date_to_datetime. by rewrite H1.
Qed.

Lemma date_to_datetime_seconds_fails_witness :
  valid_date 2021 3 4 = true ∧ valid_time 10 15 30 = true
  ∧ date_to_datetime "2021-03-04 10:15:30" = Raise ValueError.
Proof.
  split; [reflexivity|]. split; [reflexivity|].
  apply (date_to_datetime_seconds_fails 2021 3 4 10 15 30); reflexivity.
Defined.

(** ** When parsing fails *)

Lemma In_head {A} (l : list A) x : head l = Some x → In x l.
Proof. destruct l; [done|]. intros [= ->]. by left. Qed.

Lemma strptime_fullmatch data fmt dt r :
  pattern fmt = Some r → strptime data fmt = Ok dt → fullmatch r data = true.
Proof.
  intros Hr. unfold strptime, re_match, fullmatch. rewrite Hr.
  destruct (matches r data []) as [|[[c rest] g] tl]; [done|].
  cbn [head existsb fst snd]. by destruct (String.eqb rest "").
Qed.

(** [fullmatch] decides the language of the expression. *)
Lemma spaces_star_complete c rest :
  all_space c = true → In (c, rest) (spaces_star (c +:+ rest)).
Proof.
  induction c as [|a c IH]; intros Hc.
  - rewrite append_nil_l. destruct rest as [|b rest]; cbn [spaces_star].
    + by left.
    + destruct (is_space b); [|by left].
      apply in_app_iff. right. by left.
  - cbn [all_space] in Hc. apply andb_true_iff in Hc as [Ha Hc].
    rewrite append_cons. cbn [spaces_star]. rewrite Ha.
    apply in_app_iff. left. apply in_map_iff. exists (c, rest). auto.
Qed.

Lemma matches_complete r c :
  lang r c → ∀ rest g, ∃ g', In (c, rest, g') (matches r (c +:+ rest) g).
Proof.
  revert c. induction r as [|a|lo hi| | |r1 IH1 r2 IH2|r1 IH1 r2 IH2|n r1 IH1];
    intros c; cbn [lang].
  - intros -> rest g. exists g. by left.
  - intros -> rest g. exists g. rewrite append_cons. cbn [matches].
    rewrite Ascii.eqb_refl. by left.
  - intros (a & -> & Ha) rest g. exists g. rewrite append_cons. cbn [matches].
    rewrite Ha. by left.
  - intros (a & -> & Ha) rest g. exists g. rewrite append_cons. cbn [matches].
    rewrite Ha. by left.
  - intros [Hne Hc] rest g. exists g. destruct c as [|a c]; [done|].
    cbn [all_space] in Hc. apply andb_true_iff in Hc as [Ha Hc].
    rewrite append_cons. cbn [matches]. rewrite Ha.
    apply in_map_iff. exists (c, rest). split; [done|].
    by apply spaces_star_complete.
  - intros (c1 & c2 & -> & L1 & L2) rest g.
    destruct (IH1 c1 L1 (c2 +:+ rest) g) as [g1 H1].
    destruct (IH2 c2 L2 rest g1) as [g2 H2].
    exists g2. rewrite append_assoc. cbn [matches]. apply in_flat_map.
    exists (c1, c2 +:+ rest, g1). split; [done|].
    apply in_map_iff. by exists (c2, rest, g2).
  - intros [L|L] rest g.
    + destruct (IH1 c L rest g) as [g' H]. exists g'. cbn [matches].
      apply in_app_iff. by left.
    + destruct (IH2 c L rest g) as [g' H]. exists g'. cbn [matches].
      apply in_app_iff. by right.
  - intros L rest g. destruct (IH1 c L rest g) as [g' H].
    exists ((n, c) :: g'). cbn [matches]. apply in_map_iff.
    by exists (c, rest, g').
Qed.

Lemma fullmatch_lang r s : fullmatch r s = true ↔ lang r s.
Proof.
  unfold fullmatch. rewrite existsb_exists. split.
  - intros ([[c rest] g] & Hin & Hrest). cbn [fst snd] in Hrest.
    apply String.eqb_eq in Hrest as ->.
    apply matches_sound in Hin as [-> L]. by rewrite append_nil_r.
  - intros L. destruct (matches_complete r s L "" []) as [g' H].
    rewrite append_nil_r in H. exists (s, "", g'). done.
Qed.

Lemma date_to_datetime_raises s e :
  date_to_datetime s = Raise e → e = ValueError.
Proof.
  unfold date_to_datetime.
  destruct (strptime (drop_last4 s) _) as [dt|e1] eqn:E1; [done|].
  apply strptime_raises in E1 as ->. apply strptime_raises.
Qed.

Lemma date_to_datetime_fullmatch s dt :
  date_to_datetime s = Ok dt →
  fullmatch re_seconds (drop_last4 s) = true ∨ fullmatch re_date s = true.
Proof.
  unfold date_to_datetime.
  destruct (strptime (drop_last4 s) _) as [dt1|e1] eqn:E1.
  - intros _. left. exact (strptime_fullmatch _ _ _ _ pattern_seconds E1).
  - apply strptime_raises in E1 as ->. intros E2. right.
    exact (strptime_fullmatch _ _ _ _ pattern_date E2).
Qed.

(** C5, as stated, fails: "2021-3-4" has neither of the two forms and is
    parsed all the same. *)
Lemma date_to_datetime_unpadded_accepted :
  date_form "2021-3-4" = false ∧ millis_form "2021-3-4" = false
  ∧ date_to_datetime "2021-3-4" = Ok (mkdatetime 2021 3 4 0 0 0).
Proof. repeat split. Qed.

(** C5, amended: a string is refused, always with ValueError, when it does
    not match the date pattern in full and does not match the pattern with
    a time of day once its last four characters are dropped (patterns as
    strptime reads them); a valid string of either documented form is
    accepted. *)
Theorem date_to_datetime_failure :
  (∀ s, fullmatch re_seconds (drop_last4 s) = false →
        fullmatch re_date s = false →
        date_to_datetime s = Raise ValueError)
  ∧ (∀ y m d, valid_date y m d = true →
        date_form (iso_date y m d) = true
        ∧ ∃ dt, date_to_datetime (iso_date y m d) = Ok dt)
  ∧ (∀ y m d h mi s ms,
        valid_date y m d = true → valid_time h mi s = true → 0 ≤ ms < 1000 →
        millis_form (iso_millis y m d h mi s ms) = true
        ∧ ∃ dt, date_to_datetime (iso_millis y m d h mi s ms) = Ok dt).
Proof.
  split; [|split].
  - intros s H1 H2. destruct (date_to_datetime s) as [dt|e] eqn:E.
    + apply date_to_datetime_fullmatch in E as [E|E]; congruence.
    + by apply date_to_datetime_raises in E as ->.
  - intros y m d Hv. split.
    + destruct (valid_date_range _ _ _ Hv) as (Hy & Hm & Hd).
      unfold date_form, iso_date, pad4, pad3, pad2.
      norm_append. cbn [has_shape Ascii.eqb Bool.eqb].
      rewrite !is_digit_digit_char by dlia. reflexivity.
    + exists (mkdatetime y m d 0 0 0). unfold date_to_datetime.
      rewrite first_attempt_date by done. by apply strptime_iso_date.
  - intros y m d h mi s ms Hv Ht Hms. split.
    + destruct (valid_date_range _ _ _ Hv) as (Hy & Hm & Hd).
      destruct (valid_time_range _ _ _ Ht) as (Hh & Hmi & Hs).
      unfold millis_form, iso_millis, iso_seconds, iso_time, iso_date,
        pad4, pad3, pad2.
      norm_append. cbn [has_shape Ascii.eqb Bool.eqb].
      rewrite !is_digit_digit_char by dlia. reflexivity.
    + exists (mkdatetime y m d h mi s). unfold date_to_datetime, iso_millis.
      rewrite drop_last4_append by reflexivity.
      by rewrite strptime_iso_seconds.
Qed.

Lemma date_to_datetime_failure_witness :
  fullmatch re_seconds (drop_last4 "04/03/2021") = false
  ∧ fullmatch re_date "04/03/2021" = false
  ∧ date_to_datetime "04/03/2021" = Raise ValueError.
Proof.
  split; [reflexivity|]. split; [reflexivity|].
  apply (proj1 date_to_datetime_failure "04/03/2021"); reflexivity.
Defined.

(** ** Binarizer *)

Lemma length_binarise xs v : length (binarise xs v) = length xs.
Proof. apply length_map. Qed.

(** C2: [binarise] keeps the length, and its i-th entry is 1 when the i-th
    input equals the target and 0 otherwise, equality being exact: on
    ["A";"B";"A"] with target "A" it gives [1;0;1], and "a" is not "A". *)
Theorem binarise_spec :
  (∀ (xs : list value) (v : value),
     length (binarise xs v) = length xs
     ∧ ∀ i, binarise xs v !! i
            = (λ x, if decide (x = v) then 1 else 0) <$> xs !! i)
  ∧ binarise [VStr "A"; VStr "B"; VStr "A"] (VStr "A") = [1; 0; 1]
  ∧ binarise [VStr "a"; VStr " A"; VInt 1] (VStr "A") = [0; 0; 0].
Proof.
  split; [|done]. intros xs v. split; [apply length_binarise|].
  intros i. unfold binarise. rewrite list_lookup_fmap.
  destruct (xs !! i) as [x|]; [|done]. cbn. unfold py_eq, int_of_bool.
  by destruct (decide (x = v)); [rewrite bool_decide_true|rewrite bool_decide_false].
Qed.

Lemma col_values_length c : length (col_values c) = col_length c.
Proof. destruct c; apply length_map. Qed.

(** The general effect of [binarise_df]: the column named [value] is set,
    in place. *)
Lemma binarise_df_effect h l df value column src :
  h !! l = Some df → cols df !! column = Some src →
  col_length src = nrows df →
  binarise_df h l value column
  = Ok (<[l := mkDataFrame (nrows df)
               (<[value := IntCol (binarise (col_values src) (VStr value))]>
                  (cols df))]> h, l).
Proof.
  intros Hl Hc Hn. unfold binarise_df, load, getitem, setitem.
  rewrite Hl. cbn. rewrite Hc. cbn.
  rewrite length_binarise, col_values_length, Hn.
  by rewrite decide_True.
Qed.

Lemma wf_frame_example : wf_frame example_table.
Proof. unfold wf_frame. compute_done. Qed.

(** C9, as stated, fails when the target already names a column: that
    column is replaced, and no column is added. *)
Lemma binarise_df_replaces_status :
  ∃ h' df',
    binarise_df example_store 1%positive "status" "status" = Ok (h', 1%positive)
    ∧ h' !! 1%positive = Some df'
    ∧ size (cols df') = size (cols example_table)
    ∧ cols example_table !! "status"
      = Some (StrCol ["Opened"; "Opened"; "Error"; "Clicked"])
    ∧ cols df' !! "status" = Some (IntCol [0; 0; 0; 0]).
Proof.
  eexists _, _. split.
  { apply (binarise_df_effect _ _ example_table _ _
             (StrCol ["Opened"; "Opened"; "Error"; "Clicked"])); done. }
  split; [apply lookup_insert_eq|]. cbn [cols nrows].
  split; [|split; [done|]].
  - apply map_size_insert_Some. by eexists.
  - by rewrite lookup_insert_eq.
Qed.

(** C9, amended: when the target is not yet the name of a column (and the
    source column is one of the table), [binarise_df] updates the table in
    place, at the location it was given and which it returns: exactly one
    column is added, named after the target, and every other column and the
    number of rows are as before. *)
Theorem binarise_df_adds_column h l df value column src :
  h !! l = Some df → wf_frame df →
  cols df !! column = Some src → cols df !! value = None →
  ∃ df',
    binarise_df h l value column = Ok (<[l := df']> h, l)
    ∧ nrows df' = nrows df
    ∧ cols df' !! value = Some (IntCol (binarise (col_values src) (VStr value)))
    ∧ dom (cols df') = {[value]} ∪ dom (cols df)
    ∧ size (cols df') = S (size (cols df))
    ∧ ∀ c, c ≠ value → cols df' !! c = cols df !! c.
Proof.
  intros Hl Hwf Hsrc Hnew. eexists. split.
  { apply (binarise_df_effect _ _ df _ _ src); [done..|].
    exact (Hwf _ _ Hsrc). }
  cbn [cols nrows]. split; [done|]. split; [apply lookup_insert_eq|].
  split; [apply dom_insert_L|]. split; [by apply map_size_insert_None|].
  intros c Hc. by apply lookup_insert_ne.
Qed.

Lemma binarise_df_adds_column_witness :
  example_store !! 1%positive = Some example_table ∧ wf_frame example_table
  ∧ cols example_table !! "status"
    = Some (StrCol ["Opened"; "Opened"; "Error"; "Clicked"])
  ∧ cols example_table !! "Opened" = None
  ∧ ∃ df',
      binarise_df example_store 1%positive "Opened" "status"
      = Ok (<[1%positive := df']> example_store, 1%positive)
      ∧ cols df' !! "Opened" = Some (IntCol [1; 1; 0; 0])
      ∧ size (cols df') = 3%nat.
Proof.
  split; [reflexivity|]. split; [exact wf_frame_example|].
  split; [reflexivity|]. split; [reflexivity|].
  destruct (binarise_df_adds_column example_store 1%positive example_table
              "Opened" "status"
              (StrCol ["Opened"; "Opened"; "Error"; "Clicked"]))
    as (df' & E & _ & Hv & _ & Hs & _);
    [reflexivity | exact wf_frame_example | reflexivity | reflexivity |].
  exists df'. split; [exact E|]. split; [exact Hv | exact Hs].
Defined.

(** ** Smoother *)

Ltac eval_Qc :=
  etrans; [vm_compute; reflexivity|]; repeat f_equal; by apply Qc_is_canon.

(** The example of the numpy documentation:
    [np.convolve([1,2,3],[0,1,0.5],'same')] is [[1, 2.5, 4]]. *)
Example convolve_same_doc :
  convolve_same [Qc_of_Z 1; Qc_of_Z 2; Qc_of_Z 3]
                [Qc_of_Z 0; Qc_of_Z 1; (1 / Qc_of_Z 2)%Qc]
  = Ok [Qc_of_Z 1; (Qc_of_Z 5 / Qc_of_Z 2)%Qc; Qc_of_Z 4].
Proof. eval_Qc. Qed.

(** An even kernel: [np.convolve([1,2,3,4],[1,1],'same')] is [[1,3,5,7]]. *)
Example convolve_same_even :
  convolve_same [Qc_of_Z 1; Qc_of_Z 2; Qc_of_Z 3; Qc_of_Z 4]
                [Qc_of_Z 1; Qc_of_Z 1]
  = Ok [Qc_of_Z 1; Qc_of_Z 3; Qc_of_Z 5; Qc_of_Z 7].
Proof. eval_Qc. Qed.

Lemma length_correlate_same a w :
  (1 ≤ length w ≤ length a)%nat → length (correlate_same a w) = length a.
Proof.
  intros H. unfold correlate_same.
  rewrite !length_app, !length_map, !length_seq.
  assert (length w / 2 < length w)%nat by (apply Nat.div_lt; lia). lia.
Qed.

Lemma convolve_same_length a v :
  a ≠ [] → v ≠ [] →
  ∃ out, convolve_same a v = Ok out
         ∧ length out = (length a `max` length v)%nat.
Proof.
  intros Ha Hv. unfold convolve_same.
  destruct (length a <? length v)%nat eqn:E.
  - apply Nat.ltb_lt in E. destruct v as [|y v]; [done|].
    destruct a as [|x a]; [done|]. eexists. split; [done|].
    rewrite length_correlate_same; [lia|]. rewrite length_rev. cbn in *. lia.
  - apply Nat.ltb_ge in E. destruct a as [|x a]; [done|].
    destruct v as [|y v]; [done|]. eexists. split; [done|].
    rewrite length_correlate_same; [lia|]. rewrite length_rev. cbn in *. lia.
Qed.

Lemma moving_average_unfold xs window :
  0 ≤ window →
  moving_average xs window
  = convolve_same (fl <$> xs)
      (replicate (Z.to_nat window) (fdiv 1%Qc (fl (Qc_of_Z window)))).
Proof.
  intros H. unfold moving_average, ones_over.
  destruct (window <? 0) eqn:E; [lia|done].
Qed.

(** What the code does about lengths: the longer of the data and the
    window. *)
Lemma moving_average_length xs window :
  xs ≠ [] → 1 ≤ window →
  ∃ out, moving_average xs window = Ok out
         ∧ length out = (length xs `max` Z.to_nat window)%nat.
Proof.
  intros Hxs Hw. rewrite moving_average_unfold by lia.
  set (k := fdiv 1%Qc (fl (Qc_of_Z window))).
  destruct (convolve_same_length (fl <$> xs) (replicate (Z.to_nat window) k))
    as (out & -> & Hlen).
  - by destruct xs.
  - destruct (Z.to_nat window) eqn:En; [lia|done].
  - exists out. split; [done|].
    by rewrite Hlen, length_replicate, length_fmap.
Qed.

(** C1 fails on the code, which contradicts its own docstring ("in the same
    size array"): with a window longer than the data, the result has the
    length of the window. *)
Theorem moving_average_long_window :
  ∃ out, moving_average [Qc_of_Z 1; Qc_of_Z 2; Qc_of_Z 3] 5 = Ok out ∧ length out = 5%nat.
Proof.
  destruct (moving_average_length [Qc_of_Z 1; Qc_of_Z 2; Qc_of_Z 3] 5) as (out & E & Hlen);
    [done | lia |].
  exists out. split; [done|]. by rewrite Hlen.
Qed.

(** The default window of [get_interactions] is 10000. *)
Lemma moving_average_default_window xs :
  xs ≠ [] → Z.of_nat (length xs) < 10000 →
  ∃ out, moving_average xs 10000 = Ok out ∧ Z.of_nat (length out) = 10000.
Proof.
  intros Hxs Hlen.
  destruct (moving_average_length xs 10000) as (out & E & Hout); [done|lia|].
  exists out. split; [done|]. lia.
Qed.

Lemma kernel_one : fdiv 1%Qc (fl (Qc_of_Z 1)) = 1%Qc.
Proof. by apply Qc_is_canon. Qed.

Lemma dot_one (xs : list Qc) x i :
  xs !! i = Some x → dot (drop i xs) [1%Qc] 1 = fl (fl x).
Proof.
  intros Hi. unfold dot.
  assert (take 1 (drop i xs) = [x]) as ->.
  { revert i Hi. induction xs as [|y xs IH]; intros [|i] Hi; simplify_eq/=.
    - by rewrite take_0.
    - by apply IH. }
  cbn [take zip zip_with foldl fst snd]. unfold fadd, fmul.
  by rewrite Qcmult_1_r, Qcplus_0_l.
Qed.

Lemma correlate_same_one (xs : list Qc) :
  xs ≠ [] → correlate_same xs [1%Qc] = (λ x, fl (fl x)) <$> xs.
Proof.
  intros Hxs. unfold correlate_same.
  cbn [length Nat.div Nat.divmod fst seq map app].
  replace (length xs - 1 + 1)%nat with (length xs)
    by (destruct xs; [done | cbn [length]; lia]).
  change (1 - 0 - 1)%nat with 0%nat. cbn [seq map]. rewrite app_nil_r.
  apply list_eq. intros i. rewrite !list_lookup_fmap.
  destruct (xs !! i) as [x|] eqn:Hi.
  - assert (i < length xs)%nat by (by eapply lookup_lt_Some).
    rewrite lookup_seq_lt by lia. cbn. f_equal. by apply dot_one.
  - apply lookup_ge_None in Hi. by rewrite lookup_seq_ge.
Qed.

Lemma convolve_same_Ok (a v : list Qc) :
  a ≠ [] → v ≠ [] →
  convolve_same a v
  = Ok (if (length a <? length v)%nat then correlate_same v (rev a)
        else correlate_same a (rev v)).
Proof.
  intros Ha Hv. unfold convolve_same.
  destruct (length a <? length v)%nat; destruct a, v; done.
Qed.

(** With window 1 the result is the data, as float64 numbers. *)
Lemma moving_average_one (xs : list Qc) :
  xs ≠ [] → moving_average xs 1 = Ok (fl <$> xs).
Proof.
  intros Hxs. rewrite moving_average_unfold by lia.
  change (Z.to_nat 1) with 1%nat. cbn [replicate]. rewrite kernel_one.
  assert (fl <$> xs ≠ []) as Hne by (by destruct xs).
  rewrite convolve_same_Ok by done. rewrite length_fmap. cbn [length rev app].
  replace (length xs <? 1)%nat with false
    by (symmetry; apply Nat.ltb_ge; destruct xs; [done|cbn; lia]).
  rewrite correlate_same_one by done. f_equal.
  rewrite <- list_fmap_compose. apply list_fmap_ext. intros _ y _. cbn.
  by rewrite !fl_idem.
Qed.

Lemma fmap_fl_id (xs : list Qc) : Forall is_float64 xs → fl <$> xs = xs.
Proof.
  induction 1 as [|x xs Hx _ IH]; [done|]. cbn [fmap list_fmap].
  rewrite fl_id by done. f_equal. exact IH.
Qed.

(** C8, as stated, fails on the empty sequence, which [np.convolve]
    refuses. *)
Lemma moving_average_empty : moving_average [] 1 = Raise ValueError.
Proof. reflexivity. Qed.

(** It also fails on integers that float64 does not have: [2^53 + 1]
    comes back as [2^53]. *)
Lemma moving_average_rounds_integers :
  moving_average [Qc_of_Z (2 ^ 53 + 1)] 1 = Ok [Qc_of_Z (2 ^ 53)].
Proof. eval_Qc. Qed.

(** C8, amended: on every non-empty sequence of float64 numbers, smoothing
    with window 1 returns the sequence itself; and on [0,0,1,0,0] with
    window 3 the third element of the result is the float64 quotient 1/3,
    which is 6004799503160661 / 2^54. *)
Theorem moving_average_window_one :
  (∀ xs : list Qc, xs ≠ [] → Forall is_float64 xs →
                   moving_average xs 1 = Ok xs)
  ∧ ∃ out, moving_average [Qc_of_Z 0; Qc_of_Z 0; Qc_of_Z 1; Qc_of_Z 0; Qc_of_Z 0] 3 = Ok out
           ∧ out !! 2%nat = Some (fdiv 1%Qc (Qc_of_Z 3))
           ∧ fdiv 1%Qc (Qc_of_Z 3)
             = (Qc_of_Z 6004799503160661 / Qc_of_Z (2 ^ 54))%Qc.
Proof.
  split.
  - intros xs Hxs Hfl. rewrite moving_average_one by done.
    by rewrite fmap_fl_id.
  - eexists. split; [vm_compute; reflexivity|].
    split; [cbn; f_equal|]; by apply Qc_is_canon.
Qed.

Lemma moving_average_window_one_witness :
  [Qc_of_Z 3; Qc_of_Z 1; Qc_of_Z 2] ≠ []
  ∧ Forall is_float64 [Qc_of_Z 3; Qc_of_Z 1; Qc_of_Z 2]
  ∧ moving_average [Qc_of_Z 3; Qc_of_Z 1; Qc_of_Z 2] 1
    = Ok [Qc_of_Z 3; Qc_of_Z 1; Qc_of_Z 2].
Proof.
  assert (Forall is_float64 [Qc_of_Z 3; Qc_of_Z 1; Qc_of_Z 2]) as H.
  { repeat constructor.
    - exists 3, 0. split; [reflexivity|]. split; [lia|reflexivity].
    - exists 1, 0. split; [reflexivity|]. split; [lia|reflexivity].
    - exists 2, 0. split; [reflexivity|]. split; [lia|reflexivity]. }
  split; [discriminate|]. split; [exact H|].
  apply (proj1 moving_average_window_one [Qc_of_Z 3; Qc_of_Z 1; Qc_of_Z 2]);
    [discriminate | exact H].
Defined.

(** ** DailyAggregator *)

Lemma binarise_01 xs v : Forall (λ b, b = 0 ∨ b = 1) (binarise xs v).
Proof.
  unfold binarise. apply Forall_fmap, Forall_true. intros x. cbn.
  destruct (py_eq x v); auto.
Qed.

Lemma Z_sum_01 (l : list Z) :
  Forall (λ b, b = 0 ∨ b = 1) l → 0 ≤ Z_sum l ≤ Z.of_nat (length l).
Proof.
  induction 1 as [|b l Hb _ IH]; [cbn; lia|].
  change (Z_sum (b :: l)) with (b + Z_sum l). rewrite length_cons. lia.
Qed.

Lemma mean_01 (l : list Z) :
  Forall (λ b, b = 0 ∨ b = 1) l → (0 ≤ mean l ∧ mean l ≤ 1)%Qc.
Proof.
  intros H. apply Z_sum_01 in H. unfold mean.
  pose proof (Nat2Z.is_nonneg (length l)) as Hpos.
  set (s := Z_sum l) in *. set (n := Z.of_nat (length l)) in *.
  clearbody s n.
  assert (0 ≤ Qc_of_Z s / Qc_of_Z n ∧ Qc_of_Z s / Qc_of_Z n ≤ 1)%Qc
    as [Hq0 Hq1].
  { destruct (decide (n = 0)) as [Hn|Hn].
    - assert (s = 0) as -> by lia. rewrite Hn, Z2Qc_inj_0.
      unfold Qcdiv. rewrite Qcmult_0_l. done.
    - assert (0 < Qc_of_Z n)%Qc as HN.
      { rewrite <- Z2Qc_inj_0. apply (proj1 (Z2Qc_inj_lt 0 n)). lia. }
      assert (0 ≤ Qc_of_Z s)%Qc as H0.
      { rewrite <- Z2Qc_inj_0. apply (proj1 (Z2Qc_inj_le 0 s)). lia. }
      assert (Qc_of_Z s ≤ Qc_of_Z n)%Qc as H1
        by (apply (proj1 (Z2Qc_inj_le s n)); lia).
      pose proof (Qcinv_pos _ HN) as Hi. apply Qclt_le_weak in Hi.
      unfold Qcdiv. split.
      + by apply Qcmult_nonneg_nonneg.
      + rewrite <- (Qcmult_inv_r (Qc_of_Z n))
          by (by apply not_symmetry, Qclt_not_eq).
        by apply Qcmult_le_mono_nonneg_r. }
  split; [by apply fl_nonneg | by apply fl_le_1].
Qed.

Lemma group_rows_subseteq k ks vs : group_rows k ks vs ⊆ vs.
Proof.
  intros v. unfold group_rows. rewrite list_elem_of_fmap.
  intros ([k' v'] & -> & Hin). apply list_elem_of_filter in Hin as [_ Hin].
  by apply elem_of_zip_r in Hin.
Qed.

(** With one cell per row in both columns, the group of a key that occurs
    is not empty. *)
Lemma group_rows_nonempty k ks vs :
  length ks = length vs → k ∈ ks → group_rows k ks vs ≠ [].
Proof.
  intros Hlen Hk. apply list_elem_of_lookup in Hk as [i Hi].
  destruct (lookup_lt_is_Some_2 vs i) as [v Hv].
  { rewrite <- Hlen. by eapply lookup_lt_Some. }
  assert ((k, v) ∈ filter (λ p, p.1 = k) (zip ks vs)) as Hin.
  { apply list_elem_of_filter. split; [done|].
    apply list_elem_of_lookup. exists i. rewrite lookup_zip_with.
    by rewrite Hi, Hv. }
  unfold group_rows. intros Hnil. apply fmap_nil_inv in Hnil.
  rewrite Hnil in Hin. by apply not_elem_of_nil in Hin.
Qed.

Lemma group_keys_elem k ks : k ∈ group_keys ks ↔ k ∈ ks.
Proof.
  unfold group_keys. rewrite merge_sort_Permutation. apply elem_of_remove_dups.
Qed.

Lemma group_keys_NoDup ks : NoDup (group_keys ks).
Proof.
  unfold group_keys. rewrite merge_sort_Permutation. apply NoDup_remove_dups.
Qed.

Lemma group_keys_length ks :
  length (group_keys ks) = size (list_to_set ks : gset string).
Proof.
  unfold group_keys. rewrite merge_sort_Permutation.
  rewrite <- (size_list_to_set (C := gset string)) by apply NoDup_remove_dups.
  f_equal. apply set_eq. intros k.
  by rewrite !elem_of_list_to_set, elem_of_remove_dups.
Qed.

Lemma StronglySorted_strict (l : list string) :
  StronglySorted String.le l → NoDup l → StronglySorted (strict String.le) l.
Proof.
  induction 1 as [|x l Hl IH Hx]; intros Hnd; [constructor|].
  pose proof (NoDup_cons_1_1 _ _ Hnd) as Hnin.
  apply NoDup_cons_1_2 in Hnd. constructor; [by apply IH|].
  apply list.Forall_forall. intros y Hy. split.
  - by apply (proj1 (list.Forall_forall _ _) Hx).
  - intros Hyx. apply Hnin. assert (x = y) as ->; [|done].
    apply (anti_symm String.le); [|done].
    by apply (proj1 (list.Forall_forall _ _) Hx).
Qed.

Lemma group_keys_sorted ks : StronglySorted (strict String.le) (group_keys ks).
Proof.
  apply StronglySorted_strict; [|apply group_keys_NoDup].
  apply (StronglySorted_merge_sort String.le).
Qed.

Lemma groupby_mean_keys ks vs : (groupby_mean ks vs).*1 = group_keys ks.
Proof.
  unfold groupby_mean, group_keys. rewrite <- list_fmap_compose.
  apply list_fmap_id.
Qed.

(** The groupby-mean step on two columns of the same length. *)
Lemma groupby_mean_spec ks vs :
  length ks = length vs → Forall (λ b, b = 0 ∨ b = 1) vs →
  (∀ k, k ∈ (groupby_mean ks vs).*1 ↔ k ∈ ks)
  ∧ NoDup (groupby_mean ks vs).*1
  ∧ length (groupby_mean ks vs) = size (list_to_set ks : gset string)
  ∧ StronglySorted (strict String.le) (groupby_mean ks vs).*1
  ∧ Forall (λ p, group_rows p.1 ks vs ≠ []
                 ∧ p.2 = mean (group_rows p.1 ks vs)
                 ∧ (0 ≤ p.2)%Qc ∧ (p.2 ≤ 1)%Qc) (groupby_mean ks vs).
Proof.
  intros Hlen H01. rewrite groupby_mean_keys.
  split; [intros k; apply group_keys_elem|]. split; [apply group_keys_NoDup|].
  split.
  { rewrite <- group_keys_length, <- (groupby_mean_keys ks vs).
    by rewrite length_fmap. }
  split; [apply group_keys_sorted|].
  unfold groupby_mean. apply Forall_fmap, list.Forall_forall. intros k Hk. cbn.
  apply (proj1 (group_keys_elem _ _)) in Hk.
  split; [by apply group_rows_nonempty|]. split; [done|].
  apply mean_01, list.Forall_forall. intros v Hv.
  apply group_rows_subseteq in Hv.
  by apply (proj1 (list.Forall_forall _ _) H01).
Qed.

(** C6: on a table with a day column and a 0/1 indicator column, the
    groupby-mean step yields exactly one entry per distinct day of the
    table, the days in strictly ascending order, and every value, the mean
    of a non-empty group, lies between 0 and 1. *)
Theorem groupby_mean_daily df c ks vs :
  wf_frame df →
  cols df !! "day" = Some (StrCol ks) → cols df !! c = Some (IntCol vs) →
  Forall (λ b, b = 0 ∨ b = 1) vs →
  ∃ out,
    frame_groupby_mean df "day" c = Ok out
    ∧ (∀ k, k ∈ out.*1 ↔ k ∈ ks)
    ∧ NoDup out.*1
    ∧ length out = size (list_to_set ks : gset string)
    ∧ StronglySorted (strict String.le) out.*1
    ∧ Forall (λ p, group_rows p.1 ks vs ≠ []
                   ∧ p.2 = mean (group_rows p.1 ks vs)
                   ∧ (0 ≤ p.2)%Qc ∧ (p.2 ≤ 1)%Qc) out.
Proof.
  intros Hwf Hday Hc H01. exists (groupby_mean ks vs).
  assert (length ks = length vs) as Hlen.
  { pose proof (Hwf _ _ Hday) as H1. pose proof (Hwf _ _ Hc) as H2.
    cbn in H1, H2. congruence. }
  split; [|by apply groupby_mean_spec].
  unfold frame_groupby_mean, getitem. rewrite Hday. cbn. by rewrite Hc.
Qed.

Lemma groupby_mean_daily_witness :
  ∃ out, frame_groupby_mean example_days "day" "Opened" = Ok out
         ∧ length out = 2%nat
         ∧ Forall (λ p, (0 ≤ p.2)%Qc ∧ (p.2 ≤ 1)%Qc) out.
Proof.
  destruct (groupby_mean_daily example_days "Opened"
              ["2021-01-02"; "2021-01-01"; "2021-01-02"] [1; 0; 0])
    as (out & E & _ & _ & Hlen & _ & Hv).
  - unfold wf_frame. compute_done.
  - reflexivity.
  - reflexivity.
  - repeat constructor; lia.
  - exists out. split; [exact E|]. split.
    + rewrite Hlen. reflexivity.
    + revert Hv. apply List.Forall_impl. intros p (_ & _ & H0 & H1). by split.
Defined.

(** ** End-to-end scenario *)

Ltac eval_series :=
  eexists; etrans; [vm_compute; reflexivity|];
  repeat f_equal; by apply Qc_is_canon.

(** C7: on the table of four rows of 2021-01-01 with statuses Opened,
    Opened, Error, Clicked, the daily rates are 1/2 for Opened, 1/4 for
    Error, 1/4 for Clicked and 0 for Unsubscribed, and the time axis has
    exactly one entry. *)
Theorem scenario_rates :
  (∃ h', daily_series example_store 1%positive "Opened" = Ok (h', [(1 / Qc_of_Z 2)%Qc]))
  ∧ (∃ h', daily_series example_store 1%positive "Error" = Ok (h', [(1 / Qc_of_Z 4)%Qc]))
  ∧ (∃ h', daily_series example_store 1%positive "Clicked"
           = Ok (h', [(1 / Qc_of_Z 4)%Qc]))
  ∧ (∃ h', daily_series example_store 1%positive "Unsubscribed"
           = Ok (h', [0%Qc]))
  ∧ (∃ h' times, get_times example_store 1%positive = Ok (h', times)
                 ∧ length times = 1%nat).
Proof.
  split; [eval_series|]. split; [eval_series|]. split; [eval_series|].
  split; [eval_series|].
  eexists _, _. split; [vm_compute; reflexivity|]. reflexivity.
Qed.

(** With window 1 [get_interactions] returns these rates as they are. *)
Lemma scenario_get_interactions :
  ∃ h', get_interactions example_store 1%positive "Opened" 1
        = Ok (h', [(1 / Qc_of_Z 2)%Qc]).
Proof. eval_series. Qed.

(** ** The order of the rows does not matter to the daily series *)

Lemma argsort_Permutation {A} (R : relation A) `{!∀ x y, Decision (R x y)}
    (keys : list A) :
  argsort R keys ≡ₚ seq 0 (length keys).
Proof.
  unfold argsort. rewrite merge_sort_Permutation.
  rewrite snd_zip; [done|]. by rewrite length_seq.
Qed.

Lemma take_rows_seq_app {A} (pre l : list A) :
  take_rows (seq (length pre) (length l)) (pre ++ l)%list = l.
Proof.
  revert pre. induction l as [|x l IH]; intros pre; [done|].
  cbn [length seq]. unfold take_rows. cbn [omap list_omap].
  rewrite list_lookup_middle by done. f_equal.
  specialize (IH (pre ++ [x])%list). rewrite length_app in IH. cbn [length] in IH.
  replace (length pre + 1)%nat with (S (length pre)) in IH by lia.
  by rewrite <- app_assoc in IH.
Qed.

Lemma take_rows_seq {A} (l : list A) : take_rows (seq 0 (length l)) l = l.
Proof. apply (take_rows_seq_app [] l). Qed.

Lemma take_rows_Permutation {A} (idx : list nat) (l : list A) :
  idx ≡ₚ seq 0 (length l) → take_rows idx l ≡ₚ l.
Proof.
  intros H. unfold take_rows. rewrite H. fold (take_rows (seq 0 (length l)) l).
  by rewrite take_rows_seq.
Qed.

Lemma col_take_rows_length idx c :
  idx ≡ₚ seq 0 (col_length c) → col_length (col_take_rows idx c) = col_length c.
Proof.
  intros H. destruct c as [l|l]; cbn in *;
    by rewrite (take_rows_Permutation idx l H).
Qed.

Lemma Z_sum_Permutation (l l' : list Z) : l ≡ₚ l' → Z_sum l = Z_sum l'.
Proof.
  unfold Z_sum. induction 1 as [|x l l' _ IH|x y l|l1 l2 l3 _ IH1 _ IH2];
    cbn; lia.
Qed.

Lemma mean_Permutation (l l' : list Z) : l ≡ₚ l' → mean l = mean l'.
Proof.
  intros H. unfold mean.
  by rewrite (Z_sum_Permutation l l' H), (Permutation_length H).
Qed.

Lemma group_keys_ext ks ks' :
  (∀ k, k ∈ ks ↔ k ∈ ks') → group_keys ks = group_keys ks'.
Proof.
  intros H. apply (StronglySorted_unique String.le).
  - apply (StronglySorted_merge_sort String.le).
  - apply (StronglySorted_merge_sort String.le).
  - apply NoDup_Permutation; [apply group_keys_NoDup..|].
    intros k. by rewrite !group_keys_elem.
Qed.

Lemma groupby_mean_Permutation ks vs ks' vs' :
  length ks = length vs → length ks' = length vs' →
  zip ks vs ≡ₚ zip ks' vs' → groupby_mean ks vs = groupby_mean ks' vs'.
Proof.
  intros Hlen Hlen' Hperm. unfold groupby_mean.
  assert (ks ≡ₚ ks') as Hks.
  { rewrite <- (fst_zip ks vs), <- (fst_zip ks' vs') by lia. by rewrite Hperm. }
  rewrite (group_keys_ext ks ks') by (intros k; by rewrite Hks).
  apply list_fmap_ext. intros _ k _. f_equal. apply mean_Permutation.
  unfold group_rows. by rewrite Hperm.
Qed.

Lemma take_rows_fmap {A B} (f : A → B) idx (l : list A) :
  take_rows idx (f <$> l) = f <$> take_rows idx l.
Proof.
  unfold take_rows. induction idx as [|i idx IH]; [done|].
  cbn [omap list_omap]. rewrite list_lookup_fmap, IH.
  by destruct (l !! i).
Qed.

Lemma take_rows_zip {A B} idx (a : list A) (b : list B) :
  length a = length b →
  zip (take_rows idx a) (take_rows idx b) = take_rows idx (zip a b).
Proof.
  intros Hlen. unfold take_rows.
  induction idx as [|i idx IH]; [done|]. cbn [omap list_omap].
  rewrite lookup_zip_with. destruct (a !! i) as [x|] eqn:Ha.
  - destruct (lookup_lt_is_Some_2 b i) as [y Hb].
    { rewrite <- Hlen. by eapply lookup_lt_Some. }
    rewrite Hb. cbn. by rewrite <- IH.
  - cbn. destruct (b !! i) as [y|] eqn:Hb; [|done].
    apply lookup_lt_Some in Hb. apply lookup_ge_None in Ha. lia.
Qed.

Lemma binarise_take_rows idx c v :
  binarise (col_values (col_take_rows idx c)) v
  = take_rows idx (binarise (col_values c) v).
Proof.
  unfold binarise. destruct c as [l|l]; cbn [col_take_rows col_values];
    by rewrite !take_rows_fmap.
Qed.

(** Sorting the rows before aggregating changes nothing: whatever the order
    in which [sort_values] leaves the rows of a day. *)
Lemma groupby_mean_take_rows idx ks c v :
  length ks = col_length c → idx ≡ₚ seq 0 (length ks) →
  groupby_mean (take_rows idx ks)
               (binarise (col_values (col_take_rows idx c)) v)
  = groupby_mean ks (binarise (col_values c) v).
Proof.
  intros Hlen Hidx. rewrite binarise_take_rows.
  assert (length ks = length (binarise (col_values c) v)) as Hb
    by (by rewrite length_binarise, col_values_length).
  apply groupby_mean_Permutation.
  - rewrite !take_rows_Permutation; [done| |done]. by rewrite <- Hb.
  - done.
  - rewrite take_rows_zip by done. apply take_rows_Permutation.
    rewrite length_zip_with, <- Hb. by rewrite Nat.min_id.
Qed.

(** ** The pipeline of [get_interactions] *)

Lemma add_day_effect h l df ds :
  h !! l = Some df → cols df !! "date" = Some (StrCol ds) →
  length ds = nrows df →
  add_day h l
  = Ok (<[l := mkDataFrame (nrows df)
               (<["day" := StrCol (String.substring 0 10 <$> ds)]> (cols df))]> h,
        l).
Proof.
  intros Hl Hd Hn. unfold add_day, load, getitem, setitem.
  rewrite Hl. cbn. rewrite Hd. cbn. rewrite length_fmap, Hn.
  by rewrite decide_True.
Qed.

Lemma sort_values_str h l df by_ ks :
  h !! l = Some df → cols df !! by_ = Some (StrCol ks) →
  sort_values h l by_
  = Ok (<[fresh (dom h) := mkDataFrame (nrows df)
            (col_take_rows (argsort String.le ks) <$> cols df)]> h,
        fresh (dom h)).
Proof.
  intros Hl Hk. unfold sort_values, load, getitem. rewrite Hl. cbn.
  by rewrite Hk.
Qed.

(** The daily series of a table with a date and a status column: the means
    of the indicator of [t] over the days of the table, the first ten
    characters of its dates.  The given table gains its day column; the
    sorted and binarised table is a new one. *)
Lemma daily_series_spec h l df ds ss t :
  h !! l = Some df → wf_frame df →
  cols df !! "date" = Some (StrCol ds) → cols df !! "status" = Some ss →
  t ≠ "day" →
  ∃ h' out,
    daily_series h l t = Ok (h', out.*2)
    ∧ out = groupby_mean (String.substring 0 10 <$> ds)
                         (binarise (col_values ss) (VStr t))
    ∧ h' !! l
      = Some (mkDataFrame (nrows df)
                (<["day" := StrCol (String.substring 0 10 <$> ds)]> (cols df)))
    ∧ (∀ k, k ∈ out.*1 ↔ k ∈ String.substring 0 10 <$> ds)
    ∧ NoDup out.*1
    ∧ length out
      = size (list_to_set (String.substring 0 10 <$> ds) : gset string)
    ∧ StronglySorted (strict String.le) out.*1
    ∧ Forall (λ p, (0 ≤ p.2)%Qc ∧ (p.2 ≤ 1)%Qc) out.
Proof.
  intros Hl Hwf Hdate Hstatus Ht.
  set (days := String.substring 0 10 <$> ds).
  assert (length ds = nrows df) as Hds by exact (Hwf _ _ Hdate).
  assert (col_length ss = nrows df) as Hss by exact (Hwf _ _ Hstatus).
  set (df1 := mkDataFrame (nrows df) (<["day" := StrCol days]> (cols df))).
  set (h1 := <[l := df1]> h).
  set (idx := argsort String.le days).
  assert (idx ≡ₚ seq 0 (nrows df)) as Hidx.
  { unfold idx. rewrite argsort_Permutation. unfold days.
    by rewrite length_fmap, Hds. }
  set (l' := fresh (dom h1)).
  assert (l' ≠ l) as Hl'.
  { intros E. apply (is_fresh (dom h1)). fold l'. rewrite E.
    apply elem_of_dom. unfold h1. rewrite lookup_insert_eq. by eexists. }
  set (df2 := mkDataFrame (nrows df) (col_take_rows idx <$> cols df1)).
  set (h2 := <[l' := df2]> h1).
  set (bins := binarise (col_values (col_take_rows idx ss)) (VStr t)).
  set (df3 := mkDataFrame (nrows df) (<[t := IntCol bins]> (cols df2))).
  set (h3 := <[l' := df3]> h2).
  set (sorted_days := take_rows idx days).
  assert (sorted_days ≡ₚ days) as Hperm.
  { apply take_rows_Permutation. unfold days. by rewrite length_fmap, Hds. }
  exists h3, (groupby_mean days (binarise (col_values ss) (VStr t))). split.
  { unfold daily_series.
    rewrite (add_day_effect h l df ds) by done.
    rewrite bind_Ok. cbn beta iota. fold days df1 h1.
    rewrite (sort_values_str h1 l df1 "day" days);
      [|apply lookup_insert_eq|apply lookup_insert_eq].
    rewrite bind_Ok. cbn beta iota. change (nrows df1) with (nrows df).
    fold idx l' df2 h2.
    rewrite (binarise_df_effect h2 l' df2 t "status" (col_take_rows idx ss)).
    - rewrite bind_Ok. cbn beta iota. change (nrows df2) with (nrows df).
      fold bins df3 h3.
      unfold load.
      assert (h3 !! l' = Some df3) as -> by apply lookup_insert_eq.
      rewrite bind_Ok.
      assert (cols df3 !! "day" = Some (StrCol sorted_days)) as Hday.
      { cbn [cols df3 df2 df1]. rewrite lookup_insert_ne by done.
        by rewrite lookup_fmap, lookup_insert_eq. }
      assert (cols df3 !! t = Some (IntCol bins)) as Hbins
        by apply lookup_insert_eq.
      unfold frame_groupby_mean, getitem. rewrite Hday, bind_Ok, Hbins.
      rewrite !bind_Ok. unfold sorted_days, bins.
      assert (length days = nrows df) as Hdays
        by (unfold days; by rewrite length_fmap).
      rewrite groupby_mean_take_rows; [done|congruence|by rewrite Hdays].
    - apply lookup_insert_eq.
    - cbn [cols df2 df1]. rewrite lookup_fmap, lookup_insert_ne by done.
      by rewrite Hstatus.
    - cbn [nrows df2]. rewrite col_take_rows_length; [done|]. by rewrite Hss. }
  split; [done|]. split.
  { unfold h3, h2. rewrite !lookup_insert_ne by done.
    apply lookup_insert_eq. }
  destruct (groupby_mean_spec days (binarise (col_values ss) (VStr t)))
    as (Hk & Hnd & Hlen & Hs & Hv).
  { rewrite length_binarise, col_values_length. unfold days.
    by rewrite length_fmap, Hds, Hss. }
  { apply binarise_01. }
  split; [done|]. split; [done|]. split; [done|]. split; [done|].
  revert Hv. apply List.Forall_impl. intros p (_ & _ & H0 & H1). by split.
Qed.

(** ** The default window *)

Lemma scenario_daily_opened :
  ∃ h', daily_series example_store 1%positive "Opened"
        = Ok (h', [(1 / Qc_of_Z 2)%Qc]).
Proof. eval_series. Qed.

(** Under its default window of 10000, [get_interactions] returns 10000
    values for the single day of the scenario, where [get_times] returns
    one. *)
Lemma scenario_default_window :
  ∃ h' out, get_interactions example_store 1%positive "Opened" 10000
            = Ok (h', out)
            ∧ Z.of_nat (length out) = 10000.
Proof.
  destruct scenario_daily_opened as [h' E].
  destruct (moving_average_default_window [(1 / Qc_of_Z 2)%Qc])
    as (out & Eo & Hlen); [done | cbn; lia |].
  exists h', out. split; [|done].
  unfold get_interactions. rewrite E, bind_Ok. cbn beta iota.
  by rewrite Eo, bind_Ok.
Qed.

(** ** More on the parsing of dates *)

(** X2: the last four characters are dropped unread: a valid
    YYYY-MM-DD HH:MM:SS followed by any four characters is parsed to that
    date and time. *)
Theorem date_to_datetime_tail_ignored y m d h mi s tail :
  valid_date y m d = true → valid_time h mi s = true →
  String.length tail = 4%nat →
  date_to_datetime (iso_seconds y m d h mi s +:+ tail)
  = Ok (mkdatetime y m d h mi s).
Proof.
  intros Hv Ht Htail. unfold date_to_datetime.
  rewrite drop_last4_append by done. by rewrite strptime_iso_seconds.
Qed.

Lemma date_to_datetime_tail_ignored_witness :
  valid_date 2021 3 4 = true ∧ valid_time 10 15 30 = true
  ∧ String.length "abcd" = 4%nat
  ∧ date_to_datetime "2021-03-04 10:15:30abcd"
    = Ok (mkdatetime 2021 3 4 10 15 30).
Proof.
  split; [reflexivity|]. split; [reflexivity|]. split; [reflexivity|].
  apply (date_to_datetime_tail_ignored 2021 3 4 10 15 30 "abcd"); reflexivity.
Defined.

Lemma matches_groups_other r n :
  n ∉ group_names r →
  ∀ s g c rest g', In (c, rest, g') (matches r s g) → group n g' = group n g.
Proof.
  induction r as [|a|lo hi| | |r1 IH1 r2 IH2|r1 IH1 r2 IH2|k r1 IH1];
    intros Hn s g c rest g'; cbn [matches group_names] in *.
  - intros [[= <- <- <-]|[]]. done.
  - destruct s as [|x s]; [intros []|].
    destruct (Ascii.eqb x a); [|intros []]. intros [[= <- <- <-]|[]]. done.
  - destruct s as [|x s]; [intros []|].
    destruct (in_range lo hi x); [|intros []]. intros [[= <- <- <-]|[]]. done.
  - destruct s as [|x s]; [intros []|].
    destruct (is_digit x); [|intros []]. intros [[= <- <- <-]|[]]. done.
  - destruct s as [|x s]; [intros []|].
    destruct (is_space x); [|intros []].
    rewrite in_map_iff. intros ([c' r'] & [= <- <- <-] & _). done.
  - rewrite elem_of_app in Hn. rewrite in_flat_map.
    intros ([[c1 s1] g1] & H1 & H2).
    apply in_map_iff in H2 as ([[c2 s2] g2] & [= <- <- <-] & H2).
    rewrite (IH2 ltac:(tauto) _ _ _ _ _ H2).
    by apply (IH1 ltac:(tauto) _ _ _ _ _ H1).
  - rewrite elem_of_app in Hn. rewrite in_app_iff.
    intros [H|H]; [by apply (IH1 ltac:(tauto) _ _ _ _ _ H)
                  |by apply (IH2 ltac:(tauto) _ _ _ _ _ H)].
  - rewrite not_elem_of_cons in Hn. destruct Hn as [Hne Hn].
    rewrite in_map_iff. intros ([[c1 s1] g1] & [= <- <- <-] & H).
    cbn [group]. destruct (Ascii.eqb k n) eqn:E.
    + apply Ascii.eqb_eq in E. congruence.
    + by apply (IH1 Hn _ _ _ _ _ H).
Qed.

Lemma strptime_date_midnight s dt :
  strptime s "%Y-%m-%d" = Ok dt → hour dt = 0 ∧ minute dt = 0 ∧ second dt = 0.
Proof.
  unfold strptime, re_match. rewrite pattern_date.
  destruct (matches re_date s []) as [|[[c rest] g] tl] eqn:E; [done|].
  cbn [head]. destruct (negb _); [done|].
  destruct (_ && _); [|done]. intros [= <-]. cbn [hour minute second].
  assert (In (c, rest, g) (matches re_date s [])) as Hin
    by (rewrite E; by left).
  unfold field.
  rewrite (matches_groups_other re_date "H" ltac:(compute_done) _ _ _ _ _ Hin).
  rewrite (matches_groups_other re_date "M" ltac:(compute_done) _ _ _ _ _ Hin).
  rewrite (matches_groups_other re_date "S" ltac:(compute_done) _ _ _ _ _ Hin).
  done.
Qed.

(** X3: a string with fewer than two colons can only be read as a date:
    when it is accepted, the time of day is 00:00:00. *)
Theorem date_to_datetime_midnight s dt :
  (colons s < 2)%nat → date_to_datetime s = Ok dt →
  hour dt = 0 ∧ minute dt = 0 ∧ second dt = 0.
Proof.
  intros Hc. unfold date_to_datetime.
  rewrite strptime_seconds_colons.
  - apply strptime_date_midnight.
  - unfold drop_last4.
    pose proof (colons_substring (String.length s - 4) s). lia.
Qed.

Lemma date_to_datetime_midnight_witness :
  (colons "2021-3-4" < 2)%nat
  ∧ date_to_datetime "2021-3-4" = Ok (mkdatetime 2021 3 4 0 0 0)
  ∧ hour (mkdatetime 2021 3 4 0 0 0) = 0.
Proof.
  split; [cbn; lia|]. split; [reflexivity|].
  apply (date_to_datetime_midnight "2021-3-4" (mkdatetime 2021 3 4 0 0 0));
    [cbn; lia | reflexivity].
Defined.

Lemma leads_dec_m m rest g :
  1 ≤ m ≤ 12 →
  leads re_m (dec m +:+ String "-" rest) g (String "-" rest)
        (("m"%char, dec m) :: g).
Proof. intros H. leads_by_range m 1 12%nat. Qed.

Lemma leads_dec_d d g :
  1 ≤ d ≤ 31 → leads re_d (dec d) g "" (("d"%char, dec d) :: g).
Proof. intros H. leads_by_range d 1 31%nat. Qed.

Lemma py_int_dec n : 0 ≤ n < 100 → py_int (dec n) = n.
Proof.
  intros H. unfold dec. destruct (n <? 10) eqn:E; [|by apply py_int_pad2].
  apply Z.ltb_lt in E. unfold py_int. cbn [lstrip].
  rewrite is_space_digit_char by lia. cbn [int_digits].
  rewrite digit_val_digit_char by lia. lia.
Qed.

Lemma colons_dec n : 0 ≤ n < 100 → colons (dec n) = 0%nat.
Proof.
  intros H. unfold dec. destruct (n <? 10) eqn:E; [|by apply colons_pad2].
  apply Z.ltb_lt in E. cbn [colons]. by rewrite colon_digit_char by lia.
Qed.

(** X4: the month and the day may be written without a leading zero: a
    valid date written YYYY-M-D is parsed like YYYY-MM-DD. *)
Theorem date_to_datetime_unpadded y m d :
  valid_date y m d = true →
  date_to_datetime (pad4 y +:+ "-" +:+ dec m +:+ "-" +:+ dec d)
  = Ok (mkdatetime y m d 0 0 0).
Proof.
  intros Hv. destruct (valid_date_range _ _ _ Hv) as (Hy & Hm & Hd).
  set (s := pad4 y +:+ "-" +:+ dec m +:+ "-" +:+ dec d).
  assert (colons s = 0%nat) as Hc.
  { unfold s. rewrite !colons_append, colons_pad4, !colons_dec by lia. done. }
  unfold date_to_datetime. rewrite strptime_seconds_colons.
  2:{ unfold drop_last4.
      pose proof (colons_substring (String.length s - 4) s). lia. }
  unfold strptime. rewrite pattern_date.
  destruct (re_match_leads re_date s ""
              [("d"%char, dec d); ("m"%char, dec m); ("Y"%char, pad4 y)])
    as [c ->].
  { unfold s, re_date.
    eapply leads_cat; [apply leads_pad4; lia|]. rewrite append_cons.
    eapply leads_cat; [apply leads_lit|]. rewrite append_nil_l.
    eapply leads_cat; [by apply leads_dec_m|].
    eapply leads_cat; [apply leads_lit|].
    eapply leads_cat; [by apply leads_dec_d|]. apply leads_eps. }
  cbn [String.eqb negb]. unfold field. cbn [group Ascii.eqb Bool.eqb].
  rewrite py_int_pad4, !py_int_dec by lia. by rewrite Hv.
Qed.

Lemma date_to_datetime_unpadded_witness :
  valid_date 2021 11 5 = true
  ∧ date_to_datetime "2021-11-5" = Ok (mkdatetime 2021 11 5 0 0 0).
Proof.
  split; [reflexivity|].
  apply (date_to_datetime_unpadded 2021 11 5). reflexivity.
Defined.

Lemma length_iso_date y m d : String.length (iso_date y m d) = 10%nat.
Proof. reflexivity. Qed.

(** X5: the day key that [add_day] cuts out of a timestamp
    YYYY-MM-DD HH:MM:SS.mmm is its date YYYY-MM-DD, which [get_times] then
    parses to that day at 00:00:00. *)
Theorem day_key_of_timestamp y m d h mi s ms :
  valid_date y m d = true →
  String.substring 0 10 (iso_millis y m d h mi s ms) = iso_date y m d
  ∧ date_to_datetime (String.substring 0 10 (iso_millis y m d h mi s ms))
    = Ok (mkdatetime y m d 0 0 0).
Proof.
  intros Hv.
  assert (String.substring 0 10 (iso_millis y m d h mi s ms) = iso_date y m d)
    as ->.
  { unfold iso_millis, iso_seconds. rewrite !append_assoc.
    rewrite <- (length_iso_date y m d) at 1. apply substring_append. }
  split; [done|]. unfold date_to_datetime.
  rewrite first_attempt_date by done. by apply strptime_iso_date.
Qed.

Lemma day_key_of_timestamp_witness :
  valid_date 2021 3 4 = true
  ∧ String.substring 0 10 "2021-03-04 10:15:30.123" = "2021-03-04"
  ∧ date_to_datetime (String.substring 0 10 "2021-03-04 10:15:30.123")
    = Ok (mkdatetime 2021 3 4 0 0 0).
Proof.
  split; [reflexivity|].
  apply (day_key_of_timestamp 2021 3 4 10 15 30 123). reflexivity.
Defined.

(** ** More on the moving average *)

Lemma moving_average_nonpositive xs window :
  window ≤ 0 → moving_average xs window = Raise ValueError.
Proof.
  intros Hw. unfold moving_average, ones_over.
  destruct (window <? 0) eqn:E; [done|]. apply Z.ltb_ge in E.
  assert (window = 0) as -> by lia. rewrite bind_Ok. cbn.
  unfold convolve_same.
  replace (length xs <? length (@nil Qc))%nat with false
    by (symmetry; apply Nat.ltb_ge; cbn; lia).
  by destruct xs.
Qed.

Lemma moving_average_nil window : moving_average [] window = Raise ValueError.
Proof.
  unfold moving_average, ones_over.
  destruct (window <? 0) eqn:E; [done|]. rewrite bind_Ok.
  unfold convolve_same. destruct (Z.to_nat window) as [|n]; [done|].
  cbn [replicate length]. by replace (0 <? S n)%nat with true by done.
Qed.

(** X6: [moving_average] refuses a window that is zero or negative,
    whatever the data, and refuses empty data, whatever the window: both
    raise ValueError. *)
Theorem moving_average_refuses :
  (∀ xs window, window ≤ 0 → moving_average xs window = Raise ValueError)
  ∧ (∀ window, moving_average [] window = Raise ValueError).
Proof.
  split; [apply moving_average_nonpositive | apply moving_average_nil].
Qed.

Lemma moving_average_refuses_witness :
  -3 ≤ 0 ∧ moving_average [Qc_of_Z 1; Qc_of_Z 2] (-3) = Raise ValueError.
Proof.
  split; [lia|].
  apply (proj1 moving_average_refuses [Qc_of_Z 1; Qc_of_Z 2] (-3)). lia.
Defined.

(** X7: on non-empty data and a window of at least 1, [moving_average]
    returns as many values as the longer of the data and the window; so the
    length of the data is kept exactly when the window is no longer than
    the data. *)
Theorem moving_average_result_length xs window :
  xs ≠ [] → 1 ≤ window →
  ∃ out, moving_average xs window = Ok out
         ∧ length out = (length xs `max` Z.to_nat window)%nat
         ∧ (length out = length xs ↔ window ≤ Z.of_nat (length xs)).
Proof.
  intros Hxs Hw.
  destruct (moving_average_length xs window Hxs Hw) as (out & E & Hlen).
  exists out. split; [done|]. split; [done|]. rewrite Hlen. lia.
Qed.

Lemma moving_average_result_length_witness :
  [Qc_of_Z 1; Qc_of_Z 2; Qc_of_Z 3] ≠ [] ∧ 1 ≤ 2
  ∧ ∃ out, moving_average [Qc_of_Z 1; Qc_of_Z 2; Qc_of_Z 3] 2 = Ok out
           ∧ length out = 3%nat.
Proof.
  split; [discriminate|]. split; [lia|].
  destruct (moving_average_result_length [Qc_of_Z 1; Qc_of_Z 2; Qc_of_Z 3] 2)
    as (out & E & Hlen & _); [discriminate | lia |].
  exists out. split; [exact E | exact Hlen].
Defined.

Lemma dot_take (xs ys ks : list Qc) (n : nat) :
  take n xs = take n ys → dot xs ks n = dot ys ks n.
Proof. intros H. unfold dot. by rewrite H. Qed.

Lemma correlate_same_lookup (xs k : list Qc) (i : nat) :
  (1 ≤ length k ≤ length xs)%nat → (i < length xs)%nat →
  correlate_same xs k !! i
  = Some (if decide (i < length k / 2)%nat
          then dot xs (drop (length k / 2 - i) k)
                   (length k - length k / 2 + i)
          else if decide (i - length k / 2 < length xs - length k + 1)%nat
          then dot (drop (i - length k / 2) xs) k (length k)
          else dot (drop (i - length k / 2) xs) k
                   (length xs - (i - length k / 2))).
Proof.
  intros Hw Hi. unfold correlate_same.
  set (w := length k) in *.
  assert (w / 2 < w)%nat as Hnl by (apply Nat.div_lt; lia).
  generalize dependent (w / 2)%nat. intros nl Hnl.
  destruct (decide (i < nl)%nat) as [H1|H1].
  - rewrite lookup_app_l by (by rewrite length_fmap, length_seq).
    by rewrite list_lookup_fmap, lookup_seq_lt by done.
  - rewrite lookup_app_r by (rewrite length_fmap, length_seq; lia).
    rewrite length_fmap, length_seq.
    destruct (decide (i - nl < length xs - w + 1)%nat) as [H2|H2].
    + rewrite lookup_app_l by (by rewrite length_fmap, length_seq).
      by rewrite list_lookup_fmap, lookup_seq_lt by done.
    + rewrite lookup_app_r by (rewrite length_fmap, length_seq; lia).
      rewrite length_fmap, length_seq.
      rewrite list_lookup_fmap, lookup_seq_lt by lia. cbn.
      replace (length xs - w + 1 + (i - nl - (length xs - w + 1)))%nat
        with (i - nl)%nat by lia.
      by replace (w - 1 - (i - nl - (length xs - w + 1)))%nat
        with (length xs - (i - nl))%nat by lia.
Qed.

(** Entry [i] of the correlation is computed from the entries of the data
    under the window centred on [i], and from no other. *)
Lemma correlate_same_local (xs ys k : list Qc) (i : nat) :
  length xs = length ys →
  (1 ≤ length k ≤ length xs)%nat → (i < length xs)%nat →
  window_at xs (length k) i = window_at ys (length k) i →
  correlate_same xs k !! i = correlate_same ys k !! i
  ∧ is_Some (correlate_same xs k !! i).
Proof.
  intros Hlen Hw Hi. unfold window_at.
  rewrite !correlate_same_lookup by lia. rewrite <- Hlen.
  set (w := length k) in *.
  assert (w / 2 < w)%nat as Hnl by (apply Nat.div_lt; lia).
  generalize dependent (w / 2)%nat. intros nl Hnl Hwin.
  split; [|done]. f_equal.
  destruct (decide (i < nl)%nat) as [H1|H1].
  - apply dot_take.
    replace (i - nl)%nat with 0%nat in Hwin by lia. rewrite !drop_0 in Hwin.
    by replace (w - nl + i)%nat with (i + (w - nl) - 0)%nat by lia.
  - replace (i + (w - nl) - (i - nl))%nat with w in Hwin by lia.
    destruct (decide (i - nl < length xs - w + 1)%nat) as [H2|H2].
    + by apply dot_take.
    + apply dot_take. transitivity (take w (drop (i - nl) xs)).
      * rewrite !take_ge; [done|rewrite length_drop; lia..].
      * rewrite Hwin. rewrite !take_ge; [done|rewrite length_drop; lia..].
Qed.

Lemma window_at_fmap (f : Qc → Qc) xs w i :
  window_at (f <$> xs) w i = f <$> window_at xs w i.
Proof. unfold window_at. by rewrite fmap_take, fmap_drop. Qed.

(** X8: when the window is no longer than the data, entry [i] of the moving
    average is computed from the entries of the data under the window
    centred on [i], from [i - window/2] on, [window] entries less those that
    fall before the first or after the last, and from no other: two data
    sets of the same length that agree under that window have the same
    entry [i]. *)
Theorem moving_average_local xs ys window i :
  length xs = length ys →
  1 ≤ window ≤ Z.of_nat (length xs) → (i < length xs)%nat →
  window_at xs (Z.to_nat window) i = window_at ys (Z.to_nat window) i →
  ∃ out1 out2, moving_average xs window = Ok out1
               ∧ moving_average ys window = Ok out2
               ∧ is_Some (out1 !! i) ∧ out1 !! i = out2 !! i.
Proof.
  intros Hlen Hw Hi Hwin. rewrite !moving_average_unfold by lia.
  set (k := replicate (Z.to_nat window) (fdiv 1%Qc (fl (Qc_of_Z window)))).
  assert (length k = Z.to_nat window) as Hk by apply length_replicate.
  assert (k ≠ []) as Hkne by (intros E; rewrite E in Hk; cbn in Hk; lia).
  assert (xs ≠ []) as Hxs by (intros ->; cbn in Hi; lia).
  assert (ys ≠ []) as Hys by (intros ->; destruct xs; cbn in *; done).
  assert (∀ zs : list Qc, length zs = length xs →
            convolve_same (fl <$> zs) k = Ok (correlate_same (fl <$> zs) (rev k)))
    as Hconv.
  { intros zs Hzs. rewrite convolve_same_Ok; [|by destruct zs, xs|done].
    rewrite length_fmap, Hzs.
    by replace (length xs <? length k)%nat with false
      by (symmetry; apply Nat.ltb_ge; lia). }
  rewrite (Hconv xs), (Hconv ys) by done.
  destruct (correlate_same_local (fl <$> xs) (fl <$> ys) (rev k) i)
    as [E S].
  - by rewrite !length_fmap.
  - rewrite length_rev, length_fmap. lia.
  - by rewrite length_fmap.
  - by rewrite length_rev, Hk, !window_at_fmap, Hwin.
  - eexists _, _. split; [done|]. split; [done|]. split; [exact S|exact E].
Qed.

Lemma moving_average_local_witness :
  length [Qc_of_Z 4; Qc_of_Z 8; Qc_of_Z 6; Qc_of_Z 2]
  = length [Qc_of_Z 4; Qc_of_Z 8; Qc_of_Z 7; Qc_of_Z 5]
  ∧ 1 ≤ 3 ≤ Z.of_nat (length [Qc_of_Z 4; Qc_of_Z 8; Qc_of_Z 6; Qc_of_Z 2])
  ∧ (0 < length [Qc_of_Z 4; Qc_of_Z 8; Qc_of_Z 6; Qc_of_Z 2])%nat
  ∧ window_at [Qc_of_Z 4; Qc_of_Z 8; Qc_of_Z 6; Qc_of_Z 2] (Z.to_nat 3) 0
    = window_at [Qc_of_Z 4; Qc_of_Z 8; Qc_of_Z 7; Qc_of_Z 5] (Z.to_nat 3) 0
  ∧ ∃ out1 out2,
      moving_average [Qc_of_Z 4; Qc_of_Z 8; Qc_of_Z 6; Qc_of_Z 2] 3 = Ok out1
      ∧ moving_average [Qc_of_Z 4; Qc_of_Z 8; Qc_of_Z 7; Qc_of_Z 5] 3 = Ok out2
      ∧ is_Some (out1 !! 0%nat) ∧ out1 !! 0%nat = out2 !! 0%nat.
Proof.
  split; [reflexivity|]. split; [cbn; lia|]. split; [cbn; lia|].
  split; [reflexivity|].
  apply (moving_average_local [Qc_of_Z 4; Qc_of_Z 8; Qc_of_Z 6; Qc_of_Z 2]
           [Qc_of_Z 4; Qc_of_Z 8; Qc_of_Z 7; Qc_of_Z 5] 3 0);
    [reflexivity | cbn; lia | cbn; lia | reflexivity].
Defined.

(** ** Smoothing and the range of the values *)

Lemma Qcinv_nonneg (b : Qc) : (0 ≤ b)%Qc → (0 ≤ / b)%Qc.
Proof.
  intros Hb. destruct (decide (b = 0%Qc)) as [->|Hne]; [done|].
  apply Qclt_le_weak, Qcinv_pos. apply Qcle_lt_or_eq in Hb as [H|H]; [done|].
  by destruct Hne.
Qed.

Lemma fadd_nonneg a b : (0 ≤ a)%Qc → (0 ≤ b)%Qc → (0 ≤ fadd a b)%Qc.
Proof.
  intros Ha Hb. apply fl_nonneg.
  rewrite <- (Qcplus_0_l 0). by apply Qcplus_le_compat.
Qed.

Lemma fmul_nonneg a b : (0 ≤ a)%Qc → (0 ≤ b)%Qc → (0 ≤ fmul a b)%Qc.
Proof. intros Ha Hb. apply fl_nonneg. by apply Qcmult_nonneg_nonneg. Qed.

Lemma fdiv_nonneg a b : (0 ≤ a)%Qc → (0 ≤ b)%Qc → (0 ≤ fdiv a b)%Qc.
Proof.
  intros Ha Hb. apply fl_nonneg. unfold Qcdiv.
  apply Qcmult_nonneg_nonneg; [done|]. by apply Qcinv_nonneg.
Qed.

Lemma dot_nonneg (xs ys : list Qc) (n : nat) :
  Forall (Qcle 0) xs → Forall (Qcle 0) ys → (0 ≤ dot xs ys n)%Qc.
Proof.
  intros Hxs Hys. unfold dot.
  assert (Forall (λ p, (0 ≤ p.1)%Qc ∧ (0 ≤ p.2)%Qc)
            (zip (take n xs) (take n ys))) as Hz.
  { apply list.Forall_forall. intros [a b] Hab.
    apply elem_of_zip_l in Hab as Ha. apply elem_of_zip_r in Hab as Hb.
    cbn. split.
    - eapply (proj1 (list.Forall_forall _ _)); [|exact Ha].
      by apply Forall_take.
    - eapply (proj1 (list.Forall_forall _ _)); [|exact Hb].
      by apply Forall_take. }
  assert (∀ s, (0 ≤ s)%Qc →
            (0 ≤ foldl (λ sum p, fadd sum (fmul p.1 p.2)) s
                   (zip (take n xs) (take n ys)))%Qc) as Hfold.
  { induction Hz as [|[a b] l [Ha Hb] _ IH]; intros s Hs; [exact Hs|].
    cbn [foldl]. apply IH. apply fadd_nonneg; [done|]. by apply fmul_nonneg. }
  by apply Hfold.
Qed.

Lemma correlate_same_nonneg (a w : list Qc) :
  Forall (Qcle 0) a → Forall (Qcle 0) w → Forall (Qcle 0) (correlate_same a w).
Proof.
  intros Ha Hw. unfold correlate_same.
  repeat apply Forall_app_2; apply Forall_fmap, Forall_true; intros i; cbn;
    apply dot_nonneg; try done; by apply Forall_drop.
Qed.

Lemma moving_average_Forall_nonneg xs window out :
  Forall (Qcle 0) xs → moving_average xs window = Ok out →
  Forall (Qcle 0) out.
Proof.
  intros Hxs. destruct (decide (1 ≤ window)) as [Hw|Hw].
  2:{ rewrite moving_average_nonpositive by lia. done. }
  destruct (decide (xs = [])) as [->|Hne].
  { by rewrite moving_average_nil. }
  rewrite moving_average_unfold by lia.
  rewrite convolve_same_Ok;
    [|by destruct xs|destruct (Z.to_nat window) eqn:En; [lia|done]].
  assert (Forall (Qcle 0) (fl <$> xs)) as Hfl.
  { apply Forall_fmap. revert Hxs. apply List.Forall_impl.
    intros x. apply fl_nonneg. }
  assert (Forall (Qcle 0)
            (replicate (Z.to_nat window) (fdiv 1%Qc (fl (Qc_of_Z window)))))
    as Hk.
  { apply Forall_replicate. apply fdiv_nonneg; [done|]. apply fl_nonneg.
    rewrite <- Z2Qc_inj_0. apply (proj1 (Z2Qc_inj_le 0 window)). lia. }
  intros [= <-]. case_match; apply correlate_same_nonneg;
    try done; by apply Forall_rev.
Qed.

(** float64 rounds each operation: the moving average of nine ones under a
    window of nine has 1.0000000000000002 in the middle, which is
    [1 + 2^-52]. *)
Example moving_average_above_one :
  ∃ out, moving_average (replicate 9 1%Qc) 9 = Ok out
         ∧ out !! 4%nat = Some (Qc_of_Z (2 ^ 52 + 1) / Qc_of_Z (2 ^ 52))%Qc.
Proof.
  eexists. split; [vm_compute; reflexivity|].
  cbn [lookup list_lookup]. f_equal; by apply Qc_is_canon.
Qed.

(** X9: smoothing keeps the sign: when no entry of the data is negative, no
    entry that [moving_average] returns is negative, whatever the window.
    (The bound 1 of rates is not kept: see [moving_average_above_one].) *)
Theorem moving_average_nonneg xs window out :
  Forall (Qcle 0) xs → moving_average xs window = Ok out →
  Forall (Qcle 0) out.
Proof.
  intros Hxs E. eapply moving_average_Forall_nonneg; [exact Hxs|exact E].
Qed.

Lemma moving_average_nonneg_witness :
  Forall (Qcle 0) [(1 / Qc_of_Z 2)%Qc; 1%Qc; 0%Qc]
  ∧ ∃ out, moving_average [(1 / Qc_of_Z 2)%Qc; 1%Qc; 0%Qc] 2 = Ok out
           ∧ Forall (Qcle 0) out.
Proof.
  assert (Forall (Qcle 0) [(1 / Qc_of_Z 2)%Qc; 1%Qc; 0%Qc]) as H
    by (repeat constructor; done).
  split; [exact H|]. eexists. split; [vm_compute; reflexivity|].
  apply (moving_average_nonneg [(1 / Qc_of_Z 2)%Qc; 1%Qc; 0%Qc] 2 _ H).
  vm_compute. reflexivity.
Defined.

(** ** More on the binarizer and on the day column *)

Lemma Z_sum_binarise xs v :
  Z_sum (binarise xs v) = Z.of_nat (length (filter (λ x, x = v) xs)).
Proof.
  induction xs as [|x xs IH]; [done|].
  change (Z_sum (binarise (x :: xs) v))
    with (int_of_bool (py_eq x v) + Z_sum (binarise xs v)).
  rewrite IH, filter_cons. unfold py_eq, int_of_bool.
  destruct (decide (x = v)).
  - rewrite bool_decide_true by done. rewrite length_cons. lia.
  - rewrite bool_decide_false by done. lia.
Qed.

(** X10: the indicators of [binarise] add up to the number of entries equal
    to the target, so that their mean is the share of these entries, as a
    float64 number. *)
Theorem binarise_counts xs v :
  Z_sum (binarise xs v) = Z.of_nat (length (filter (λ x, x = v) xs))
  ∧ mean (binarise xs v)
    = fl (Qc_of_Z (Z.of_nat (length (filter (λ x, x = v) xs)))
          / Qc_of_Z (Z.of_nat (length xs)))%Qc.
Proof.
  split; [apply Z_sum_binarise|].
  unfold mean. by rewrite Z_sum_binarise, length_binarise.
Qed.

(** X11: calling [binarise_df] for two different targets, neither of them
    the name of the source column, gives in either order the table it was
    given, with the same number of rows and, under every name, the same
    column: both indicator columns are there and the source column is as
    it was.  (Where the two new columns stand in the table is not
    modelled.) *)
Theorem binarise_df_commute h l df a b column src :
  h !! l = Some df → wf_frame df → cols df !! column = Some src →
  a ≠ b → a ≠ column → b ≠ column →
  ∃ df1 df2,
    (binarise_df h l a column ≫= λ '(h1, l1), binarise_df h1 l1 b column)
    = Ok (<[l := df1]> h, l)
    ∧ (binarise_df h l b column ≫= λ '(h1, l1), binarise_df h1 l1 a column)
      = Ok (<[l := df2]> h, l)
    ∧ nrows df1 = nrows df2
    ∧ (∀ c, cols df1 !! c = cols df2 !! c)
    ∧ cols df1 !! a = Some (IntCol (binarise (col_values src) (VStr a)))
    ∧ cols df1 !! b = Some (IntCol (binarise (col_values src) (VStr b)))
    ∧ cols df1 !! column = Some src.
Proof.
  intros Hl Hwf Hsrc Hab Ha Hb.
  pose proof (Hwf _ _ Hsrc) as Hlen. cbn in Hlen.
  set (ca := IntCol (binarise (col_values src) (VStr a))).
  set (cb := IntCol (binarise (col_values src) (VStr b))).
  exists (mkDataFrame (nrows df) (<[b := cb]> (<[a := ca]> (cols df)))),
    (mkDataFrame (nrows df) (<[a := ca]> (<[b := cb]> (cols df)))).
  split; [|split; [|split; [|split; [|split; [|split]]]]].
  - rewrite (binarise_df_effect h l df a column src) by done.
    rewrite bind_Ok. cbn beta iota. fold ca.
    rewrite (binarise_df_effect _ l (mkDataFrame (nrows df) (<[a:=ca]> (cols df)))
               b column src);
      [|apply lookup_insert_eq|by cbn; rewrite lookup_insert_ne|done].
    cbn [nrows cols]. fold cb. by rewrite insert_insert_eq.
  - rewrite (binarise_df_effect h l df b column src) by done.
    rewrite bind_Ok. cbn beta iota. fold cb.
    rewrite (binarise_df_effect _ l (mkDataFrame (nrows df) (<[b:=cb]> (cols df)))
               a column src);
      [|apply lookup_insert_eq|by cbn; rewrite lookup_insert_ne|done].
    cbn [nrows cols]. fold ca. by rewrite insert_insert_eq.
  - done.
  - intros c. cbn [cols].
    destruct (decide (c = a)) as [->|Hca].
    { by rewrite lookup_insert_ne, !lookup_insert_eq by done. }
    destruct (decide (c = b)) as [->|Hcb].
    { by rewrite lookup_insert_eq, lookup_insert_ne, lookup_insert_eq by done. }
    by rewrite !lookup_insert_ne by done.
  - cbn [cols]. by rewrite lookup_insert_ne, lookup_insert_eq by done.
  - cbn [cols]. by rewrite lookup_insert_eq.
  - cbn [cols]. by rewrite !lookup_insert_ne by done.
Qed.

Lemma binarise_df_commute_witness :
  ∃ df1 df2,
    (binarise_df example_store 1%positive "Opened" "status"
     ≫= λ '(h1, l1), binarise_df h1 l1 "Error" "status")
    = Ok (<[1%positive := df1]> example_store, 1%positive)
    ∧ (binarise_df example_store 1%positive "Error" "status"
       ≫= λ '(h1, l1), binarise_df h1 l1 "Opened" "status")
      = Ok (<[1%positive := df2]> example_store, 1%positive)
    ∧ (∀ c, cols df1 !! c = cols df2 !! c)
    ∧ cols df1 !! "Opened" = Some (IntCol [1; 1; 0; 0])
    ∧ cols df1 !! "Error" = Some (IntCol [0; 0; 1; 0]).
Proof.
  destruct (binarise_df_commute example_store 1%positive example_table
              "Opened" "Error" "status"
              (StrCol ["Opened"; "Opened"; "Error"; "Clicked"]))
    as (df1 & df2 & E1 & E2 & _ & Hc & Ha & Hb & _);
    [reflexivity | exact wf_frame_example | reflexivity
    | discriminate | discriminate | discriminate |].
  exists df1, df2. split; [exact E1|]. split; [exact E2|].
  split; [exact Hc|]. split; [exact Ha | exact Hb].
Defined.

Lemma binarise_ints (l : list Z) (b : string) :
  binarise (VInt <$> l) (VStr b) = replicate (length l) 0.
Proof. induction l as [|x l IH]; [done|]. cbn. by rewrite <- IH. Qed.

(** X12: when the target is the name of the source column itself,
    [binarise_df] replaces the statuses by their indicators, and the
    statuses are lost: a later call on that column, for any target, finds
    integers only and gives a column of zeros. *)
Theorem binarise_df_clobbers_source h l df column ss b :
  h !! l = Some df → wf_frame df → cols df !! column = Some (StrCol ss) →
  ∃ df',
    (binarise_df h l column column ≫= λ '(h1, l1), binarise_df h1 l1 b column)
    = Ok (<[l := df']> h, l)
    ∧ cols df' !! b = Some (IntCol (replicate (length ss) 0)).
Proof.
  intros Hl Hwf Hsrc. pose proof (Hwf _ _ Hsrc) as Hlen. cbn in Hlen.
  set (bins := binarise (col_values (StrCol ss)) (VStr column)).
  set (df1 := mkDataFrame (nrows df) (<[column := IntCol bins]> (cols df))).
  assert (length bins = length ss) as Hbins
    by (unfold bins; by rewrite length_binarise, col_values_length).
  eexists. split.
  - rewrite (binarise_df_effect h l df column column (StrCol ss)) by done.
    rewrite bind_Ok. cbn beta iota. fold bins df1.
    rewrite (binarise_df_effect _ l df1 b column (IntCol bins));
      [|apply lookup_insert_eq|apply lookup_insert_eq
       |cbn [col_length]; by rewrite Hbins].
    by rewrite insert_insert_eq.
  - cbn [cols col_values]. rewrite lookup_insert_eq, binarise_ints.
    by rewrite Hbins.
Qed.

Lemma binarise_df_clobbers_source_witness :
  ∃ df',
    (binarise_df example_store 1%positive "status" "status"
     ≫= λ '(h1, l1), binarise_df h1 l1 "Opened" "status")
    = Ok (<[1%positive := df']> example_store, 1%positive)
    ∧ cols df' !! "Opened" = Some (IntCol [0; 0; 0; 0]).
Proof.
  apply (binarise_df_clobbers_source example_store 1%positive example_table
           "status" ["Opened"; "Opened"; "Error"; "Clicked"] "Opened");
    [reflexivity | exact wf_frame_example | reflexivity].
Defined.

Lemma wf_frame_insert df c col :
  wf_frame df → col_length col = nrows df →
  wf_frame (mkDataFrame (nrows df) (<[c := col]> (cols df))).
Proof.
  intros Hwf Hlen. unfold wf_frame. cbn [cols nrows].
  by apply map_Forall_insert_2.
Qed.

(** X13: on a table whose date column holds strings, [add_day] works in
    place and returns the table it was given: the day column holds the
    first ten characters of each date (the whole date when it is shorter),
    the other columns and the number of rows are as before, the table is
    still well formed, and a second call changes nothing. *)
Theorem add_day_spec h l df ds :
  h !! l = Some df → wf_frame df → cols df !! "date" = Some (StrCol ds) →
  ∃ df',
    add_day h l = Ok (<[l := df']> h, l)
    ∧ nrows df' = nrows df
    ∧ cols df' !! "day" = Some (StrCol (String.substring 0 10 <$> ds))
    ∧ (∀ c, c ≠ "day" → cols df' !! c = cols df !! c)
    ∧ wf_frame df'
    ∧ add_day (<[l := df']> h) l = Ok (<[l := df']> h, l).
Proof.
  intros Hl Hwf Hdate. pose proof (Hwf _ _ Hdate) as Hlen. cbn in Hlen.
  set (df' := mkDataFrame (nrows df)
                (<["day" := StrCol (String.substring 0 10 <$> ds)]> (cols df))).
  exists df'. split; [by apply add_day_effect|]. split; [done|].
  split; [apply lookup_insert_eq|].
  split; [intros c Hc; by apply lookup_insert_ne|].
  split; [apply wf_frame_insert; [done|cbn; by rewrite length_fmap]|].
  rewrite (add_day_effect _ l df' ds);
    [|apply lookup_insert_eq|by cbn; rewrite lookup_insert_ne|done].
  unfold df'. cbn [nrows cols]. by rewrite !insert_insert_eq.
Qed.

Lemma add_day_spec_witness :
  ∃ df',
    add_day example_store 1%positive = Ok (<[1%positive := df']> example_store, 1%positive)
    ∧ cols df' !! "day"
      = Some (StrCol ["2021-01-01"; "2021-01-01"; "2021-01-01"; "2021-01-01"]).
Proof.
  destruct (add_day_spec example_store 1%positive example_table
              ["2021-01-01"; "2021-01-01"; "2021-01-01"; "2021-01-01"])
    as (df' & E & _ & Hd & _);
    [reflexivity | exact wf_frame_example | reflexivity |].
  exists df'. split; [exact E | exact Hd].
Defined.

(** ** [get_interactions] and [get_times] as a whole *)

Lemma size_list_to_set_pos (l : list string) :
  l ≠ [] → (1 ≤ size (list_to_set l : gset string))%nat.
Proof.
  intros Hl. destruct l as [|x l]; [done|].
  assert (size (list_to_set (x :: l) : gset string) ≠ 0%nat); [|lia].
  apply size_non_empty_iff. cbn. set_solver.
Qed.

(** X14: on a well-formed, non-empty table with a string date column and a
    status column, for an interaction type other than "day" and a window of
    at least 1, [get_interactions] returns the smoothed daily rates: as
    many values as the larger of the number of distinct days and the
    window, none of them negative.  The caller's table gains the day column
    and nothing else: the indicator column is added to a sorted copy. *)
Theorem get_interactions_spec h l df ds ss t window :
  h !! l = Some df → wf_frame df →
  cols df !! "date" = Some (StrCol ds) → cols df !! "status" = Some ss →
  t ≠ "day" → ds ≠ [] → 1 ≤ window →
  ∃ h' out,
    get_interactions h l t window = Ok (h', out)
    ∧ length out
      = (size (list_to_set (String.substring 0 10 <$> ds) : gset string)
         `max` Z.to_nat window)%nat
    ∧ Forall (Qcle 0) out
    ∧ h' !! l
      = Some (mkDataFrame (nrows df)
                (<["day" := StrCol (String.substring 0 10 <$> ds)]> (cols df))).
Proof.
  intros Hl Hwf Hdate Hstatus Ht Hds Hw.
  destruct (daily_series_spec h l df ds ss t)
    as (h' & agg & E & _ & Hl' & _ & _ & Hlen & _ & Hv); [done..|].
  assert (agg.*2 ≠ []) as Hne.
  { intros Hnil. apply (f_equal length) in Hnil. rewrite length_fmap, Hlen in Hnil.
    pose proof (size_list_to_set_pos (String.substring 0 10 <$> ds)) as Hp.
    cbn in Hnil. destruct ds; [done|]. specialize (Hp ltac:(done)). lia. }
  destruct (moving_average_length agg.*2 window Hne Hw) as (out & Eo & Hout).
  exists h', out. unfold get_interactions. rewrite E, bind_Ok. cbn beta iota.
  rewrite Eo, bind_Ok. split; [done|].
  split; [by rewrite Hout, length_fmap, Hlen|]. split; [|done].
  apply (moving_average_Forall_nonneg agg.*2 window); [|done].
  apply Forall_fmap. revert Hv. apply List.Forall_impl. by intros p [H0 _].
Qed.

Lemma get_interactions_spec_witness :
  ∃ h' out,
    get_interactions example_store 1%positive "Opened" 3 = Ok (h', out)
    ∧ length out = 3%nat.
Proof.
  destruct (get_interactions_spec example_store 1%positive example_table
              ["2021-01-01"; "2021-01-01"; "2021-01-01"; "2021-01-01"]
              (StrCol ["Opened"; "Opened"; "Error"; "Clicked"]) "Opened" 3)
    as (h' & out & E & Hlen & _);
    [reflexivity | exact wf_frame_example | reflexivity | reflexivity
    | discriminate | discriminate | lia |].
  exists h', out. split; [exact E|]. rewrite Hlen. reflexivity.
Defined.

Lemma bind_Raise {A B} (k : A → result B) (e : exn) : (Raise e ≫= k) = Raise e.
Proof. reflexivity. Qed.

(** X15: how [get_interactions] fails.  Without a date column, or without a
    status column, it raises KeyError; on a date column of integers,
    AttributeError; and, for an interaction type other than "day", on a
    table without rows, or with a window that is zero or negative,
    ValueError, from [np.convolve]. *)
Theorem get_interactions_errors h l df t window :
  h !! l = Some df →
  (cols df !! "date" = None →
   get_interactions h l t window = Raise KeyError)
  ∧ (∀ zs, cols df !! "date" = Some (IntCol zs) →
     get_interactions h l t window = Raise AttributeError)
  ∧ (∀ ds, wf_frame df → cols df !! "date" = Some (StrCol ds) →
     cols df !! "status" = None →
     get_interactions h l t window = Raise KeyError)
  ∧ (∀ ds ss, wf_frame df → cols df !! "date" = Some (StrCol ds) →
     cols df !! "status" = Some ss → t ≠ "day" →
     ds = [] ∨ window ≤ 0 →
     get_interactions h l t window = Raise ValueError).
Proof.
  intros Hl. split; [|split; [|split]].
  - intros Hd. unfold get_interactions, daily_series, add_day, load, getitem.
    by rewrite Hl, bind_Ok, Hd.
  - intros zs Hd. unfold get_interactions, daily_series, add_day, load, getitem.
    by rewrite Hl, bind_Ok, Hd.
  - intros ds Hwf Hd Hs. unfold get_interactions, daily_series.
    rewrite (add_day_effect h l df ds); [|done..|exact (Hwf _ _ Hd)].
    rewrite bind_Ok. cbn beta iota.
    erewrite sort_values_str; [|apply lookup_insert_eq|apply lookup_insert_eq].
    rewrite bind_Ok. cbn beta iota.
    unfold binarise_df, load. rewrite lookup_insert_eq, bind_Ok.
    unfold getitem. cbn [cols]. rewrite lookup_fmap, lookup_insert_ne by done.
    by rewrite Hs.
  - intros ds ss Hwf Hd Hs Ht Hcase.
    destruct (daily_series_spec h l df ds ss t)
      as (h' & agg & E & _ & _ & _ & _ & Hlen & _); [done..|].
    unfold get_interactions. rewrite E, bind_Ok. cbn beta iota.
    destruct Hcase as [->|Hw].
    + destruct agg; [|done]. cbn [fmap list_fmap].
      by rewrite moving_average_nil.
    + by rewrite moving_average_nonpositive.
Qed.

Lemma get_interactions_errors_witness :
  example_store !! 1%positive = Some example_table
  ∧ get_interactions example_store 1%positive "Opened" 0 = Raise ValueError.
Proof.
  split; [reflexivity|].
  destruct (get_interactions_errors example_store 1%positive example_table
              "Opened" 0) as (_ & _ & _ & H); [reflexivity|].
  apply (H ["2021-01-01"; "2021-01-01"; "2021-01-01"; "2021-01-01"]
           (StrCol ["Opened"; "Opened"; "Error"; "Clicked"]));
    [exact wf_frame_example | reflexivity | reflexivity | discriminate
    | right; lia].
Defined.

Lemma traverse_all_Ok {A B} (f : A → result B) (l : list A) :
  Forall (λ x, ∃ y, f x = Ok y) l →
  ∃ ys, traverse f l = Ok ys ∧ length ys = length l.
Proof.
  induction 1 as [|x l [y Hy] _ (ys & IH & Hlen)]; [by exists []|].
  exists (y :: ys). cbn [traverse]. rewrite Hy, bind_Ok, IH, bind_Ok.
  split; [done|]. cbn. by rewrite Hlen.
Qed.

Lemma traverse_some_Raise {A B} (f : A → result B) (l : list A) (e0 : exn) :
  (∀ x e, f x = Raise e → e = e0) →
  Exists (λ x, ∃ e, f x = Raise e) l → traverse f l = Raise e0.
Proof.
  intros Hf. induction 1 as [x l [e He]|x l _ IH]; cbn [traverse].
  - rewrite He. by rewrite (Hf x e He).
  - destruct (f x) as [y|e] eqn:E.
    + by rewrite bind_Ok, IH.
    + by rewrite (Hf x e E).
Qed.

(** [get_times] on a table with a string date column: the day keys, as a
    set, are parsed and the numbers sorted. *)
Lemma get_times_eval h l df ds :
  h !! l = Some df → wf_frame df → cols df !! "date" = Some (StrCol ds) →
  ∃ h',
    h' !! l = Some (mkDataFrame (nrows df)
                      (<["day" := StrCol (String.substring 0 10 <$> ds)]> (cols df)))
    ∧ get_times h l
      = (traverse date_to_datetime
           (elements (list_to_set (String.substring 0 10 <$> ds) : gset string))
         ≫= λ dts, Ok (h', merge_sort Qcle (map date2num dts))).
Proof.
  intros Hl Hwf Hdate. pose proof (Hwf _ _ Hdate) as Hlen. cbn in Hlen.
  set (days := String.substring 0 10 <$> ds).
  set (df1 := mkDataFrame (nrows df) (<["day" := StrCol days]> (cols df))).
  set (h1 := <[l := df1]> h).
  set (idx := argsort String.le days).
  set (l' := fresh (dom h1)).
  assert (l' ≠ l) as Hl'.
  { intros E. apply (is_fresh (dom h1)). fold l'. rewrite E.
    apply elem_of_dom. unfold h1. rewrite lookup_insert_eq. by eexists. }
  set (df2 := mkDataFrame (nrows df) (col_take_rows idx <$> cols df1)).
  exists (<[l' := df2]> h1). split.
  { rewrite lookup_insert_ne by done. apply lookup_insert_eq. }
  unfold get_times. rewrite (add_day_effect h l df ds) by done.
  rewrite bind_Ok. cbn beta iota. fold days df1 h1.
  rewrite (sort_values_str h1 l df1 "day" days);
    [|apply lookup_insert_eq|apply lookup_insert_eq].
  rewrite bind_Ok. cbn beta iota. change (nrows df1) with (nrows df).
  fold idx l' df2. unfold load. rewrite lookup_insert_eq, bind_Ok.
  unfold getitem. cbn [cols df2 df1].
  rewrite lookup_fmap, lookup_insert_eq. cbn [fmap option_fmap option_map].
  rewrite bind_Ok. cbn [col_take_rows].
  assert ((list_to_set (take_rows idx days) : gset string) = list_to_set days)
    as ->; [|done].
  apply set_eq. intros k. rewrite !elem_of_list_to_set.
  rewrite take_rows_Permutation; [done|]. apply argsort_Permutation.
Qed.

(** X16: when every day key of the table parses, [get_times] returns the
    time axis: one number per distinct day key, in ascending order.  On a
    table without rows this is the empty axis; the table given gains its
    day column. *)
Theorem get_times_spec h l df ds :
  h !! l = Some df → wf_frame df → cols df !! "date" = Some (StrCol ds) →
  Forall (λ d, ∃ dt, date_to_datetime (String.substring 0 10 d) = Ok dt) ds →
  ∃ h' times,
    get_times h l = Ok (h', times)
    ∧ length times
      = size (list_to_set (String.substring 0 10 <$> ds) : gset string)
    ∧ Sorted Qcle times
    ∧ h' !! l
      = Some (mkDataFrame (nrows df)
                (<["day" := StrCol (String.substring 0 10 <$> ds)]> (cols df))).
Proof.
  intros Hl Hwf Hdate Hparse.
  destruct (get_times_eval h l df ds) as (h' & Hl' & E); [done..|].
  set (S := list_to_set (String.substring 0 10 <$> ds) : gset string) in *.
  destruct (traverse_all_Ok date_to_datetime (elements S)) as (dts & Et & Hlen).
  { apply list.Forall_forall. intros k Hk.
    apply elem_of_elements, elem_of_list_to_set, list_elem_of_fmap in Hk
      as (d & -> & Hd).
    by apply (proj1 (list.Forall_forall _ _) Hparse). }
  exists h', (merge_sort Qcle (map date2num dts)).
  rewrite E, Et, bind_Ok. split; [done|]. split; [|split; [|done]].
  - rewrite (Permutation_length (merge_sort_Permutation _ _)).
    by rewrite length_map, Hlen.
  - apply (Sorted_merge_sort Qcle).
Qed.

Lemma get_times_spec_witness :
  ∃ h' times, get_times example_store 1%positive = Ok (h', times)
              ∧ Sorted Qcle times.
Proof.
  destruct (get_times_spec example_store 1%positive example_table
              ["2021-01-01"; "2021-01-01"; "2021-01-01"; "2021-01-01"])
    as (h' & times & E & _ & Hs & _);
    [reflexivity | exact wf_frame_example | reflexivity | |].
  - repeat constructor; by eexists.
  - exists h', times. split; [exact E | exact Hs].
Defined.

(** X17: one day key that does not parse is enough for [get_times] to fail
    with ValueError: there is no partial axis. *)
Theorem get_times_bad_date h l df ds :
  h !! l = Some df → wf_frame df → cols df !! "date" = Some (StrCol ds) →
  Exists (λ d, ∃ e, date_to_datetime (String.substring 0 10 d) = Raise e) ds →
  get_times h l = Raise ValueError.
Proof.
  intros Hl Hwf Hdate Hbad.
  destruct (get_times_eval h l df ds) as (h' & _ & ->); [done..|].
  rewrite (traverse_some_Raise date_to_datetime _ ValueError); [done| |].
  - apply date_to_datetime_raises.
  - apply list.Exists_exists in Hbad as (d & Hd & e & He).
    apply list.Exists_exists. exists (String.substring 0 10 d). split; [|by exists e].
    apply elem_of_elements, elem_of_list_to_set, list_elem_of_fmap. eauto.
Qed.

Lemma get_times_bad_date_witness :
  get_times (<[1%positive := example_bad_table]> ∅) 1%positive
  = Raise ValueError.
Proof.
  apply (get_times_bad_date _ 1%positive example_bad_table
           ["2021-01-01 08:00:00.000"; "01/02/2021"]).
  - reflexivity.
  - unfold wf_frame. compute_done.
  - reflexivity.
  - right. left. by eexists.
Defined.

(** X18: the series of [get_interactions], for an interaction type other
    than "day", and the axis of [get_times] over the same table have the
    same length exactly when the window is no longer than the number of
    distinct days; with a longer window, such as the default of 10000 on a
    shorter history, the series is longer than the axis. *)
Theorem series_and_axis_lengths h l df ds ss t window :
  h !! l = Some df → wf_frame df →
  cols df !! "date" = Some (StrCol ds) → cols df !! "status" = Some ss →
  t ≠ "day" → ds ≠ [] → 1 ≤ window →
  Forall (λ d, ∃ dt, date_to_datetime (String.substring 0 10 d) = Ok dt) ds →
  ∃ h1 out h2 times,
    get_interactions h l t window = Ok (h1, out)
    ∧ get_times h l = Ok (h2, times)
    ∧ (length times ≤ length out)%nat
    ∧ (length out = length times ↔ window ≤ Z.of_nat (length times)).
Proof.
  intros Hl Hwf Hdate Hstatus Ht Hds Hw Hparse.
  set (S := list_to_set (String.substring 0 10 <$> ds) : gset string).
  destruct (daily_series_spec h l df ds ss t)
    as (h1 & agg & E & _ & _ & _ & _ & Hlen & _); [done..|]. fold S in Hlen.
  assert (1 ≤ size S)%nat as Hpos
    by (apply size_list_to_set_pos; by destruct ds).
  assert (agg.*2 ≠ []) as Hne.
  { intros Hnil. apply (f_equal length) in Hnil.
    rewrite length_fmap, Hlen in Hnil. cbn in Hnil. lia. }
  destruct (moving_average_length agg.*2 window Hne Hw) as (out & Eo & Hout).
  rewrite length_fmap, Hlen in Hout.
  destruct (get_times_eval h l df ds) as (h2 & _ & Eg); [done..|]. fold S in Eg.
  destruct (traverse_all_Ok date_to_datetime (elements S)) as (dts & Et & Hdts).
  { apply list.Forall_forall. intros k Hk.
    apply elem_of_elements, elem_of_list_to_set, list_elem_of_fmap in Hk
      as (d & -> & Hd).
    by apply (proj1 (list.Forall_forall _ _) Hparse). }
  exists h1, out, h2, (merge_sort Qcle (map date2num dts)).
  assert (length (merge_sort Qcle (map date2num dts)) = size S) as Htimes.
  { rewrite (Permutation_length (merge_sort_Permutation _ _)).
    by rewrite length_map, Hdts. }
  split.
  { unfold get_interactions. rewrite E, bind_Ok. cbn beta iota.
    by rewrite Eo, bind_Ok. }
  split; [by rewrite Eg, Et, bind_Ok|].
  rewrite Htimes, Hout. split; lia.
Qed.

Lemma series_and_axis_lengths_witness :
  ∃ h1 out h2 times,
    get_interactions example_store 1%positive "Opened" 5 = Ok (h1, out)
    ∧ get_times example_store 1%positive = Ok (h2, times)
    ∧ (length times ≤ length out)%nat.
Proof.
  destruct (series_and_axis_lengths example_store 1%positive example_table
              ["2021-01-01"; "2021-01-01"; "2021-01-01"; "2021-01-01"]
              (StrCol ["Opened"; "Opened"; "Error"; "Clicked"]) "Opened" 5)
    as (h1 & out & h2 & times & E1 & E2 & Hle & _);
    [reflexivity | exact wf_frame_example | reflexivity | reflexivity
    | discriminate | discriminate | lia | repeat constructor; by eexists |].
  exists h1, out, h2, times. split; [exact E1|]. split; [exact E2 | exact Hle].
Defined.

(** ** [plot_percentage_by_date] *)

Lemma smoothed_rate_eval h data dfc t window sc dk :
  h !! data = Some dfc → cols dfc !! "status" = Some sc →
  col_length sc = nrows dfc → cols dfc !! "day" = Some (StrCol dk) →
  t ≠ "day" → t ≠ "status" →
  ∃ dfc',
    smoothed_rate h data t window
    = (moving_average (groupby_mean dk (binarise (col_values sc) (VStr t))).*2
                      window
       ≫= λ out, Ok (<[data := dfc']> h, out))
    ∧ cols dfc' !! "status" = Some sc ∧ nrows dfc' = nrows dfc
    ∧ cols dfc' !! "day" = Some (StrCol dk).
Proof.
  intros Hl Hs Hlen Hd Ht1 Ht2.
  set (bins := binarise (col_values sc) (VStr t)).
  exists (mkDataFrame (nrows dfc) (<[t := IntCol bins]> (cols dfc))).
  split; [|cbn [cols nrows]; rewrite !lookup_insert_ne by done; done].
  unfold smoothed_rate.
  rewrite (binarise_df_effect h data dfc t "status" sc) by done.
  rewrite bind_Ok. cbn beta iota. fold bins. unfold load.
  rewrite lookup_insert_eq, bind_Ok. unfold frame_groupby_mean, getitem.
  cbn [cols]. rewrite (lookup_insert_ne _ t "day") by done.
  rewrite Hd, bind_Ok, lookup_insert_eq. by rewrite !bind_Ok.
Qed.

Lemma moving_average_raises xs window e :
  moving_average xs window = Raise e → e = ValueError.
Proof.
  unfold moving_average, ones_over, convolve_same.
  destruct (window <? 0); [by intros [= <-]|]. rewrite bind_Ok.
  repeat case_match; congruence.
Qed.

(** What [plot_percentage_by_date] does once the four series are there. *)
Lemma plot_percentage_by_date_eval h fig l df ds ss window
    opens errors clicks unsubs :
  h !! l = Some df → wf_frame df →
  cols df !! "date" = Some (StrCol ds) → cols df !! "status" = Some ss →
  moving_average (daily_rates ds ss "Opened") window = Ok opens →
  moving_average (daily_rates ds ss "Error") window = Ok errors →
  moving_average (daily_rates ds ss "Clicked") window = Ok clicks →
  moving_average (daily_rates ds ss "Unsubscribed") window = Ok unsubs →
  ∃ h',
    h' !! l = Some (mkDataFrame (nrows df)
                      (<["day" := StrCol (String.substring 0 10 <$> ds)]> (cols df)))
    ∧ plot_percentage_by_date h fig l window
      = (traverse date_to_datetime
           (elements (list_to_set (String.substring 0 10 <$> ds) : gset string))
         ≫= λ dts, four_lines fig (merge_sort Qcle (map date2num dts))
                     opens errors clicks unsubs
         ≫= λ fig', Ok (h', fig')).
Proof.
  intros Hl Hwf Hdate Hstatus HO HE HC HU.
  pose proof (Hwf _ _ Hdate) as Hlen. cbn in Hlen.
  pose proof (Hwf _ _ Hstatus) as Hss. cbn in Hss.
  set (days := String.substring 0 10 <$> ds) in *.
  assert (length days = nrows df) as Hdays
    by (unfold days; by rewrite length_fmap).
  set (df1 := mkDataFrame (nrows df) (<["day" := StrCol days]> (cols df))).
  set (h1 := <[l := df1]> h).
  set (idx := argsort String.le days).
  assert (idx ≡ₚ seq 0 (nrows df)) as Hidx
    by (unfold idx; by rewrite argsort_Permutation, Hdays).
  set (l' := fresh (dom h1)).
  assert (l' ≠ l) as Hl'.
  { intros E. apply (is_fresh (dom h1)). fold l'. rewrite E.
    apply elem_of_dom. unfold h1. rewrite lookup_insert_eq. by eexists. }
  set (df2 := mkDataFrame (nrows df) (col_take_rows idx <$> cols df1)).
  set (h2 := <[l' := df2]> h1).
  set (sc := col_take_rows idx ss).
  set (dk := take_rows idx days).
  assert (cols df2 !! "status" = Some sc) as S0.
  { cbn [cols df2 df1]. rewrite lookup_fmap, lookup_insert_ne by done.
    by rewrite Hstatus. }
  assert (col_length sc = nrows df) as N0
    by (unfold sc; rewrite col_take_rows_length; [done|by rewrite Hss]).
  assert (cols df2 !! "day" = Some (StrCol dk)) as D0.
  { cbn [cols df2 df1]. by rewrite lookup_fmap, lookup_insert_eq. }
  assert (∀ t, (groupby_mean dk (binarise (col_values sc) (VStr t))).*2
               = daily_rates ds ss t) as Hrate.
  { intros t. unfold daily_rates, dk, sc. fold days.
    rewrite groupby_mean_take_rows; [done|congruence|by rewrite Hdays]. }
  destruct (smoothed_rate_eval h2 l' df2 "Opened" window sc dk)
    as (d1 & E1 & S1 & N1 & D1); [apply lookup_insert_eq|done..|].
  destruct (smoothed_rate_eval (<[l':=d1]> h2) l' d1 "Error" window sc dk)
    as (d2 & E2 & S2 & N2 & D2);
    [apply lookup_insert_eq|done|by rewrite N1|done..|].
  destruct (smoothed_rate_eval (<[l':=d2]> (<[l':=d1]> h2)) l' d2 "Clicked"
              window sc dk)
    as (d3 & E3 & S3 & N3 & D3);
    [apply lookup_insert_eq|done|by rewrite N2, N1|done..|].
  destruct (smoothed_rate_eval (<[l':=d3]> (<[l':=d2]> (<[l':=d1]> h2))) l' d3
              "Unsubscribed" window sc dk)
    as (d4 & E4 & S4 & N4 & D4);
    [apply lookup_insert_eq|done|by rewrite N3, N2, N1|done..|].
  set (h6 := <[l':=d4]> (<[l':=d3]> (<[l':=d2]> (<[l':=d1]> h2)))) in *.
  exists h6. split.
  { unfold h6, h2. rewrite !lookup_insert_ne by done. apply lookup_insert_eq. }
  unfold plot_percentage_by_date.
  rewrite (add_day_effect h l df ds) by done.
  rewrite bind_Ok. cbn beta iota. fold days df1 h1.
  rewrite (sort_values_str h1 l df1 "day" days);
    [|apply lookup_insert_eq|apply lookup_insert_eq].
  rewrite bind_Ok. cbn beta iota. change (nrows df1) with (nrows df).
  fold idx l' df2 h2.
  rewrite E1, Hrate, HO, !bind_Ok. cbn beta iota.
  rewrite E2, Hrate, HE, !bind_Ok. cbn beta iota.
  rewrite E3, Hrate, HC, !bind_Ok. cbn beta iota.
  rewrite E4, Hrate, HU, !bind_Ok. cbn beta iota. fold h6.
  unfold load.
  assert (h6 !! l' = Some d4) as -> by apply lookup_insert_eq.
  rewrite bind_Ok.
  unfold getitem. rewrite D4, bind_Ok.
  assert ((list_to_set dk : gset string) = list_to_set days) as ->.
  { apply set_eq. intros k. rewrite !elem_of_list_to_set. unfold dk.
    rewrite take_rows_Permutation; [done|by rewrite Hdays]. }
  destruct (traverse _ _) as [dts|e]; [|done]. rewrite !bind_Ok.
  unfold four_lines.
  repeat (destruct (plot_date _ _ _ _); [rewrite ?bind_Ok|done]). done.
Qed.

Lemma plot_percentage_by_date_first h fig l df ds ss window e :
  h !! l = Some df → wf_frame df →
  cols df !! "date" = Some (StrCol ds) → cols df !! "status" = Some ss →
  moving_average (daily_rates ds ss "Opened") window = Raise e →
  plot_percentage_by_date h fig l window = Raise e.
Proof.
  intros Hl Hwf Hdate Hstatus HO.
  pose proof (Hwf _ _ Hdate) as Hlen. cbn in Hlen.
  pose proof (Hwf _ _ Hstatus) as Hss. cbn in Hss.
  set (days := String.substring 0 10 <$> ds) in *.
  assert (length days = nrows df) as Hdays
    by (unfold days; by rewrite length_fmap).
  unfold plot_percentage_by_date.
  rewrite (add_day_effect h l df ds) by done.
  rewrite bind_Ok. cbn beta iota. fold days.
  erewrite sort_values_str; [|apply lookup_insert_eq|apply lookup_insert_eq].
  rewrite bind_Ok. cbn beta iota.
  edestruct (smoothed_rate_eval) as (d1 & -> & _);
    [apply lookup_insert_eq
    |cbn [cols]; rewrite lookup_fmap, lookup_insert_ne by done;
     by rewrite Hstatus
    |cbn [nrows]; rewrite col_take_rows_length;
     [done|by rewrite Hss, argsort_Permutation, Hdays]
    |cbn [cols]; by rewrite lookup_fmap, lookup_insert_eq
    |done..|].
  unfold daily_rates in HO. fold days in HO.
  rewrite groupby_mean_take_rows;
    [|congruence|by rewrite argsort_Permutation].
  by rewrite HO.
Qed.

Lemma daily_rates_facts df ds ss t :
  wf_frame df → cols df !! "date" = Some (StrCol ds) →
  cols df !! "status" = Some ss →
  length (daily_rates ds ss t)
  = size (list_to_set (String.substring 0 10 <$> ds) : gset string)
  ∧ Forall in01 (daily_rates ds ss t).
Proof.
  intros Hwf Hdate Hstatus.
  pose proof (Hwf _ _ Hdate) as Hlen. pose proof (Hwf _ _ Hstatus) as Hss.
  cbn in Hlen, Hss. unfold daily_rates.
  destruct (groupby_mean_spec (String.substring 0 10 <$> ds)
              (binarise (col_values ss) (VStr t)))
    as (_ & _ & Hl & _ & Hv).
  { rewrite length_fmap, length_binarise, col_values_length. congruence. }
  { apply binarise_01. }
  split; [by rewrite length_fmap|].
  apply Forall_fmap. revert Hv. apply List.Forall_impl.
  intros p (_ & _ & H0 & H1). by split.
Qed.

Lemma four_lines_Ok fig time opens errors clicks unsubs :
  length opens = length time → length errors = length time →
  length clicks = length time → length unsubs = length time →
  four_lines fig time opens errors clicks unsubs
  = Ok (fig ++ [mkplot time opens "Opens"; mkplot time errors "Errors";
                mkplot time clicks "Clicks"; mkplot time unsubs "Unsubs"])%list.
Proof.
  intros H1 H2 H3 H4. unfold four_lines, plot_date.
  rewrite !decide_True, !bind_Ok by done.
  rewrite decide_True, bind_Ok by done.
  rewrite decide_True, bind_Ok by done.
  rewrite decide_True by done. by rewrite <- !app_assoc.
Qed.

(** X19: on a well-formed table whose day keys all parse, with a window
    between 1 and the number of distinct days, [plot_percentage_by_date]
    adds four lines to the figure, labelled Opens, Errors, Clicks and
    Unsubs in this order, over one ascending time axis; each line has one
    value per distinct day, none of them negative.  The table given gains
    its day column only. *)
Theorem plot_percentage_by_date_spec h fig l df ds ss window :
  h !! l = Some df → wf_frame df →
  cols df !! "date" = Some (StrCol ds) → cols df !! "status" = Some ss →
  Forall (λ d, ∃ dt, date_to_datetime (String.substring 0 10 d) = Ok dt) ds →
  1 ≤ window
  ≤ Z.of_nat (size (list_to_set (String.substring 0 10 <$> ds) : gset string)) →
  ∃ h' time opens errors clicks unsubs,
    plot_percentage_by_date h fig l window
    = Ok (h', fig ++ [mkplot time opens "Opens"; mkplot time errors "Errors";
                      mkplot time clicks "Clicks"; mkplot time unsubs "Unsubs"])%list
    ∧ Sorted Qcle time
    ∧ Forall (λ line, length line = length time ∧ Forall (Qcle 0) line)
             [opens; errors; clicks; unsubs]
    ∧ length time
      = size (list_to_set (String.substring 0 10 <$> ds) : gset string)
    ∧ h' !! l
      = Some (mkDataFrame (nrows df)
                (<["day" := StrCol (String.substring 0 10 <$> ds)]> (cols df))).
Proof.
  intros Hl Hwf Hdate Hstatus Hparse Hw.
  set (S := list_to_set (String.substring 0 10 <$> ds) : gset string) in *.
  assert (∀ t, ∃ out, moving_average (daily_rates ds ss t) window = Ok out
                      ∧ length out = size S ∧ Forall (Qcle 0) out) as Hrate.
  { intros t. destruct (daily_rates_facts df ds ss t) as [Hlen H01]; [done..|].
    fold S in Hlen.
    destruct (moving_average_length (daily_rates ds ss t) window)
      as (out & E & Hout); [|lia|].
    { intros Hnil. rewrite Hnil in Hlen. cbn in Hlen. lia. }
    exists out. split; [done|]. split; [lia|].
    apply (moving_average_Forall_nonneg (daily_rates ds ss t) window);
      [|done].
    revert H01. apply List.Forall_impl. by intros q [H0 _]. }
  destruct (Hrate "Opened") as (opens & HO & LO & BO).
  destruct (Hrate "Error") as (errors & HE & LE & BE).
  destruct (Hrate "Clicked") as (clicks & HC & LC & BC).
  destruct (Hrate "Unsubscribed") as (unsubs & HU & LU & BU).
  destruct (plot_percentage_by_date_eval h fig l df ds ss window
              opens errors clicks unsubs) as (h' & Hl' & E); [done..|].
  fold S in E.
  destruct (traverse_all_Ok date_to_datetime (elements S)) as (dts & Et & Hdts).
  { apply list.Forall_forall. intros k Hk.
    apply elem_of_elements, elem_of_list_to_set, list_elem_of_fmap in Hk
      as (d & -> & Hd).
    by apply (proj1 (list.Forall_forall _ _) Hparse). }
  set (time := merge_sort Qcle (map date2num dts)).
  assert (length time = size S) as Htime.
  { unfold time. rewrite (Permutation_length (merge_sort_Permutation _ _)).
    by rewrite length_map, Hdts. }
  exists h', time, opens, errors, clicks, unsubs.
  split.
  { rewrite E, Et, bind_Ok. fold time.
    rewrite four_lines_Ok by congruence. by rewrite bind_Ok. }
  split; [apply (Sorted_merge_sort Qcle)|].
  split; [repeat constructor; (congruence || done)|]. done.
Qed.

Lemma plot_percentage_by_date_spec_witness :
  ∃ h' time opens errors clicks unsubs,
    plot_percentage_by_date example_store [] 1%positive 1
    = Ok (h', [mkplot time opens "Opens"; mkplot time errors "Errors";
               mkplot time clicks "Clicks"; mkplot time unsubs "Unsubs"])
    ∧ length time = 1%nat.
Proof.
  destruct (plot_percentage_by_date_spec example_store [] 1%positive
              example_table
              ["2021-01-01"; "2021-01-01"; "2021-01-01"; "2021-01-01"]
              (StrCol ["Opened"; "Opened"; "Error"; "Clicked"]) 1)
    as (h' & time & opens & errors & clicks & unsubs & E & _ & _ & Hlen & _);
    [reflexivity | exact wf_frame_example | reflexivity | reflexivity
    | repeat constructor; by eexists | vm_compute; split; discriminate |].
  exists h', time, opens, errors, clicks, unsubs.
  split; [exact E|]. rewrite Hlen. reflexivity.
Defined.

Lemma traverse_cases {A B} (f : A → result B) (l : list A) (e0 : exn) :
  (∀ x e, f x = Raise e → e = e0) →
  (∃ ys, traverse f l = Ok ys ∧ length ys = length l)
  ∨ traverse f l = Raise e0.
Proof.
  intros Hf. induction l as [|x l IH]; [left; by exists []|].
  cbn [traverse]. destruct (f x) as [y|e] eqn:E.
  - rewrite bind_Ok. destruct IH as [(ys & -> & Hlen)| ->]; [|by right].
    left. exists (y :: ys). rewrite bind_Ok. split; [done|]. cbn. by rewrite Hlen.
  - right. by rewrite (Hf x e E).
Qed.

(** X20: under any other window [plot_percentage_by_date] draws nothing and
    raises ValueError: a window that is zero or negative, a table without
    rows, or a window longer than the number of distinct days, for which
    the series are longer than the time axis.  The default window of 10000
    therefore needs at least 10000 distinct days. *)
Theorem plot_percentage_by_date_fails h fig l df ds ss window :
  h !! l = Some df → wf_frame df →
  cols df !! "date" = Some (StrCol ds) → cols df !! "status" = Some ss →
  ¬ (1 ≤ window
     ≤ Z.of_nat (size (list_to_set (String.substring 0 10 <$> ds) : gset string))) →
  plot_percentage_by_date h fig l window = Raise ValueError.
Proof.
  intros Hl Hwf Hdate Hstatus Hw.
  set (S := list_to_set (String.substring 0 10 <$> ds) : gset string) in *.
  assert (∀ t, length (daily_rates ds ss t) = size S) as Hlen
    by (intros t; by destruct (daily_rates_facts df ds ss t)).
  destruct (moving_average (daily_rates ds ss "Opened") window)
    as [opens|e] eqn:HO.
  2:{ pose proof (moving_average_raises _ _ _ HO) as ->.
      by eapply plot_percentage_by_date_first. }
  assert (1 ≤ window) as Hw1.
  { destruct (decide (1 ≤ window)); [done|].
    rewrite moving_average_nonpositive in HO by lia. done. }
  assert (size S ≠ 0)%nat as Hne.
  { intros Hz. specialize (Hlen "Opened"). rewrite Hz in Hlen.
    destruct (daily_rates ds ss "Opened"); [|done].
    by rewrite moving_average_nil in HO. }
  assert (∀ t, ∃ out, moving_average (daily_rates ds ss t) window = Ok out
                      ∧ length out = Z.to_nat window) as Hrate.
  { intros t.
    destruct (moving_average_length (daily_rates ds ss t) window)
      as (out & E & Hout); [|lia|].
    { intros Hnil. specialize (Hlen t). rewrite Hnil in Hlen. cbn in Hlen. lia. }
    exists out. split; [done|]. rewrite Hout, Hlen. lia. }
  destruct (Hrate "Opened") as (opens' & HO' & LO).
  assert (opens' = opens) as -> by congruence.
  destruct (Hrate "Error") as (errors & HE & LE).
  destruct (Hrate "Clicked") as (clicks & HC & LC).
  destruct (Hrate "Unsubscribed") as (unsubs & HU & LU).
  destruct (plot_percentage_by_date_eval h fig l df ds ss window
              opens errors clicks unsubs) as (h' & _ & ->); [done..|].
  fold S.
  destruct (traverse_cases date_to_datetime (elements S) ValueError)
    as [(dts & -> & Hdts)| ->]; [apply date_to_datetime_raises| |done].
  rewrite bind_Ok. unfold four_lines, plot_date.
  rewrite decide_False; [done|].
  rewrite (Permutation_length (merge_sort_Permutation _ _)), length_map, Hdts.
  change (length (elements S)) with (size S). lia.
Qed.

Lemma plot_percentage_by_date_fails_witness :
  plot_percentage_by_date example_store [] 1%positive 10000 = Raise ValueError.
Proof.
  apply (plot_percentage_by_date_fails example_store [] 1%positive
           example_table
           ["2021-01-01"; "2021-01-01"; "2021-01-01"; "2021-01-01"]
           (StrCol ["Opened"; "Opened"; "Error"; "Clicked"]) 10000);
    [reflexivity | exact wf_frame_example | reflexivity | reflexivity |].
  vm_compute. intros [_ H]. by apply H.
Defined.

(** ** The counts of a day add up to its rows *)

Lemma indicator_sum (s : string) (targets : list string) :
  NoDup targets → s ∈ targets →
  Z_sum ((λ t, int_of_bool (py_eq (VStr s) (VStr t))) <$> targets) = 1.
Proof.
  assert (∀ T, s ∉ T →
            Z_sum ((λ t, int_of_bool (py_eq (VStr s) (VStr t))) <$> T) = 0)
    as Hout.
  { induction T as [|t T IH]; intros Hs; [done|].
    apply not_elem_of_cons in Hs as [Hne Hs]. cbn. fold (Z_sum).
    unfold py_eq. rewrite bool_decide_false by congruence.
    cbn. by apply IH. }
  induction 1 as [|t T Hnin Hnd IH]; intros Hs; [by apply elem_of_nil in Hs|].
  change (Z_sum (?f <$> t :: T)) with (f t + Z_sum (f <$> T)).
  apply elem_of_cons in Hs as [->|Hs].
  - unfold py_eq at 1. rewrite bool_decide_true by done.
    rewrite Hout by done. done.
  - unfold py_eq at 1. rewrite bool_decide_false by (intros [= ->]; done).
    rewrite IH by done. done.
Qed.

Lemma Z_sum_binarise_targets (sub : list string) (targets : list string) :
  NoDup targets → Forall (λ s, s ∈ targets) sub →
  Z_sum ((λ t, Z_sum (binarise (VStr <$> sub) (VStr t))) <$> targets)
  = Z.of_nat (length sub).
Proof.
  intros Hnd. induction 1 as [|s sub Hs _ IH]; cbn [fmap list_fmap length].
  - induction targets as [|t T IHT]; [done|].
    cbn. apply NoDup_cons_1_2 in Hnd. by rewrite <- (IHT Hnd).
  - rewrite Nat2Z.inj_succ, <- Z.add_1_l, <- IH.
    rewrite <- (indicator_sum s targets Hnd Hs).
    clear. induction targets as [|t T IHT]; [done|].
    cbn [fmap list_fmap]. change (Z_sum (?a :: ?l)) with (a + Z_sum l).
    fold (@fmap list _ _ _ (λ t, Z_sum (binarise (VStr s :: (VStr <$> sub)) (VStr t))) T).
    rewrite IHT.
    change (Z_sum (binarise (VStr s :: (VStr <$> sub)) (VStr t)))
      with (int_of_bool (py_eq (VStr s) (VStr t))
            + Z_sum (binarise (VStr <$> sub) (VStr t))).
    lia.
Qed.

Lemma group_rows_binarise k (days ss : list string) v :
  group_rows k days (binarise (VStr <$> ss) v)
  = binarise (VStr <$> (filter (λ p, p.1 = k) (zip days ss)).*2) v.
Proof.
  unfold group_rows, binarise. revert ss.
  induction days as [|d days IH]; intros [|s ss]; try done.
  cbn [fmap list_fmap zip zip_with map]. rewrite !filter_cons. cbn [fst].
  specialize (IH ss). destruct (decide (d = k)); cbn; by rewrite <- IH.
Qed.

(** X21: the counts behind the rates of one day add up to its rows: when
    the targets are distinct and every status of the table is one of them
    (as for Opened, Error, Clicked, Unsubscribed), the sums of the
    indicators of all the targets over the rows of a day, which are the
    numerators of its daily rates, add up to the number of rows of that
    day, their common denominator.  (The rates themselves are float64
    quotients and need not add up to 1 exactly.) *)
Theorem daily_counts_sum_to_rows ds ss targets k :
  NoDup targets → Forall (λ s, s ∈ targets) ss →
  Z_sum ((λ t, Z_sum (group_rows k (String.substring 0 10 <$> ds)
                        (binarise (VStr <$> ss) (VStr t)))) <$> targets)
  = Z.of_nat (length (filter (λ p, p.1 = k)
                        (zip (String.substring 0 10 <$> ds) ss))).
Proof.
  intros Hnd Hss.
  set (days := String.substring 0 10 <$> ds).
  set (sub := (filter (λ p, p.1 = k) (zip days ss)).*2).
  assert (Forall (λ s, s ∈ targets) sub) as Hsub.
  { apply list.Forall_forall. intros s Hs. unfold sub in Hs.
    apply list_elem_of_fmap in Hs as ([d s'] & -> & Hin).
    apply list_elem_of_filter in Hin as [_ Hin]. apply elem_of_zip_r in Hin.
    by apply (proj1 (list.Forall_forall _ _) Hss). }
  assert ((λ t, Z_sum (group_rows k days (binarise (VStr <$> ss) (VStr t))))
            <$> targets
          = (λ t, Z_sum (binarise (VStr <$> sub) (VStr t))) <$> targets) as ->.
  { apply list_fmap_ext. intros _ t _. by rewrite group_rows_binarise. }
  rewrite Z_sum_binarise_targets by done. unfold sub. by rewrite length_fmap.
Qed.

Lemma daily_counts_sum_to_rows_witness :
  Z_sum ((λ t, Z_sum (group_rows "2021-01-01"
                        (String.substring 0 10 <$>
                         ["2021-01-01 09:00:00.000"; "2021-01-02 10:00:00.000";
                          "2021-01-01 11:00:00.000"])
                        (binarise (VStr <$> ["Opened"; "Opened"; "Error"])
                                  (VStr t))))
         <$> ["Opened"; "Error"; "Clicked"; "Unsubscribed"])
  = 2.
Proof.
  apply (daily_counts_sum_to_rows
           ["2021-01-01 09:00:00.000"; "2021-01-02 10:00:00.000";
            "2021-01-01 11:00:00.000"]
           ["Opened"; "Opened"; "Error"]
           ["Opened"; "Error"; "Clicked"; "Unsubscribed"] "2021-01-01").
  - compute_done.
  - repeat constructor; compute_done.
Defined.

(** ** What a daily rate is, and what it does not depend on *)

Lemma count_in_group k t (l : list (string * string)) :
  length (filter (λ x, x = VStr t) (VStr <$> (filter (λ p, p.1 = k) l).*2))
  = length (filter (λ p, p.1 = k ∧ p.2 = t) l).
Proof.
  induction l as [|[d s] l IH]; [done|]. rewrite !filter_cons. cbn [fst snd].
  destruct (decide (d = k ∧ s = t)) as [[-> ->]|Hn].
  - rewrite decide_True by done. cbn [fmap list_fmap].
    rewrite filter_cons, decide_True by done. cbn [length]. f_equal. exact IH.
  - destruct (decide (d = k)) as [->|Hd]; [|exact IH].
    cbn [fmap list_fmap]. rewrite filter_cons, decide_False; [exact IH|].
    intros [= ->]. by apply Hn.
Qed.

(** X22: the daily rate of a target on a day is the share of the rows of
    that day whose status is the target: their number over the number of
    rows of the day, as a float64 quotient. *)
Theorem daily_rate_share ds ss t j k :
  group_keys (String.substring 0 10 <$> ds) !! j = Some k →
  daily_rates ds (StrCol ss) t !! j
  = Some (fl (Qc_of_Z (Z.of_nat (length (filter (λ p, p.1 = k ∧ p.2 = t)
                                           (zip (String.substring 0 10 <$> ds) ss))))
              / Qc_of_Z (Z.of_nat (length (filter (λ p, p.1 = k)
                                             (zip (String.substring 0 10 <$> ds) ss)))))%Qc).
Proof.
  intros Hj. unfold daily_rates, groupby_mean.
  rewrite <- list_fmap_compose, list_lookup_fmap, Hj.
  cbn [fmap option_fmap option_map snd compose col_values].
  change (map VStr ss) with (VStr <$> ss).
  rewrite group_rows_binarise. unfold mean.
  by rewrite Z_sum_binarise, count_in_group, length_binarise, !length_fmap.
Qed.

Lemma daily_rate_share_witness :
  group_keys (String.substring 0 10 <$>
              ["2021-01-02 09:00:00.000"; "2021-01-01 10:00:00.000";
               "2021-01-02 11:00:00.000"]) !! 1%nat = Some "2021-01-02"
  ∧ daily_rates ["2021-01-02 09:00:00.000"; "2021-01-01 10:00:00.000";
                 "2021-01-02 11:00:00.000"]
                (StrCol ["Opened"; "Opened"; "Error"]) "Opened" !! 1%nat
    = Some (fl (Qc_of_Z 1 / Qc_of_Z 2)%Qc).
Proof.
  split; [reflexivity|].
  apply (daily_rate_share
           ["2021-01-02 09:00:00.000"; "2021-01-01 10:00:00.000";
            "2021-01-02 11:00:00.000"]
           ["Opened"; "Opened"; "Error"] "Opened" 1 "2021-01-02").
  reflexivity.
Defined.

Lemma fl_daily_rates ds ss t :
  fl <$> daily_rates ds ss t = daily_rates ds ss t.
Proof.
  unfold daily_rates, groupby_mean. rewrite <- !list_fmap_compose.
  apply list_fmap_ext. intros _ k _. cbn. unfold mean. apply fl_idem.
Qed.

(** X23: with window 1, [get_interactions], for an interaction type other
    than "day", returns the daily rates themselves, one per distinct day in
    the order of the days: smoothing with window 1 changes nothing in a
    series of float64 numbers. *)
Theorem get_interactions_window_one h l df ds ss t :
  h !! l = Some df → wf_frame df →
  cols df !! "date" = Some (StrCol ds) → cols df !! "status" = Some ss →
  t ≠ "day" → ds ≠ [] →
  ∃ h', get_interactions h l t 1 = Ok (h', daily_rates ds ss t).
Proof.
  intros Hl Hwf Hdate Hstatus Ht Hds.
  destruct (daily_series_spec h l df ds ss t)
    as (h' & agg & E & -> & _); [done..|].
  destruct (daily_rates_facts df ds ss t) as [Hlen _]; [done..|].
  exists h'. unfold get_interactions. rewrite E, bind_Ok. cbn beta iota.
  fold (daily_rates ds ss t).
  rewrite moving_average_one, fl_daily_rates; [done|].
  intros Hnil. rewrite Hnil in Hlen. cbn in Hlen.
  pose proof (size_list_to_set_pos (String.substring 0 10 <$> ds)) as Hp.
  destruct ds; [done|]. specialize (Hp ltac:(done)). lia.
Qed.

Lemma get_interactions_window_one_witness :
  ∃ h', get_interactions example_store 1%positive "Error" 1
        = Ok (h', daily_rates
                    ["2021-01-01"; "2021-01-01"; "2021-01-01"; "2021-01-01"]
                    (StrCol ["Opened"; "Opened"; "Error"; "Clicked"]) "Error").
Proof.
  apply (get_interactions_window_one example_store 1%positive example_table
           ["2021-01-01"; "2021-01-01"; "2021-01-01"; "2021-01-01"]
           (StrCol ["Opened"; "Opened"; "Error"; "Clicked"]) "Error");
    [reflexivity | exact wf_frame_example | reflexivity | reflexivity
    | discriminate | discriminate].
Defined.

(** ** Sorting a table, and the order of its rows *)

Lemma elem_of_zip_seq {A} (ks : list A) k i :
  (k, i) ∈ zip ks (seq 0 (length ks)) → ks !! i = Some k.
Proof.
  intros [j Hj]%list_elem_of_lookup.
  apply lookup_zip_with_Some in Hj as (k' & i' & [= <- <-] & Hk & Hi).
  apply lookup_seq in Hi as [-> _]. done.
Qed.

Lemma take_rows_pairs {A} (ks : list A) (q : list (A * nat)) :
  q ⊆ zip ks (seq 0 (length ks)) → take_rows q.*2 ks = q.*1.
Proof.
  unfold take_rows. induction q as [|[k i] q IH]; intros Hq; [done|].
  cbn [fmap list_fmap omap list_omap snd fst].
  rewrite (elem_of_zip_seq ks k i) by (apply Hq; left).
  f_equal. apply IH. intros x Hx. apply Hq. by right.
Qed.

Lemma take_rows_argsort (ks : list string) :
  Sorted String.le (take_rows (argsort String.le ks) ks).
Proof.
  unfold argsort. change (map snd ?l) with (l.*2).
  rewrite take_rows_pairs.
  - apply (Sorted_fmap fst (λ p q : string * nat, String.le p.1 q.1));
      [done|].
    apply Sorted_merge_sort. intros p q. apply (total String.le).
  - intros x Hx. by rewrite merge_sort_Permutation in Hx.
Qed.

(** X24: [sort_values] on a column of strings leaves the given table as it
    is and makes a new one of the same rows: every column is rearranged by
    one permutation of the rows, under which the key column is ascending,
    and the new table is well formed. *)
Theorem sort_values_spec h l df by_ ks :
  h !! l = Some df → wf_frame df → cols df !! by_ = Some (StrCol ks) →
  ∃ h' l' idx,
    sort_values h l by_ = Ok (h', l')
    ∧ h !! l' = None
    ∧ (∀ l0, l0 ≠ l' → h' !! l0 = h !! l0)
    ∧ idx ≡ₚ seq 0 (nrows df)
    ∧ h' !! l' = Some (mkDataFrame (nrows df) (col_take_rows idx <$> cols df))
    ∧ Sorted String.le (take_rows idx ks)
    ∧ wf_frame (mkDataFrame (nrows df) (col_take_rows idx <$> cols df)).
Proof.
  intros Hl Hwf Hk.
  assert (length ks = nrows df) as Hn by apply (Hwf _ _ Hk).
  assert (argsort String.le ks ≡ₚ seq 0 (nrows df)) as Hidx
    by (rewrite <- Hn; apply argsort_Permutation).
  exists (<[fresh (dom h) := mkDataFrame (nrows df)
             (col_take_rows (argsort String.le ks) <$> cols df)]> h),
    (fresh (dom h)), (argsort String.le ks).
  split; [by apply sort_values_str|].
  split; [apply not_elem_of_dom, is_fresh|].
  split; [intros l0 Hl0; by rewrite lookup_insert_ne|].
  split; [done|]. split; [apply lookup_insert_eq|].
  split; [apply take_rows_argsort|].
  unfold wf_frame. cbn [cols nrows]. apply map_Forall_fmap.
  intros c col Hc. cbn. pose proof (Hwf _ _ Hc) as Hcol. cbn in Hcol.
  rewrite col_take_rows_length; [done|]. by rewrite Hcol.
Qed.

Lemma sort_values_spec_witness :
  ∃ h' l' idx,
    sort_values (<[1%positive := example_bad_table]> ∅) 1%positive "status"
    = Ok (h', l')
    ∧ (<[1%positive := example_bad_table]> ∅ : store) !! l' = None
    ∧ (∀ l0, l0 ≠ l' →
       h' !! l0 = (<[1%positive := example_bad_table]> ∅ : store) !! l0)
    ∧ idx ≡ₚ seq 0 2
    ∧ h' !! l' = Some (mkDataFrame 2 (col_take_rows idx <$> cols example_bad_table))
    ∧ Sorted String.le (take_rows idx ["Opened"; "Error"])
    ∧ wf_frame (mkDataFrame 2 (col_take_rows idx <$> cols example_bad_table)).
Proof.
  apply (sort_values_spec (<[1%positive := example_bad_table]> ∅) 1%positive
           example_bad_table "status" ["Opened"; "Error"]);
    [reflexivity | | reflexivity].
  unfold wf_frame, example_bad_table. cbn [cols nrows].
  repeat (apply map_Forall_insert_2; [reflexivity|]). apply map_Forall_empty.
Defined.

Lemma zip_days_indicators ds (ss : list value) t :
  zip (String.substring 0 10 <$> ds) (binarise ss t)
  = prod_map (String.substring 0 10) (λ x, int_of_bool (py_eq x t)) <$> zip ds ss.
Proof.
  unfold binarise. change (map ?f ss) with (f <$> ss).
  revert ss. induction ds as [|d ds IH]; intros [|s ss]; [done..|].
  cbn. f_equal. apply IH.
Qed.

(** X25: the series of [get_interactions], for an interaction type other
    than "day", does not depend on the order of the rows: two tables with
    the same rows, in any order, give the same result, or the same
    error. *)
Theorem get_interactions_row_order h1 l1 df1 ds1 ss1 h2 l2 df2 ds2 ss2 t window :
  h1 !! l1 = Some df1 → wf_frame df1 →
  cols df1 !! "date" = Some (StrCol ds1) → cols df1 !! "status" = Some ss1 →
  h2 !! l2 = Some df2 → wf_frame df2 →
  cols df2 !! "date" = Some (StrCol ds2) → cols df2 !! "status" = Some ss2 →
  t ≠ "day" →
  zip ds1 (col_values ss1) ≡ₚ zip ds2 (col_values ss2) →
  returned (get_interactions h1 l1 t window)
  = returned (get_interactions h2 l2 t window).
Proof.
  intros Hl1 Hwf1 Hd1 Hs1 Hl2 Hwf2 Hd2 Hs2 Ht Hperm.
  destruct (daily_series_spec h1 l1 df1 ds1 ss1 t)
    as (h1' & agg1 & E1 & -> & _); [done..|].
  destruct (daily_series_spec h2 l2 df2 ds2 ss2 t)
    as (h2' & agg2 & E2 & -> & _); [done..|].
  assert (length ds1 = length (col_values ss1)) as Hn1.
  { rewrite col_values_length.
    pose proof (Hwf1 _ _ Hd1) as H1. pose proof (Hwf1 _ _ Hs1) as H2.
    cbn in H1. congruence. }
  assert (length ds2 = length (col_values ss2)) as Hn2.
  { rewrite col_values_length.
    pose proof (Hwf2 _ _ Hd2) as H1. pose proof (Hwf2 _ _ Hs2) as H2.
    cbn in H1. congruence. }
  assert (groupby_mean (String.substring 0 10 <$> ds1)
            (binarise (col_values ss1) (VStr t))
          = groupby_mean (String.substring 0 10 <$> ds2)
              (binarise (col_values ss2) (VStr t))) as Hagg.
  { apply groupby_mean_Permutation.
    - by rewrite length_fmap, length_binarise.
    - by rewrite length_fmap, length_binarise.
    - rewrite !zip_days_indicators. by rewrite Hperm. }
  unfold get_interactions. rewrite E1, E2, !bind_Ok. cbn beta iota.
  rewrite Hagg.
  by destruct (moving_average _ window).
Qed.

Lemma get_interactions_row_order_witness :
  returned (get_interactions example_store 1%positive "Opened" 1)
  = returned (get_interactions (<[1%positive := example_shuffled]> ∅)
                1%positive "Opened" 1).
Proof.
  apply (get_interactions_row_order example_store 1%positive example_table
           ["2021-01-01"; "2021-01-01"; "2021-01-01"; "2021-01-01"]
           (StrCol ["Opened"; "Opened"; "Error"; "Clicked"])
           (<[1%positive := example_shuffled]> ∅) 1%positive example_shuffled
           ["2021-01-01"; "2021-01-01"; "2021-01-01"; "2021-01-01"]
           (StrCol ["Error"; "Opened"; "Opened"; "Clicked"]) "Opened" 1);
    [reflexivity | exact wf_frame_example | reflexivity | reflexivity
    | reflexivity | | reflexivity | reflexivity | discriminate | ].
  - unfold wf_frame, example_shuffled. cbn [cols nrows].
    repeat (apply map_Forall_insert_2; [reflexivity|]). apply map_Forall_empty.
  - cbn [col_values map zip zip_with].
    compute_done.
Defined.
